(** * AptosDeFiHub: liquidity-position rebalancing engine

    A shallow embedding of the decision logic of the rebalancing bot
    (position classifier and positions report, ratio calculator with its
    balance fetch, allocation searches, swap payload, transaction executor
    with its cooldown table, rebalancing check, orchestrator and batch
    controller, webhook handler), followed by the properties proved about
    it.

    Conventions of the embedding:
    - a JavaScript [number] is idealised as an exact rational ([Q]); ticks,
      raw token amounts and timestamps, which the code only ever handles
      as integers, are [Z];
    - a remote call (SDK, RPC, timer) is an argument of the model: the
      value it returned, or the exception it raised;
    - [try { .. } catch] is an explicit case analysis on a [Result];
    - console output and the messages sent to the notification sink are
      left out; an error message is kept up to its first interpolated
      number. *)

From Stdlib Require Import ZArith QArith Qround Qabs Qpower Qfield Lqa String Ascii List Lia Bool.
From stdpp Require Import gmap strings.
Import ListNotations.
Open Scope Z_scope.

(** ** JavaScript values *)

Definition number := Q.
Bind Scope Q_scope with number.

Definition Math_floor (x : number) : Z := Qfloor x.
Definition Math_ceil (x : number) : Z := Qceiling x.
Definition Math_abs (x : number) : number := Qabs x.
Definition Math_max (a b : number) : number := if Qle_bool a b then b else a.

(** [a < b], [a <= b], [a > b], [a >= b] and [a === b] on numbers. *)
Definition num_lt (a b : number) : bool := negb (Qle_bool b a).
Definition num_le (a b : number) : bool := Qle_bool a b.
Definition num_gt (a b : number) : bool := num_lt b a.
Definition num_ge (a b : number) : bool := num_le b a.
Definition num_eq (a b : number) : bool := Qeq_bool a b.

(** [10 ** d] *)
Definition pow10 (d : Z) : number := Qpower 10 d.

(** An awaited call either yields a value or raises. *)
Inductive Result (A : Type) : Type :=
  | Ok (a : A)
  | Throw (message : string).
Arguments Ok {A} a.
Arguments Throw {A} message.

Definition bindR {A B} (r : Result A) (k : A -> Result B) : Result B :=
  match r with
  | Ok a => k a
  | Throw e => Throw e
  end.

Notation "'await' x := r 'in' k" := (bindR r (fun x => k))
  (at level 10, x name, r at level 100, k at level 200).

(** [String(error)] for an [Error] object carrying [message]. *)
Definition String_of_error (message : string) : string :=
  ("Error: " ++ message)%string.

(** [s.toLowerCase()] on the ASCII range (pool ids are hex strings). *)
Definition lower_ascii (c : ascii) : ascii :=
  let n := nat_of_ascii c in
  if ((65 <=? n) && (n <=? 90))%nat then ascii_of_nat (n + 32) else c.

Fixpoint toLowerCase (s : string) : string :=
  match s with
  | EmptyString => EmptyString
  | String c s' => String (lower_ascii c) (toLowerCase s')
  end.

Definition samePoolId (a b : string) : bool :=
  String.eqb (toLowerCase a) (toLowerCase b).

(** JavaScript truthiness of an optional string. *)
Definition truthy_string (x : option string) : bool :=
  match x with Some s => negb (String.eqb s "") | None => false end.

(** ** config/pools.ts *)

Module Pools.

(** [rangePercent?: number | null] *)
Inductive RangePercent : Type :=
  | RangeUndefined
  | RangeNull
  | RangeNumber (percent : number).

Record PoolConfig : Type := {
  poolId : string;
  name : string;
  enabled : bool;
  rangePercent : RangePercent
}.

Definition DEFAULT_POOLS_TO_MANAGE : list PoolConfig := [
  {| poolId := "0xbab8526a9eb7403a444fcc1f73bf02d8f94dafd3c88a02b5736a1a77fafe4169";
     name := "APT/kAPT"; enabled := false; rangePercent := RangeNull |};
  {| poolId := "0x925660b8618394809f89f8002e2926600c775221f43bf1919782b297a79400d8";
     name := "APT/USDC"; enabled := false; rangePercent := RangeNumber 5 |};
  {| poolId := "0x18269b1090d668fbbc01902fa6a5ac6e75565d61860ddae636ac89741c883cbc";
     name := "APT/USDT"; enabled := true; rangePercent := RangeNumber 5 |};
  {| poolId := "0x9878b6f039b1fce27240fd51f536fceefac939268ecaa8dd6c84b7640177abe4";
     name := "APT/stkAPT"; enabled := false; rangePercent := RangeNull |}
].

(** An entry of the list handed to the filter:
    [{ poolId: string, rangePercent: number | null }]; [None] is [null]. *)
Record FilterConfig : Type := {
  f_poolId : string;
  f_rangePercent : option number
}.

(** [p.rangePercent ?? null] *)
Definition nullish (r : RangePercent) : option number :=
  match r with
  | RangeNumber q => Some q
  | RangeNull | RangeUndefined => None
  end.

Definition getPoolConfigsForFilter : list FilterConfig :=
  map (fun p => {| f_poolId := poolId p; f_rangePercent := nullish (rangePercent p) |})
      DEFAULT_POOLS_TO_MANAGE.

End Pools.

(** ** libs/hyperion/read.ts: positions and their classification *)

Module Read.
Import Pools.

Record TokenInfo : Type := {
  symbol : string;
  decimals : Z
}.

(** [pos.position.pool]. [sqrtPrice] is the value of [Number(pool.sqrtPrice)].
    The token descriptors come from the indexer unchecked: [None] stands
    for a payload in which the field is absent, so that reading
    [pool.token1Info.decimals] raises a [TypeError]. *)
Record PoolData : Type := {
  currentTick : Z;
  pool_poolId : string;
  sqrtPrice : number;
  token1Info : option TokenInfo;
  token2Info : option TokenInfo
}.

(** [pos.position] of a [HyperionPosition]; [createdAt] is the value of
    [new Date(createdAt).getTime()]. *)
Record HyperionPosition : Type := {
  objectId : string;
  tickLower : Z;
  tickUpper : Z;
  createdAt : Z;
  pool : PoolData
}.

(** [tickLower < currentTick && currentTick < tickUpper] *)
Definition isActive (pos : HyperionPosition) : bool :=
  (tickLower pos <? currentTick (pool pos)) && (currentTick (pool pos) <? tickUpper pos).

(** [poolConfigs?.find(config => config.poolId.toLowerCase() === pool.poolId.toLowerCase())] *)
Definition findPoolConfig (poolConfigs : option (list FilterConfig)) (id : string)
  : option FilterConfig :=
  match poolConfigs with
  | None => None
  | Some cfgs => find (fun config => samePoolId (f_poolId config) id) cfgs
  end.

(** [poolConfig?.rangePercent] *)
Definition lookupRangePercent (poolConfigs : option (list FilterConfig)) (id : string)
  : RangePercent :=
  match findPoolConfig poolConfigs id with
  | None => RangeUndefined
  | Some config =>
      match f_rangePercent config with
      | None => RangeNull
      | Some q => RangeNumber q
      end
  end.

(** [(Number(sqrtPrice) / 2 ** 64) ** 2 * 10 ** (dec1 - dec2)] *)
Definition priceOf (sqrtPriceValue : number) (dec1 dec2 : Z) : number :=
  let sqrtPriceDecimal := (sqrtPriceValue / inject_Z (2 ^ 64))%Q in
  let decimalsRatio := pow10 (dec1 - dec2) in
  ((sqrtPriceDecimal * sqrtPriceDecimal) * decimalsRatio)%Q.

(** The two shares of the position value, in percent, valued in token2. *)
Definition pctToken1 (token1Amount token2Amount price : number) : number :=
  let valueToken1InToken2 := (token1Amount * price)%Q in
  let totalValueInToken2 := (valueToken1InToken2 + token2Amount)%Q in
  if num_gt totalValueInToken2 0
  then ((valueToken1InToken2 / totalValueInToken2) * 100)%Q else 0%Q.

Definition pctToken2 (token1Amount token2Amount price : number) : number :=
  let valueToken1InToken2 := (token1Amount * price)%Q in
  let totalValueInToken2 := (valueToken1InToken2 + token2Amount)%Q in
  if num_gt totalValueInToken2 0
  then ((token2Amount / totalValueInToken2) * 100)%Q else 0%Q.

(** The [if (rangePercent === null) .. else ..] block. *)
Definition needsRebalancing (rangePercent : RangePercent) (active : bool)
    (pct1 pct2 : number) : bool :=
  match rangePercent with
  | RangeNull =>
      if negb active then true
      else if num_eq pct1 0 || num_eq pct2 0 then true
      else false
  | RangeUndefined | RangeNumber _ =>
      if num_lt pct1 10 || num_lt pct2 10 then true else false
  end.

(** Reading a field of a descriptor that may be missing. *)
Definition field {A} (o : option A) : Result A :=
  match o with
  | Some a => Ok a
  | None => Throw "Cannot read properties of undefined"
  end.

Section Classifier.

(** [sdk.Position.fetchTokensAmountByPositionId({ positionId })]:
    the raw amounts [t1, t2], or the exception. *)
Variable fetchTokensAmountByPositionId : string -> Result (Z * Z).
Variable poolConfigs : option (list FilterConfig).

(** The body of the outer [try]: [Ok true] when the position is pushed,
    [Ok false] when the iteration ends without a push (including the
    [continue] of the inner [catch]), [Throw] when control reaches the
    outer [catch]. *)
Definition analysePosition (pos : HyperionPosition) : Result bool :=
  let p := pool pos in
  let rangePercent := lookupRangePercent poolConfigs (pool_poolId p) in
  await info1 := field (token1Info p) in
  await info2 := field (token2Info p) in
  let price := priceOf (sqrtPrice p) (decimals info1) (decimals info2) in
  match fetchTokensAmountByPositionId (objectId pos) with
  | Throw _ => Ok false
  | Ok (t1, t2) =>
      let token1Amount := (inject_Z t1 / pow10 (decimals info1))%Q in
      let token2Amount := (inject_Z t2 / pow10 (decimals info2))%Q in
      Ok (needsRebalancing rangePercent (isActive pos)
            (pctToken1 token1Amount token2Amount price)
            (pctToken2 token1Amount token2Amount price))
  end.

(** One iteration of [for (const pos of positions)]: is [pos] pushed? *)
Definition flagged (pos : HyperionPosition) : bool :=
  match analysePosition pos with
  | Ok b => b
  | Throw _ => negb (isActive pos)
  end.

Definition filterInactivePositions (positions : list HyperionPosition)
  : list HyperionPosition :=
  fold_left (fun positionsToRebalance pos =>
               if flagged pos then positionsToRebalance ++ [pos]
               else positionsToRebalance)
            positions [].

End Classifier.

(** [filterActivePositions] *)
Definition filterActivePositions (positions : list HyperionPosition)
  : list HyperionPosition :=
  List.filter isActive positions.

End Read.

(** ** libs/hyperion/read.ts: the ratio calculator *)

Module Ratio.
Import Pools.

(** The SDK's [FeeTierIndex] members used by [feeConfig]. *)
Inductive FeeTierIndex : Type :=
  | PER_0_01_SPACING_1
  | PER_0_05_SPACING_5
  | PER_0_3_SPACING_60
  | PER_1_SPACING_200.

Record FeeConfig : Type := {
  index : FeeTierIndex;
  spacing : Z;
  tier : Z
}.

Definition feeConfig (feeRate : Z) : option FeeConfig :=
  if feeRate =? 100 then Some {| index := PER_0_01_SPACING_1; spacing := 1; tier := 0 |}
  else if feeRate =? 500 then Some {| index := PER_0_05_SPACING_5; spacing := 5; tier := 1 |}
  else if feeRate =? 3000 then Some {| index := PER_0_3_SPACING_60; spacing := 60; tier := 2 |}
  else if feeRate =? 10000 then Some {| index := PER_1_SPACING_200; spacing := 200; tier := 3 |}
  else None.

(** [feeConfig[feeRate] || feeConfig[3000]] *)
Definition feeConfigFor (feeRate : Z) : FeeConfig :=
  match feeConfig feeRate with
  | Some c => c
  | None => {| index := PER_0_3_SPACING_60; spacing := 60; tier := 2 |}
  end.

(** The arguments of [sdk.Pool.estCurrencyBAmountFromA]. *)
Record EstArgs : Type := {
  currencyA : string;
  currencyB : string;
  currencyAAmount : Z;
  est_feeTierIndex : FeeTierIndex;
  est_tickLower : Z;
  est_tickUpper : Z;
  currentPriceTick : Z
}.

(** The liquidity-math oracle: the raw amount of token B it answered to
    the [n]-th query of a run, or the exception it raised. *)
Definition Estimator : Type := nat -> EstArgs -> Result Z.

(** [pool[0].pool], with [feeRate = Number.parseInt(feeRateStr)] and
    [sqrtPrice = Number(sqrtPrice)]. *)
Record PoolInfo : Type := {
  currentTick : Z;
  feeRate : Z;
  sqrtPrice : number;
  token1 : string;
  token2 : string;
  token1Symbol : string;
  token2Symbol : string;
  token1Decimals : Z;
  token2Decimals : Z
}.

(** The swap fields of [RatioResponseData], which are set together. *)
Record SwapPlan : Type := {
  swapAmount : number;
  swapAmountRaw : Z;
  swapFromToken : string;
  swapToToken : string;
  swapFromSymbol : string;
  swapToSymbol : string
}.

(** [RatioResponseData] without its display-only fields ([feeAPR],
    [farmAPR], [tvlUSD]). *)
Record RatioResponseData : Type := {
  r_poolId : string;
  token1Address : string;
  token2Address : string;
  r_token1Symbol : string;
  r_token2Symbol : string;
  r_currentTick : Z;
  feeTierIndex : FeeTierIndex;
  tickLower : Z;
  tickUpper : Z;
  r_feeRate : Z;
  liquidityRatio : number;
  marketPrice : number;
  token1Balance : number;
  token2Balance : number;
  availableToken1 : number;
  r_token1Decimals : Z;
  r_token2Decimals : Z;
  swap : option SwapPlan
}.

(** The [else] branch of "Calculate tick range": one spacing band on each
    side of the current tick. *)
Definition tightestRange (currentTick tickSpacing : Z) : Z * Z :=
  (Math_floor (inject_Z (currentTick - tickSpacing) / inject_Z tickSpacing) * tickSpacing,
   Math_ceil (inject_Z (currentTick + tickSpacing) / inject_Z tickSpacing) * tickSpacing).

(** [Number(priceToTick({ price, feeTierIndex, decimalsRatio }) || 0)] *)
Definition orZero (t : option number) : number :=
  match t with
  | Some q => q
  | None => 0
  end.

Definition customRange
    (priceToTick : number -> FeeTierIndex -> number -> option number)
    (rangePercent marketPrice decimalsRatio : number)
    (feeTierIndex : FeeTierIndex) (tickSpacing : Z) : Z * Z :=
  let priceDelta := (rangePercent / 100)%Q in
  let lowerPrice := (marketPrice * (1 - priceDelta))%Q in
  let upperPrice := (marketPrice * (1 + priceDelta))%Q in
  let rawTickLower := orZero (priceToTick lowerPrice feeTierIndex decimalsRatio) in
  let rawTickUpper := orZero (priceToTick upperPrice feeTierIndex decimalsRatio) in
  (Math_floor (rawTickLower / inject_Z tickSpacing) * tickSpacing,
   Math_ceil (rawTickUpper / inject_Z tickSpacing) * tickSpacing).

(** [if (rangePercent !== null && rangePercent !== undefined) .. else ..] *)
Definition tickRange
    (priceToTick : number -> FeeTierIndex -> number -> option number)
    (rangePercent : RangePercent) (currentTick : Z)
    (marketPrice decimalsRatio : number)
    (feeTierIndex : FeeTierIndex) (tickSpacing : Z) : Z * Z :=
  match rangePercent with
  | RangeNumber percent =>
      customRange priceToTick percent marketPrice decimalsRatio feeTierIndex tickSpacing
  | RangeNull | RangeUndefined => tightestRange currentTick tickSpacing
  end.

(** "Calculate optimal amounts based on liquidity ratio" *)
Definition totalValueInToken2 (availableToken1 marketPrice token2Balance : number) : number :=
  (availableToken1 * marketPrice + token2Balance)%Q.

Definition optimalToken1Amount
    (availableToken1 marketPrice liquidityRatio token2Balance : number) : number :=
  (totalValueInToken2 availableToken1 marketPrice token2Balance
     / (marketPrice + liquidityRatio))%Q.

Definition optimalToken2Amount
    (availableToken1 marketPrice liquidityRatio token2Balance : number) : number :=
  (optimalToken1Amount availableToken1 marketPrice liquidityRatio token2Balance
     * liquidityRatio)%Q.

Definition isAPTstkAPTPool (token1Symbol token2Symbol : string) : bool :=
  (String.eqb token1Symbol "APT" && String.eqb token2Symbol "stkAPT")
  || (String.eqb token1Symbol "stkAPT" && String.eqb token2Symbol "APT").

(** The threshold test and the two swap directions, which the source
    writes out once for the APT/stkAPT pair and once for the other pools. *)
Definition swapFor (p : PoolInfo)
    (availableToken1 token2Balance token1Deficit token2Deficit : number)
  : option SwapPlan :=
  let minSwapThreshold := (1 # 100)%Q in
  if num_gt (Math_abs token1Deficit) minSwapThreshold
     || num_gt (Math_abs token2Deficit) minSwapThreshold
  then
    if num_gt token1Deficit 0 && num_gt token2Balance (Math_abs token2Deficit)
    then Some {| swapAmount := Math_abs token2Deficit;
                 swapAmountRaw :=
                   Math_floor (Math_abs token2Deficit * pow10 (token2Decimals p));
                 swapFromToken := token2 p; swapToToken := token1 p;
                 swapFromSymbol := token2Symbol p; swapToSymbol := token1Symbol p |}
    else if num_gt token2Deficit 0 && num_gt availableToken1 (Math_abs token1Deficit)
    then Some {| swapAmount := Math_abs token1Deficit;
                 swapAmountRaw :=
                   Math_floor (Math_abs token1Deficit * pow10 (token1Decimals p));
                 swapFromToken := token1 p; swapToToken := token2 p;
                 swapFromSymbol := token1Symbol p; swapToSymbol := token2Symbol p |}
    else None
  else None.

Definition swapDecision (p : PoolInfo)
    (availableToken1 token2Balance optimal1 optimal2 : number) : option SwapPlan :=
  if num_gt availableToken1 0 || num_gt token2Balance 0 then
    let token1Deficit := (optimal1 - availableToken1)%Q in
    let token2Deficit := (optimal2 - token2Balance)%Q in
    if isAPTstkAPTPool (token1Symbol p) (token2Symbol p) then
      let minimumBalanceThreshold := (1 # 100)%Q in
      let token1HasAnyBalance := num_ge availableToken1 minimumBalanceThreshold in
      let token2HasAnyBalance := num_ge token2Balance minimumBalanceThreshold in
      if negb token1HasAnyBalance && negb token2HasAnyBalance then None
      else swapFor p availableToken1 token2Balance token1Deficit token2Deficit
    else swapFor p availableToken1 token2Balance token1Deficit token2Deficit
  else None.

(** [calculateOptimalRatioData], from the pool snapshot on. [pool] is the
    answer of [fetchPoolById] ([None]: no pool), [balance1] and [balance2]
    are the balances left by the retrying fetch loop, [est] the oracle. *)
Definition calculateOptimalRatioData
    (priceToTick : number -> FeeTierIndex -> number -> option number)
    (est : Estimator)
    (targetPoolId : string) (rangePercent : RangePercent)
    (pool : option PoolInfo) (balance1 balance2 : number)
  : option RatioResponseData :=
  match pool with
  | None => None
  | Some p =>
      let gasReserveAPT := 1%Q in
      let cfg := feeConfigFor (feeRate p) in
      let feeTierIndex := index cfg in
      let tickSpacing := spacing cfg in
      let sqrtPriceDecimal := (sqrtPrice p / inject_Z (2 ^ 64))%Q in
      let decimalsRatio := pow10 (token1Decimals p - token2Decimals p) in
      let marketPrice := ((sqrtPriceDecimal * sqrtPriceDecimal) * decimalsRatio)%Q in
      let '(tickLower, tickUpper) :=
        tickRange priceToTick rangePercent (currentTick p) marketPrice decimalsRatio
                  feeTierIndex tickSpacing in
      let token1Balance := balance1 in
      let token2Balance := balance2 in
      let availableToken1 :=
        if String.eqb (token1Symbol p) "APT"
        then Math_max 0 (token1Balance - gasReserveAPT)
        else token1Balance in
      let largeTestAmount := Math_floor (1000 * pow10 (token1Decimals p)) in
      match est 0%nat {| currencyA := token1 p; currencyB := token2 p;
                         currencyAAmount := largeTestAmount;
                         est_feeTierIndex := feeTierIndex;
                         est_tickLower := tickLower; est_tickUpper := tickUpper;
                         currentPriceTick := currentTick p |} with
      | Throw _ => None
      | Ok token2NeededRaw =>
          let token1TestAmount := (inject_Z largeTestAmount / pow10 (token1Decimals p))%Q in
          let token2NeededAmount := (inject_Z token2NeededRaw / pow10 (token2Decimals p))%Q in
          let liquidityRatio := (token2NeededAmount / token1TestAmount)%Q in
          let optimal1 :=
            optimalToken1Amount availableToken1 marketPrice liquidityRatio token2Balance in
          let optimal2 :=
            optimalToken2Amount availableToken1 marketPrice liquidityRatio token2Balance in
          Some {| r_poolId := targetPoolId;
                  token1Address := token1 p; token2Address := token2 p;
                  r_token1Symbol := token1Symbol p; r_token2Symbol := token2Symbol p;
                  r_currentTick := currentTick p;
                  feeTierIndex := feeTierIndex;
                  tickLower := tickLower; tickUpper := tickUpper;
                  r_feeRate := feeRate p;
                  liquidityRatio := liquidityRatio; marketPrice := marketPrice;
                  token1Balance := token1Balance; token2Balance := token2Balance;
                  availableToken1 := availableToken1;
                  r_token1Decimals := token1Decimals p;
                  r_token2Decimals := token2Decimals p;
                  swap := swapDecision p availableToken1 token2Balance optimal1 optimal2 |}
      end
  end.

End Ratio.

(** ** libs/hyperion/createPool.ts: the allocation search *)

Module CreatePool.
Import Ratio.

Definition APT_FA_ADDRESS : string :=
  "0x000000000000000000000000000000000000000000000000000000000000000a".
Definition APT_COIN_TYPE : string := "0x1::aptos_coin::AptosCoin".

Definition convertAPTAddressForTransaction (address : string) : string :=
  if String.eqb address APT_FA_ADDRESS || String.eqb address "0xa"
  then APT_COIN_TYPE else address.

(** The [ratioData] argument of [getCreatePoolPayload]. *)
Record RatioData : Type := {
  token1Address : string;
  token2Address : string;
  feeTierIndex : FeeTierIndex;
  currentTick : Z;
  tickLower : Z;
  tickUpper : Z;
  token1Balance : number;
  token2Balance : number;
  availableToken1 : number;
  token1Decimals : Z;
  token2Decimals : Z;
  token1Symbol : string;
  token2Symbol : string
}.

(** The [params] handed to [sdk.Pool.createPoolTransactionPayload]. *)
Record CreatePoolParams : Type := {
  p_currencyA : string;
  p_currencyB : string;
  p_currencyAAmount : Z;
  p_currencyBAmount : Z;
  p_feeTierIndex : FeeTierIndex;
  p_currentPriceTick : Z;
  p_tickLower : Z;
  p_tickUpper : Z;
  slippage : number
}.

(** The mutable variables of the search. *)
Record SearchState : Type := {
  bestToken1Amount : number;
  bestToken2Amount : number;
  bestToken1AmountRaw : Z;
  bestToken2AmountRaw : Z;
  found : bool;
  minPercentage : number;
  maxPercentage : number;
  iteration : nat
}.

Definition maxIterations : nat := 20.
Definition tolerance : number := (1 # 10)%Q.
Definition fallbackPercentage : number := 80%Q.

Definition initialSearch : SearchState :=
  {| bestToken1Amount := 0; bestToken2Amount := 0;
     bestToken1AmountRaw := 0; bestToken2AmountRaw := 0;
     found := false;
     minPercentage := 50; maxPercentage := (999 # 10)%Q;
     iteration := 0 |}.

(** What one candidate percentage evaluates to. *)
Record Candidate : Type := {
  adjustedToken1Amount : number;
  roundedRequiredToken2 : number;
  roundedToken1AmountRaw : Z;
  roundedToken2AmountRaw : Z
}.

Section SearchLoop.

Variable est : Estimator.
Variable ratioData : RatioData.

(** The candidate evaluation, written out in the loop and again in the
    fallback: scale, floor to raw units, floor to a multiple of 1000,
    query the oracle, floor its answer to a multiple of 1000. *)
Definition evaluate (call : nat) (percentage : number) : Result Candidate :=
  let adjusted := (availableToken1 ratioData * (percentage / 100))%Q in
  let token1AmountRaw := Math_floor (adjusted * pow10 (token1Decimals ratioData)) in
  let roundedToken1 := Math_floor (inject_Z token1AmountRaw / 1000) * 1000 in
  await requiredToken2Raw :=
    est call {| currencyA := token1Address ratioData;
                currencyB := token2Address ratioData;
                currencyAAmount := roundedToken1;
                est_feeTierIndex := feeTierIndex ratioData;
                est_tickLower := tickLower ratioData;
                est_tickUpper := tickUpper ratioData;
                currentPriceTick := currentTick ratioData |} in
  let roundedToken2 := Math_floor (inject_Z requiredToken2Raw / 1000) * 1000 in
  Ok {| adjustedToken1Amount := adjusted;
        roundedRequiredToken2 :=
          (inject_Z roundedToken2 / pow10 (token2Decimals ratioData))%Q;
        roundedToken1AmountRaw := roundedToken1;
        roundedToken2AmountRaw := roundedToken2 |}.

Definition record (s : SearchState) (c : Candidate) : SearchState :=
  {| bestToken1Amount := adjustedToken1Amount c;
     bestToken2Amount := roundedRequiredToken2 c;
     bestToken1AmountRaw := roundedToken1AmountRaw c;
     bestToken2AmountRaw := roundedToken2AmountRaw c;
     found := true;
     minPercentage := minPercentage s;
     maxPercentage := maxPercentage s;
     iteration := iteration s |}.

Definition searchHigher (s : SearchState) (p : number) : SearchState :=
  {| bestToken1Amount := bestToken1Amount s; bestToken2Amount := bestToken2Amount s;
     bestToken1AmountRaw := bestToken1AmountRaw s;
     bestToken2AmountRaw := bestToken2AmountRaw s;
     found := found s;
     minPercentage := p; maxPercentage := maxPercentage s;
     iteration := iteration s |}.

Definition searchLower (s : SearchState) (p : number) : SearchState :=
  {| bestToken1Amount := bestToken1Amount s; bestToken2Amount := bestToken2Amount s;
     bestToken1AmountRaw := bestToken1AmountRaw s;
     bestToken2AmountRaw := bestToken2AmountRaw s;
     found := found s;
     minPercentage := minPercentage s; maxPercentage := p;
     iteration := iteration s |}.

Definition nextIteration (s : SearchState) : SearchState :=
  {| bestToken1Amount := bestToken1Amount s; bestToken2Amount := bestToken2Amount s;
     bestToken1AmountRaw := bestToken1AmountRaw s;
     bestToken2AmountRaw := bestToken2AmountRaw s;
     found := found s;
     minPercentage := minPercentage s; maxPercentage := maxPercentage s;
     iteration := S (iteration s) |}.

(** [iteration < maxIterations && (maxPercentage - minPercentage) > tolerance] *)
Definition continues (s : SearchState) : bool :=
  (iteration s <? maxIterations)%nat
  && num_gt (maxPercentage s - minPercentage s) tolerance.

(** The body of the [while] loop. *)
Definition iterate (s0 : SearchState) : SearchState :=
  let s := nextIteration s0 in
  let currentPercentage := ((minPercentage s + maxPercentage s) / 2)%Q in
  match evaluate (iteration s) currentPercentage with
  | Ok c =>
      if num_le (roundedRequiredToken2 c) (token2Balance ratioData)
      then searchHigher (record s c) currentPercentage
      else searchLower s currentPercentage
  | Throw _ => searchLower s currentPercentage
  end.

(** The [while] loop; [fuel] bounds the unfolding and [maxIterations]
    always suffices (lemma [binarySearch_stops]). *)
Fixpoint binarySearch (fuel : nat) (s : SearchState) : SearchState :=
  match fuel with
  | O => s
  | S fuel' => if continues s then binarySearch fuel' (iterate s) else s
  end.

(** "Final fallback: if binary search didn't find anything, try a
    conservative 80%". *)
Definition fallback (s : SearchState) : SearchState :=
  if found s then s
  else
    match evaluate (S (iteration s)) fallbackPercentage with
    | Ok c =>
        if num_le (roundedRequiredToken2 c) (token2Balance ratioData)
        then record s c else s
    | Throw _ => s
    end.

Definition allocationSearch : SearchState :=
  fallback (binarySearch maxIterations initialSearch).

(** [getCreatePoolPayload] up to the call of the SDK's payload builder:
    the parameters it is called with, or the error raised before. *)
Definition getCreatePoolPayload (apiKey : option string) : Result CreatePoolParams :=
  let minimumForPosition := (1 # 1000)%Q in
  if num_lt (availableToken1 ratioData) minimumForPosition
  then Throw ("Insufficient " ++ token1Symbol ratioData ++ " for position creation")
  else if num_lt (token2Balance ratioData) minimumForPosition
  then Throw ("Insufficient " ++ token2Symbol ratioData ++ " for position creation")
  else if negb (truthy_string apiKey)
  then Throw "APTOS_API_KEY environment variable is not set."
  else if num_le (availableToken1 ratioData) 0
  then Throw "No token1 available for pool creation"
  else
    let s := allocationSearch in
    if negb (found s) then Throw "No feasible allocation found"
    else
      let requiredToken1Raw := bestToken1AmountRaw s in
      let requiredToken2Raw := bestToken2AmountRaw s in
      let availableToken1Raw :=
        Math_floor (availableToken1 ratioData * pow10 (token1Decimals ratioData)) in
      let availableToken2Raw :=
        Math_floor (token2Balance ratioData * pow10 (token2Decimals ratioData)) in
      if requiredToken1Raw >? availableToken1Raw
      then Throw ("Insufficient " ++ token1Symbol ratioData ++ " balance")
      else if requiredToken2Raw >? availableToken2Raw
      then Throw ("Insufficient " ++ token2Symbol ratioData ++ " balance")
      else
        Ok {| p_currencyA := convertAPTAddressForTransaction (token1Address ratioData);
              p_currencyB := convertAPTAddressForTransaction (token2Address ratioData);
              p_currencyAAmount := bestToken1AmountRaw s;
              p_currencyBAmount := bestToken2AmountRaw s;
              p_feeTierIndex := feeTierIndex ratioData;
              p_currentPriceTick := currentTick ratioData;
              p_tickLower := tickLower ratioData;
              p_tickUpper := tickUpper ratioData;
              slippage := (1 # 10)%Q |}.

(** The width of the search interval after [k] iterations. *)
Fixpoint width (k : nat) : number :=
  match k with
  | O => ((999 # 10) - 50)%Q
  | S k' => (width k' / 2)%Q
  end.

(** What every iteration preserves: the interval stays inside
    [[50, 99.9]] and halves, and a recorded allocation is feasible and
    rounded. *)
Definition SearchInv (k : nat) (s : SearchState) : Prop :=
  iteration s = k
  /\ (maxPercentage s - minPercentage s == width k)%Q
  /\ (50 <= minPercentage s)%Q
  /\ (maxPercentage s <= 999 # 10)%Q
  /\ (found s = true ->
      (bestToken2Amount s <= token2Balance ratioData)%Q
      /\ (1000 | bestToken1AmountRaw s)
      /\ (1000 | bestToken2AmountRaw s)
      /\ (bestToken2Amount s
          == inject_Z (bestToken2AmountRaw s) / pow10 (token2Decimals ratioData))%Q).

End SearchLoop.

End CreatePool.

(** ** libs/hyperion/addLiquidity.ts: allocation for a top-up *)

Module AddLiquidity.
Import Ratio.
Import CreatePool.

(** The [addLiquidityParams] handed to
    [sdk.Position.addLiquidityTransactionPayload]. *)
Record AddLiquidityParams : Type := {
  a_positionId : string;
  a_currencyA : string;
  a_currencyB : string;
  a_currencyAAmount : Z;
  a_currencyBAmount : Z;
  a_slippage : number;
  a_feeTierIndex : FeeTierIndex
}.

Definition maxIterations : nat := 10.
Definition tolerance : number := 1%Q.
Definition fallbackPercentage : number := 70%Q.
Definition finalMinToken1Raw : Z := 100000.
Definition finalMinToken2Raw : Z := 100000.

Section Allocation.

Variable est : Estimator.
(** [updatedRatioData], the position's tick range and fee tier as
    resolved by "Fetching position details", and the two percentages. *)
Variable updatedRatioData : RatioResponseData.
Variable actualTickLower actualTickUpper : Z.
Variable actualFeeTierIndex : FeeTierIndex.
Variable liquidityPercentage : number.

Definition maxUsableToken1 : number :=
  (Ratio.availableToken1 updatedRatioData * liquidityPercentage)%Q.

(** Here the candidate is neither rounded to a multiple of 1000 nor is
    the oracle's answer. *)
Definition evaluate (call : nat) (percentage : number) : Result Candidate :=
  let adjusted := (maxUsableToken1 * (percentage / 100))%Q in
  let token1AmountRaw :=
    Math_floor (adjusted * pow10 (r_token1Decimals updatedRatioData)) in
  await requiredToken2Raw :=
    est call {| currencyA := Ratio.token1Address updatedRatioData;
                currencyB := Ratio.token2Address updatedRatioData;
                currencyAAmount := token1AmountRaw;
                est_feeTierIndex := actualFeeTierIndex;
                est_tickLower := actualTickLower;
                est_tickUpper := actualTickUpper;
                currentPriceTick := r_currentTick updatedRatioData |} in
  Ok {| adjustedToken1Amount := adjusted;
        roundedRequiredToken2 :=
          (inject_Z requiredToken2Raw / pow10 (r_token2Decimals updatedRatioData))%Q;
        roundedToken1AmountRaw := token1AmountRaw;
        roundedToken2AmountRaw := requiredToken2Raw |}.

Definition continues (s : SearchState) : bool :=
  (iteration s <? maxIterations)%nat
  && num_gt (maxPercentage s - minPercentage s) tolerance.

Definition iterate (s0 : SearchState) : SearchState :=
  let s := nextIteration s0 in
  let currentPercentage := ((minPercentage s + maxPercentage s) / 2)%Q in
  match evaluate (iteration s) currentPercentage with
  | Ok c =>
      if num_le (roundedRequiredToken2 c) (Ratio.token2Balance updatedRatioData)
      then searchHigher (record s c) currentPercentage
      else searchLower s currentPercentage
  | Throw _ => searchLower s currentPercentage
  end.

Fixpoint binarySearch (fuel : nat) (s : SearchState) : SearchState :=
  match fuel with
  | O => s
  | S fuel' => if continues s then binarySearch fuel' (iterate s) else s
  end.

Definition fallback (s : SearchState) : SearchState :=
  if found s then s
  else
    match evaluate (S (iteration s)) fallbackPercentage with
    | Ok c =>
        if num_le (roundedRequiredToken2 c) (Ratio.token2Balance updatedRatioData)
        then record s c else s
    | Throw _ => s
    end.

Definition allocationSearch : SearchState :=
  fallback (binarySearch maxIterations initialSearch).

(** Step 4 and the head of step 5 of [executeAddLiquidity]: from the
    "Enhanced balance validation" to the parameters of the payload
    builder. The enclosing [try] turns a [Throw] into a result with
    [success = false]. *)
Definition addLiquidityAllocation (positionId : string) : Result AddLiquidityParams :=
  let minimumForPosition := (1 # 100)%Q in
  if num_le (Ratio.availableToken1 updatedRatioData) minimumForPosition
  then Throw ("Insufficient " ++ r_token1Symbol updatedRatioData ++ " balance")
  else if num_le (Ratio.token2Balance updatedRatioData) (5 # 1000)
          && num_le (Ratio.availableToken1 updatedRatioData) (minimumForPosition * 2)
  then Throw "Insufficient combined balance."
  else
    let s := allocationSearch in
    if negb (found s) then Throw "No feasible allocation found"
    else if bestToken1AmountRaw s <? finalMinToken1Raw
    then Throw "Token1 amount too small"
    else if bestToken2AmountRaw s <? finalMinToken2Raw
    then Throw "Token2 amount too small"
    else
      Ok {| a_positionId := positionId;
            a_currencyA :=
              convertAPTAddressForTransaction (Ratio.token1Address updatedRatioData);
            a_currencyB :=
              convertAPTAddressForTransaction (Ratio.token2Address updatedRatioData);
            a_currencyAAmount := bestToken1AmountRaw s;
            a_currencyBAmount := bestToken2AmountRaw s;
            a_slippage := (1 # 10)%Q;
            a_feeTierIndex := actualFeeTierIndex |}.

End Allocation.

End AddLiquidity.

(** ** libs/hyperion/executeTransaction.ts: the executor and its cooldown table *)

(** [s.includes(sub)] *)
Fixpoint includes (s sub : string) : bool :=
  String.prefix sub s
  || match s with
     | EmptyString => false
     | String _ s' => includes s' sub
     end.

Module ExecuteTransaction.

Definition TRANSACTION_COOLDOWN : Z := 30000.

(** An element of [functionArguments: (string | number | boolean)[]]. *)
Inductive Argument : Type :=
  | ArgString (s : string)
  | ArgNumber (n : number)
  | ArgBoolean (b : bool).

Record TransactionPayload : Type := {
  function_name : string;
  typeArguments : option (list string);
  functionArguments : list Argument
}.

Record TransactionResult : Type := {
  transactionHash : string;
  payload : TransactionPayload
}.

(** The answer of [aptos.transaction.simulate.simple]. *)
Inductive Simulation : Type :=
  | SimSuccess
  | SimFailure (vm_status : option string)
  | SimRaises (message : string).

(** What the node does during one call of [executeTransaction]: the
    outcome of each awaited request and the milliseconds it takes;
    [timerLag] is how late a [setTimeout] fires. *)
Record Network : Type := {
  timerLag : Z;
  buildLatency : Z;
  build : Result unit;
  simulateLatency : Z;
  simulate : Simulation;
  submitLatency : Z;
  signAndSubmitTransaction : Result string;
  confirmLatency : Z;
  waitForTransaction : Result unit
}.

(** The process state the executor reads and writes: [Date.now()] and
    the module-level [recentTransactions] map. *)
Record Runtime : Type := {
  clock : Z;
  recentTransactions : gmap string Z
}.

(** The requests sent to the node, stamped with [Date.now()] at the
    moment they are issued. *)
Inductive Event : Type :=
  | Slept (since until : Z)
  | Built (time : Z)
  | Simulated (time : Z)
  | Submitted (time : Z).

Definition advance (ms : Z) (rt : Runtime) : Runtime :=
  {| clock := clock rt + ms; recentTransactions := recentTransactions rt |}.

(** [await new Promise(resolve => setTimeout(resolve, ms))] *)
Definition sleep (ms lag : Z) (rt : Runtime) : Runtime :=
  advance (ms + lag) rt.

Definition cleanupOldTransactions (rt : Runtime) : Runtime :=
  let now := clock rt in
  {| clock := clock rt;
     recentTransactions :=
       filter (fun kv : string * Z => ¬ (now - kv.2 > TRANSACTION_COOLDOWN))
              (recentTransactions rt) |}.

(** The message of the error leaving the simulation [try]: a failed
    simulation raises inside the [try] and is wrapped again by its
    [catch]. *)
Definition simulationError (s : Simulation) : option string :=
  match s with
  | SimSuccess => None
  | SimFailure vm_status =>
      let vmError :=
        match vm_status with
        | Some st => if includes st "Error" then st else "Unknown simulation error"
        | None => "Unknown simulation error"
        end%string in
      Some ("Transaction simulation failed: "
              ++ ("Transaction simulation failed: " ++ vmError))%string
  | SimRaises message => Some ("Transaction simulation failed: " ++ message)%string
  end.

Section Executor.

(** [JSON.stringify] on argument lists. *)
Variable JSON_stringify : list Argument -> string.

Definition txSignature (sender : string) (p : TransactionPayload) : string :=
  (sender ++ "_" ++ function_name p ++ "_" ++ JSON_stringify (functionArguments p))%string.

(** [lastSubmission && (now - lastSubmission) < TRANSACTION_COOLDOWN] *)
Definition submittedRecently (lastSubmission : option Z) (now : Z) : bool :=
  match lastSubmission with
  | Some last => negb (last =? 0) && (now - last <? TRANSACTION_COOLDOWN)
  | None => false
  end.

(** The body of the [try]. *)
Definition attempt (net : Network) (sender : string) (p : TransactionPayload)
    (rt0 : Runtime) : Runtime * list Event * Result TransactionResult :=
  let rt1 := cleanupOldTransactions rt0 in
  let sig := txSignature sender p in
  let now := clock rt1 in
  let lastSubmission := recentTransactions rt1 !! sig in
  let '(rt2, waited) :=
    if submittedRecently lastSubmission now then
      let waitTime := TRANSACTION_COOLDOWN - (now - default 0 lastSubmission) in
      let rt := sleep waitTime (timerLag net) rt1 in
      (rt, [Slept now (clock rt)])
    else (rt1, []) in
  let built := waited ++ [Built (clock rt2)] in
  let rt3 := advance (buildLatency net) rt2 in
  match build net with
  | Throw e => (rt3, built, Throw e)
  | Ok _ =>
      let simulated := built ++ [Simulated (clock rt3)] in
      let rt4 := advance (simulateLatency net) rt3 in
      match simulationError (simulate net) with
      | Some e => (rt4, simulated, Throw e)
      | None =>
          let rt5 :=
            {| clock := clock rt4;
               recentTransactions := <[sig := now]> (recentTransactions rt4) |} in
          let submitted := simulated ++ [Submitted (clock rt5)] in
          let rt6 := advance (submitLatency net) rt5 in
          match signAndSubmitTransaction net with
          | Throw e => (rt6, submitted, Throw e)
          | Ok hash =>
              let rt7 := advance (confirmLatency net) rt6 in
              match waitForTransaction net with
              | Throw e => (rt7, submitted, Throw e)
              | Ok _ =>
                  (rt7, submitted, Ok {| transactionHash := hash; payload := p |})
              end
          end
      end
  end.

(** [executeTransaction]: the [try] and its [catch], which waits ten
    seconds on a mempool conflict and rethrows. *)
Definition executeTransaction (net : Network) (sender : string)
    (p : TransactionPayload) (rt0 : Runtime)
  : Runtime * list Event * Result TransactionResult :=
  match attempt net sender p rt0 with
  | (rt, events, Ok r) => (rt, events, Ok r)
  | (rt, events, Throw e) =>
      if includes e "already in mempool"
      then
        let rt' := sleep 10000 (timerLag net) rt in
        (rt', events ++ [Slept (clock rt) (clock rt')], Throw e)
      else (rt, events, Throw e)
  end.

(** When the one transaction of a call is built. *)
Definition buildTime (net : Network) (sender : string) (p : TransactionPayload)
    (rt : Runtime) : Z :=
  let now := clock rt in
  let lastSubmission :=
    recentTransactions (cleanupOldTransactions rt) !! txSignature sender p in
  if submittedRecently lastSubmission now
  then now + (TRANSACTION_COOLDOWN - (now - default 0 lastSubmission) + timerLag net)
  else now.

End Executor.

(** The times at which a transaction was built. *)
Definition buildTimes (events : list Event) : list Z :=
  flat_map (fun e => match e with Built t => [t] | _ => [] end) events.

(** The call got as far as "Mark this transaction as being submitted". *)
Definition reachesSubmission (net : Network) : Prop :=
  (exists u, build net = Ok u) /\ simulate net = SimSuccess.

End ExecuteTransaction.

(** ** libs/hyperion/rebalanceExecution.ts: the orchestrator *)

Module RebalanceExecution.
Import Pools.
Import Ratio.

Record InactivePosition : Type := {
  objectId : string;
  poolId : string;
  poolName : string;
  value : string
}.

Record SwapDetail : Type := {
  fromSymbol : string;
  toSymbol : string;
  amount : number
}.

Record NewPosition : Type := {
  np_poolName : string;
  range : string
}.

(** [RebalanceExecutionResult.details] *)
Record Details : Type := {
  positionRemoved : bool;
  swapExecuted : bool;
  newPositionCreated : bool;
  additionalLiquidityAdded : bool;
  transactionHashes : list string;
  swapDetails : list SwapDetail;
  newPositions : list NewPosition;
  error : option string
}.

Record RebalanceExecutionResult : Type := {
  success : bool;
  message : string;
  details : Details
}.

(** The part of an [AddLiquidityResult] the orchestrator reads. *)
Record AddLiquidityResult : Type := {
  al_success : bool;
  al_swapExecuted : bool;
  al_transactionHashes : list string;
  al_swapDetails : option SwapDetail;
  al_error : option string
}.

Record SwapRequest : Type := {
  sr_swapFromToken : string;
  sr_swapToToken : string;
  sr_swapAmountRaw : Z;
  sr_recipient : string
}.

(** The four places where the orchestrator reads the ratio data; the
    diagnostic read after an insufficient-balance failure is only logged. *)
Inductive RatioRead : Type :=
  | AfterRemoval
  | BeforeCreation
  | Diagnostic
  | AfterCreation.

(** The collaborators of one run, each given by what it answers.
    [generateRatioResponse] returns [data: null] instead of raising and
    [executeAddLiquidity] reports failure in its result. *)
Record Collaborators : Type := {
  getAccount : Result string;
  getRemoveLiquidityPayload :
    string -> string -> number -> Result ExecuteTransaction.TransactionPayload;
  executeTransaction :
    ExecuteTransaction.TransactionPayload -> string -> Result string;
  generateRatioResponse : RatioRead -> option RatioResponseData;
  getSwapPayload : SwapRequest -> Result ExecuteTransaction.TransactionPayload;
  getCreatePoolPayload : RatioResponseData -> Result ExecuteTransaction.TransactionPayload;
  getAllPositions : Result (list Read.HyperionPosition);
  executeAddLiquidity : string -> AddLiquidityResult;
  (** how a number prints inside a template string *)
  Number_toString : number -> string
}.

(** The [try] body mutates [result.details] as it goes and may raise at
    any awaited call: a computation over the details that keeps them
    when it raises. *)
Definition Step (A : Type) : Type := Details -> Details * Result A.

Definition ret {A} (a : A) : Step A := fun d => (d, Ok a).
Definition throw {A} (e : string) : Step A := fun d => (d, Throw e).
Definition lift {A} (r : Result A) : Step A := fun d => (d, r).
Definition modify (f : Details -> Details) : Step unit := fun d => (f d, Ok tt).
Definition bindS {A B} (m : Step A) (k : A -> Step B) : Step B :=
  fun d =>
    match m d with
    | (d', Ok a) => k a d'
    | (d', Throw e) => (d', Throw e)
    end.

Notation "'do' x := m 'in' k" := (bindS m (fun x => k))
  (at level 10, x name, m at level 100, k at level 200).
Notation "m ';;;' k" := (bindS m (fun _ => k))
  (at level 100, k at level 200, right associativity).

Definition initialDetails : Details :=
  {| positionRemoved := false; swapExecuted := false; newPositionCreated := false;
     additionalLiquidityAdded := false; transactionHashes := [];
     swapDetails := []; newPositions := []; error := None |}.

Definition pushHashes (hs : list string) (d : Details) : Details :=
  {| positionRemoved := positionRemoved d; swapExecuted := swapExecuted d;
     newPositionCreated := newPositionCreated d;
     additionalLiquidityAdded := additionalLiquidityAdded d;
     transactionHashes := transactionHashes d ++ hs;
     swapDetails := swapDetails d; newPositions := newPositions d; error := error d |}.

Definition pushSwapDetail (s : SwapDetail) (d : Details) : Details :=
  {| positionRemoved := positionRemoved d; swapExecuted := swapExecuted d;
     newPositionCreated := newPositionCreated d;
     additionalLiquidityAdded := additionalLiquidityAdded d;
     transactionHashes := transactionHashes d;
     swapDetails := swapDetails d ++ [s]; newPositions := newPositions d;
     error := error d |}.

Definition pushNewPosition (p : NewPosition) (d : Details) : Details :=
  {| positionRemoved := positionRemoved d; swapExecuted := swapExecuted d;
     newPositionCreated := newPositionCreated d;
     additionalLiquidityAdded := additionalLiquidityAdded d;
     transactionHashes := transactionHashes d;
     swapDetails := swapDetails d; newPositions := newPositions d ++ [p];
     error := error d |}.

Definition setPositionRemoved (d : Details) : Details :=
  {| positionRemoved := true; swapExecuted := swapExecuted d;
     newPositionCreated := newPositionCreated d;
     additionalLiquidityAdded := additionalLiquidityAdded d;
     transactionHashes := transactionHashes d;
     swapDetails := swapDetails d; newPositions := newPositions d; error := error d |}.

Definition setSwapExecuted (d : Details) : Details :=
  {| positionRemoved := positionRemoved d; swapExecuted := true;
     newPositionCreated := newPositionCreated d;
     additionalLiquidityAdded := additionalLiquidityAdded d;
     transactionHashes := transactionHashes d;
     swapDetails := swapDetails d; newPositions := newPositions d; error := error d |}.

Definition setNewPositionCreated (d : Details) : Details :=
  {| positionRemoved := positionRemoved d; swapExecuted := swapExecuted d;
     newPositionCreated := true;
     additionalLiquidityAdded := additionalLiquidityAdded d;
     transactionHashes := transactionHashes d;
     swapDetails := swapDetails d; newPositions := newPositions d; error := error d |}.

Definition setAdditionalLiquidityAdded (d : Details) : Details :=
  {| positionRemoved := positionRemoved d; swapExecuted := swapExecuted d;
     newPositionCreated := newPositionCreated d;
     additionalLiquidityAdded := true;
     transactionHashes := transactionHashes d;
     swapDetails := swapDetails d; newPositions := newPositions d; error := error d |}.

Definition setError (e : string) (d : Details) : Details :=
  {| positionRemoved := positionRemoved d; swapExecuted := swapExecuted d;
     newPositionCreated := newPositionCreated d;
     additionalLiquidityAdded := additionalLiquidityAdded d;
     transactionHashes := transactionHashes d;
     swapDetails := swapDetails d; newPositions := newPositions d; error := Some e |}.

(** [ratioResult.swapAmount && ratioResult.swapAmountRaw &&
     ratioResult.swapFromToken && ratioResult.swapToToken] *)
Definition swapRequested (r : RatioResponseData) : option SwapPlan :=
  match swap r with
  | Some plan =>
      if negb (num_eq (swapAmount plan) 0) && negb (swapAmountRaw plan =? 0)
         && negb (String.eqb (swapFromToken plan) "")
         && negb (String.eqb (swapToToken plan) "")
      then Some plan else None
  | None => None
  end.

(** [poolConfig.rangePercent ? `±${poolConfig.rangePercent}%` : 'Tightest Range'] *)
Definition rangeText (toString : number -> string) (r : RangePercent) : string :=
  match r with
  | RangeNumber q =>
      if num_eq q 0 then "Tightest Range" else ("±" ++ toString q ++ "%")
  | RangeNull | RangeUndefined => "Tightest Range"
  end%string.

(** [poolPositions.sort((a, b) => time(b) - time(a))[0]]: the most
    recently created position, the earliest in the list among equals. *)
Fixpoint newest (l : list Read.HyperionPosition) : option Read.HyperionPosition :=
  match l with
  | [] => None
  | p :: l' =>
      match newest l' with
      | None => Some p
      | Some q => if Read.createdAt p <? Read.createdAt q then Some q else Some p
      end
  end.

Section Orchestrator.

Variable c : Collaborators.
Variable inactivePosition : InactivePosition.
Variable poolConfig : PoolConfig.

Definition isPositionCreation : bool :=
  String.eqb (objectId inactivePosition) "CREATE_NEW".

(** Step 1: remove all liquidity of the existing position. *)
Definition removeStep (address : string) : Step unit :=
  if isPositionCreation then ret tt
  else
    do removePayload :=
      lift (getRemoveLiquidityPayload c address (objectId inactivePosition) 1) in
    do removeHash := lift (executeTransaction c removePayload "remove liquidity") in
    modify setPositionRemoved ;;;
    modify (pushHashes [removeHash]).

(** Step 2: read the ratio and swap 90% of the recommended amount. *)
Definition swapStep (address : string) : Step unit :=
  match generateRatioResponse c AfterRemoval with
  | None => throw "Failed to get ratio data"
  | Some ratioResult =>
      match swapRequested ratioResult with
      | Some plan =>
          let swapPercentage := (9 # 10)%Q in
          let swapAmountRaw' :=
            Math_floor (inject_Z (swapAmountRaw plan) * swapPercentage) in
          let swapAmount' := (swapAmount plan * swapPercentage)%Q in
          do swapPayload :=
            lift (getSwapPayload c {| sr_swapFromToken := swapFromToken plan;
                                      sr_swapToToken := swapToToken plan;
                                      sr_swapAmountRaw := swapAmountRaw';
                                      sr_recipient := address |}) in
          do swapHash := lift (executeTransaction c swapPayload "swap (90%)") in
          modify (pushHashes [swapHash]) ;;;
          modify (pushSwapDetail {| fromSymbol := swapFromSymbol plan;
                                    toSymbol := swapToSymbol plan;
                                    amount := swapAmount' |}) ;;;
          modify setSwapExecuted
      | None => ret tt
      end
  end.

(** "SAFETY CHECK: Only prevent position creation if BOTH balances are
    extremely low". *)
Definition safetyCheck (finalRatioResult : RatioResponseData) : Step unit :=
  if isAPTstkAPTPool (r_token1Symbol finalRatioResult) (r_token2Symbol finalRatioResult)
  then
    let minimumBalanceForPosition := (1 # 100)%Q in
    let hasToken1 := num_ge (availableToken1 finalRatioResult) minimumBalanceForPosition in
    let hasToken2 := num_ge (token2Balance finalRatioResult) minimumBalanceForPosition in
    if negb hasToken1 && negb hasToken2
    then throw "Cannot create position: Both token balances are extremely low. This suggests a balance fetching issue."
    else ret tt
  else ret tt.

(** Step 3: create the new position from freshly read balances. *)
Definition createStep : Step unit :=
  match generateRatioResponse c BeforeCreation with
  | None => throw "Failed to get final ratio data"
  | Some finalRatioResult =>
      safetyCheck finalRatioResult ;;;
      do createHash :=
        match (await createPoolPayload := getCreatePoolPayload c finalRatioResult in
               executeTransaction c createPoolPayload "create position") with
        | Ok h => ret h
        | Throw errorMessage =>
            if includes errorMessage "INSUFFICIENT_BALANCE"
            then throw ("Position creation failed due to insufficient balance. "
                          ++ errorMessage
                          ++ ". This may be due to slippage from swaps or timing issues with balance updates.")
            else throw errorMessage
        end in
      modify setNewPositionCreated ;;;
      modify (pushHashes [createHash]) ;;;
      modify (pushNewPosition
                {| np_poolName := poolName inactivePosition;
                   range := rangeText (Number_toString c) (rangePercent poolConfig) |})
  end.

(** Step 4, optional: top up the new position with what is left. Its
    own [try] swallows every failure. *)
Definition topUpStep : Step unit :=
  match generateRatioResponse c AfterCreation with
  | None => ret tt
  | Some postCreateRatioData =>
      let meaningfulThreshold := (1 # 100)%Q in
      if num_gt (availableToken1 postCreateRatioData) meaningfulThreshold
         || num_gt (token2Balance postCreateRatioData) meaningfulThreshold
      then
        match getAllPositions c with
        | Throw _ => ret tt
        | Ok updatedPositions =>
            let poolPositions :=
              List.filter (fun pos => samePoolId (Read.pool_poolId (Read.pool pos))
                                                 (Pools.poolId poolConfig))
                          updatedPositions in
            match newest poolPositions with
            | None => ret tt
            | Some newestPosition =>
                let r := executeAddLiquidity c (Read.objectId newestPosition) in
                if al_success r then
                  modify setAdditionalLiquidityAdded ;;;
                  modify (pushHashes (al_transactionHashes r)) ;;;
                  match al_swapExecuted r, al_swapDetails r with
                  | true, Some sd => modify (pushSwapDetail sd)
                  | _, _ => ret tt
                  end
                else ret tt
            end
        end
      else ret tt
  end.

Definition tryBody : Step unit :=
  do address := lift (getAccount c) in
  removeStep address ;;;
  swapStep address ;;;
  createStep ;;;
  topUpStep.

(** [executeRebalancing]: run the [try]; on an exception the [catch]
    keeps [result.details] as the run left it and adds the error. The
    progress messages to the notification sink, which cannot raise, are
    left out, and with them the two flags that only affect them. *)
Definition executeRebalancing : RebalanceExecutionResult :=
  match tryBody initialDetails with
  | (d, Ok _) =>
      let actionText :=
        (if isPositionCreation then "position created" else "rebalanced")%string in
      {| success := true;
         message :=
           ("✅ **" ++ poolName inactivePosition ++ "** " ++ actionText
              ++ " successfully"
              ++ (if additionalLiquidityAdded d
                  then " with additional liquidity optimization" else ""))%string;
         details := d |}
  | (d, Throw e) =>
      let actionText :=
        (if isPositionCreation then "position creation" else "rebalancing")%string in
      {| success := false;
         message :=
           ("❌ **" ++ poolName inactivePosition ++ "** " ++ actionText
              ++ " failed: " ++ String_of_error e)%string;
         details := setError (String_of_error e) d |}
  end.

End Orchestrator.

(** The swap step fails with [e]: building the swap payload raises, or
    the swap transaction does. *)
Definition swapFails (c : Collaborators) (address : string) (plan : SwapPlan)
    (e : string) : Prop :=
  let request :=
    {| sr_swapFromToken := swapFromToken plan;
       sr_swapToToken := swapToToken plan;
       sr_swapAmountRaw := Math_floor (inject_Z (swapAmountRaw plan) * (9 # 10));
       sr_recipient := address |} in
  getSwapPayload c request = Throw e
  \/ exists swapPayload,
       getSwapPayload c request = Ok swapPayload
       /\ executeTransaction c swapPayload "swap (90%)" = Throw e.

End RebalanceExecution.

(** ** libs/rebalancingFlow.ts: the batch controller *)

Module RebalancingFlow.
Import Pools.
Import Ratio.

Record RebalancingOptions : Type := {
  o_poolId : option string;
  o_rangePercent : option number
}.

(** [RebalancingResult.details] *)
Record FlowDetails : Type := {
  processedPositions : nat;
  successfulRebalances : nat;
  failedRebalances : nat;
  additionalLiquidityOperations : nat;
  transactionHashes : list string;
  swapDetails : list RebalanceExecution.SwapDetail;
  newPositions : list RebalanceExecution.NewPosition;
  errors : list string
}.

Record RebalancingResult : Type := {
  success : bool;
  message : string;
  details : FlowDetails
}.

(** The part of a [RebalanceCheckResult] the controller reads. *)
Record RebalanceCheckResult : Type := {
  c_success : bool;
  c_message : string;
  inactivePositions : list RebalanceExecution.InactivePosition
}.

(** The operations a cycle starts: a run of the orchestrator on a
    position, or the creation of a position in a pool that has none. *)
Inductive Operation : Type :=
  | Rebalancing (position : RebalanceExecution.InactivePosition)
  | Creation (pool : PoolConfig).

Record Collaborators : Type := {
  getAccount : Result string;
  (** pools, specific pool, force flag, and which call of the cycle *)
  checkRebalancingNeeded :
    list PoolConfig -> option string -> bool -> nat -> RebalanceCheckResult;
  getAllPositions : Result (list Read.HyperionPosition);
  executeRebalancing :
    RebalanceExecution.InactivePosition -> PoolConfig -> bool
    -> Result RebalanceExecution.RebalanceExecutionResult;
  (** pool, range, and whether this is the read after the swap *)
  generateRatioResponse : string -> RangePercent -> bool -> option RatioResponseData;
  getSwapPayload :
    RebalanceExecution.SwapRequest -> Result ExecuteTransaction.TransactionPayload;
  getCreatePoolPayload : RatioResponseData -> Result ExecuteTransaction.TransactionPayload;
  executeTransaction : ExecuteTransaction.TransactionPayload -> string -> Result string;
  Number_toString : number -> string
}.

(** The mutable [result.details] together with the operations started. *)
Record Run : Type := {
  run_details : FlowDetails;
  started : list Operation
}.

Definition initialDetails : FlowDetails :=
  {| processedPositions := 0; successfulRebalances := 0; failedRebalances := 0;
     additionalLiquidityOperations := 0; transactionHashes := [];
     swapDetails := []; newPositions := []; errors := [] |}.

Definition update (f : FlowDetails -> FlowDetails) (r : Run) : Run :=
  {| run_details := f (run_details r); started := started r |}.

Definition start (op : Operation) (r : Run) : Run :=
  {| run_details := run_details r; started := started r ++ [op] |}.

Definition setProcessed (n : nat) (d : FlowDetails) : FlowDetails :=
  {| processedPositions := n;
     successfulRebalances := successfulRebalances d;
     failedRebalances := failedRebalances d;
     additionalLiquidityOperations := additionalLiquidityOperations d;
     transactionHashes := transactionHashes d; swapDetails := swapDetails d;
     newPositions := newPositions d; errors := errors d |}.

Definition incProcessed (d : FlowDetails) : FlowDetails :=
  setProcessed (S (processedPositions d)) d.

Definition incSuccessful (d : FlowDetails) : FlowDetails :=
  {| processedPositions := processedPositions d;
     successfulRebalances := S (successfulRebalances d);
     failedRebalances := failedRebalances d;
     additionalLiquidityOperations := additionalLiquidityOperations d;
     transactionHashes := transactionHashes d; swapDetails := swapDetails d;
     newPositions := newPositions d; errors := errors d |}.

Definition incFailed (d : FlowDetails) : FlowDetails :=
  {| processedPositions := processedPositions d;
     successfulRebalances := successfulRebalances d;
     failedRebalances := S (failedRebalances d);
     additionalLiquidityOperations := additionalLiquidityOperations d;
     transactionHashes := transactionHashes d; swapDetails := swapDetails d;
     newPositions := newPositions d; errors := errors d |}.

Definition incAdditional (d : FlowDetails) : FlowDetails :=
  {| processedPositions := processedPositions d;
     successfulRebalances := successfulRebalances d;
     failedRebalances := failedRebalances d;
     additionalLiquidityOperations := S (additionalLiquidityOperations d);
     transactionHashes := transactionHashes d; swapDetails := swapDetails d;
     newPositions := newPositions d; errors := errors d |}.

Definition pushHashes (hs : list string) (d : FlowDetails) : FlowDetails :=
  {| processedPositions := processedPositions d;
     successfulRebalances := successfulRebalances d;
     failedRebalances := failedRebalances d;
     additionalLiquidityOperations := additionalLiquidityOperations d;
     transactionHashes := transactionHashes d ++ hs; swapDetails := swapDetails d;
     newPositions := newPositions d; errors := errors d |}.

Definition pushSwapDetails (l : list RebalanceExecution.SwapDetail) (d : FlowDetails)
  : FlowDetails :=
  {| processedPositions := processedPositions d;
     successfulRebalances := successfulRebalances d;
     failedRebalances := failedRebalances d;
     additionalLiquidityOperations := additionalLiquidityOperations d;
     transactionHashes := transactionHashes d; swapDetails := swapDetails d ++ l;
     newPositions := newPositions d; errors := errors d |}.

Definition pushNewPositions (l : list RebalanceExecution.NewPosition) (d : FlowDetails)
  : FlowDetails :=
  {| processedPositions := processedPositions d;
     successfulRebalances := successfulRebalances d;
     failedRebalances := failedRebalances d;
     additionalLiquidityOperations := additionalLiquidityOperations d;
     transactionHashes := transactionHashes d; swapDetails := swapDetails d;
     newPositions := newPositions d ++ l; errors := errors d |}.

Definition pushError (e : string) (d : FlowDetails) : FlowDetails :=
  {| processedPositions := processedPositions d;
     successfulRebalances := successfulRebalances d;
     failedRebalances := failedRebalances d;
     additionalLiquidityOperations := additionalLiquidityOperations d;
     transactionHashes := transactionHashes d; swapDetails := swapDetails d;
     newPositions := newPositions d; errors := errors d ++ [e] |}.

(** [x || fallback] on strings *)
Definition orString (x : option string) (fallback : string) : string :=
  match x with
  | Some s => if String.eqb s "" then fallback else s
  | None => fallback
  end.

Definition findPool (pools : list PoolConfig) (id : string) : option PoolConfig :=
  find (fun p => samePoolId (poolId p) id) pools.

Definition inPool (id : string) (pos : Read.HyperionPosition) : bool :=
  samePoolId (Read.pool_poolId (Read.pool pos)) id.

(** What a successful or failed orchestrator run adds to the details. *)
Definition absorb (r : RebalanceExecution.RebalanceExecutionResult)
    (failurePrefix : string) (d : FlowDetails) : FlowDetails :=
  let rd := RebalanceExecution.details r in
  if RebalanceExecution.success r then
    let d1 := incSuccessful d in
    let d2 := pushHashes (RebalanceExecution.transactionHashes rd) d1 in
    let d3 := pushSwapDetails (RebalanceExecution.swapDetails rd) d2 in
    let d4 := pushNewPositions (RebalanceExecution.newPositions rd) d3 in
    if RebalanceExecution.additionalLiquidityAdded rd then incAdditional d4 else d4
  else
    pushError (failurePrefix ++ orString (RebalanceExecution.error rd) "Unknown error")
              (incFailed d).

(** The enabled pools in which the account holds no position. *)
Definition missingPositionPools (poolsToProcess : list PoolConfig)
    (allUserPositions : list Read.HyperionPosition) : list PoolConfig :=
  let enabledPools := List.filter enabled poolsToProcess in
  List.filter (fun enabledPool =>
                 negb (existsb (inPool (poolId enabledPool)) allUserPositions))
              enabledPools.

Definition maxPoolsPerExecution : nat := 1.

(** [array.slice(0, n)] *)
Definition slice0 {A} (n : nat) (l : list A) : list A := firstn n l.

Section Flow.

Variable c : Collaborators.
Variable defaultPoolsToManage : list PoolConfig.

(** The loop of specific-pool mode over the positions to process. *)
Definition processForced (targetPool : PoolConfig)
    (positions : list RebalanceExecution.InactivePosition) (r0 : Run) : Run :=
  fold_left
    (fun r positionToProcess =>
       let r1 := start (Rebalancing positionToProcess) r in
       match executeRebalancing c positionToProcess targetPool true with
       | Ok rebalanceResult =>
           update (absorb rebalanceResult "") (update incProcessed r1)
       | Throw errorMessage =>
           update (pushError errorMessage)
                  (update incFailed (update incProcessed r1))
       end)
    positions r0.

(** The loop of automatic mode over the positions that need rebalancing. *)
Definition processInactive (poolsToProcess : list PoolConfig)
    (positions : list RebalanceExecution.InactivePosition) (r0 : Run) : Run :=
  fold_left
    (fun r inactivePosition =>
       let poolName := RebalanceExecution.poolName inactivePosition in
       match findPool poolsToProcess (RebalanceExecution.poolId inactivePosition) with
       | None =>
           update (pushError ("Pool config not found for " ++ poolName))
                  (update incFailed r)
       | Some poolConfig =>
           let r1 := start (Rebalancing inactivePosition) r in
           match executeRebalancing c inactivePosition poolConfig false with
           | Ok rebalanceResult =>
               update (absorb rebalanceResult (poolName ++ ": ")) r1
           | Throw errorMessage =>
               update (pushError (poolName ++ ": " ++ errorMessage))
                      (update incFailed r1)
           end
       end)
    positions r0.

(** The [try] around the creation of a position in one pool that has
    none: the details it leaves, and the exception if it raised. *)
Definition createMissing (address : string) (missingPool : PoolConfig)
    (d : FlowDetails) : FlowDetails * Result unit :=
  match generateRatioResponse c (poolId missingPool) (rangePercent missingPool) false with
  | None =>
      (pushError (name missingPool ++ ": Cannot get ratio data") (incFailed d), Ok tt)
  | Some ratioData =>
      let minBalance := (1 # 10)%Q in
      let hasToken1 := num_ge (availableToken1 ratioData) minBalance in
      let hasToken2 := num_ge (token2Balance ratioData) minBalance in
      if negb hasToken1 && negb hasToken2
      then (pushError (name missingPool ++ ": Insufficient balance to create position") d,
            Ok tt)
      else
        match getAccount c with
        | Throw e => (d, Throw e)
        | Ok _ =>
            let swapped : FlowDetails * Result RatioResponseData :=
              match RebalanceExecution.swapRequested ratioData with
              | Some plan =>
                  match (await swapPayload :=
                           getSwapPayload c
                             {| RebalanceExecution.sr_swapFromToken := swapFromToken plan;
                                RebalanceExecution.sr_swapToToken := swapToToken plan;
                                RebalanceExecution.sr_swapAmountRaw :=
                                  Math_floor (inject_Z (swapAmountRaw plan) * (8 # 10));
                                RebalanceExecution.sr_recipient := address |} in
                         executeTransaction c swapPayload "pre-creation swap") with
                  | Throw e => (d, Throw e)
                  | Ok swapHash =>
                      (pushHashes [swapHash] d,
                       Ok (match generateRatioResponse c (poolId missingPool)
                                   (rangePercent missingPool) true with
                           | Some updated => updated
                           | None => ratioData
                           end))
                  end
              | None => (d, Ok ratioData)
              end in
            match swapped with
            | (d1, Throw e) => (d1, Throw e)
            | (d1, Ok ratioData') =>
                match (await createPoolPayload := getCreatePoolPayload c ratioData' in
                       executeTransaction c createPoolPayload
                         ("create position in " ++ name missingPool)) with
                | Throw e => (d1, Throw e)
                | Ok createHash =>
                    (pushNewPositions
                       [{| RebalanceExecution.np_poolName := name missingPool;
                           RebalanceExecution.range :=
                             RebalanceExecution.rangeText (Number_toString c)
                               (rangePercent missingPool) |}]
                       (incProcessed (incSuccessful (pushHashes [createHash] d1))),
                     Ok tt)
                end
            end
        end
  end.

(** The rate-limited loop over the enabled pools without a position. *)
Definition processMissing (address : string) (missingPositionPools : list PoolConfig)
    (r0 : Run) : Run :=
  fold_left
    (fun r missingPool =>
       let r1 := start (Creation missingPool) r in
       match createMissing address missingPool (run_details r1) with
       | (d, Ok _) => update (fun _ => d) r1
       | (d, Throw errorMessage) =>
           update (fun _ => pushError (name missingPool ++ ": " ++ errorMessage)
                                      (incProcessed (incFailed d))) r1
       end)
    (slice0 maxPoolsPerExecution missingPositionPools) r0.

(** "Determine overall success and provide helpful messages" (headline
    of each message only). *)
Definition conclude (r : Run) : RebalancingResult * list Operation :=
  let d := run_details r in
  let ok := (0 <? processedPositions d)%nat && (0 <? successfulRebalances d)%nat in
  ({| success := ok;
      message :=
        (if ok then "✅ Rebalancing completed"
         else if (processedPositions d =? 0)%nat then "❌ No action taken"
         else "❌ Rebalancing failed")%string;
      details := d |},
   started r).

Definition stop (ok : bool) (msg : string) (r : Run) : RebalancingResult * list Operation :=
  ({| success := ok; message := msg; details := run_details r |}, started r).

(** "Create a target pool config":
    [rangePercent ?? existingPool?.rangePercent ?? null] and
    [existingPool?.name || 'Target Pool']. *)
Definition targetPoolFor (id : string) (override : option number) : PoolConfig :=
  let existingPool := findPool defaultPoolsToManage id in
  {| poolId := id;
     name := orString (option_map name existingPool) "Target Pool";
     enabled := true;
     rangePercent :=
       match override with
       | Some q => RangeNumber q
       | None =>
           match existingPool with
           | Some p =>
               match rangePercent p with
               | RangeUndefined => RangeNull
               | rp => rp
               end
           | None => RangeNull
           end
       end |}.

Definition specificMode (address id : string) (override : option number)
  : Result (RebalancingResult * list Operation) :=
  let existingPool := findPool defaultPoolsToManage id in
  let targetPool := targetPoolFor id override in
  let r0 := {| run_details := initialDetails; started := [] |} in
  let check := checkRebalancingNeeded c [targetPool] (Some id) true 0 in
  if negb (c_success check) then Ok (stop false (c_message check) r0)
  else
    match inactivePositions check with
    | _ :: _ => Ok (conclude (processForced targetPool (inactivePositions check) r0))
    | [] =>
        await allUserPositions := getAllPositions c in
        let poolPositions := List.filter (inPool id) allUserPositions in
        match poolPositions with
        | _ :: _ =>
            let poolName := orString (option_map name existingPool) "Target Pool" in
            let forced :=
              map (fun pos =>
                     {| RebalanceExecution.objectId := Read.objectId pos;
                        RebalanceExecution.poolId := Read.pool_poolId (Read.pool pos);
                        RebalanceExecution.poolName := poolName;
                        RebalanceExecution.value := "" |})
                  poolPositions in
            Ok (conclude (processForced targetPool forced r0))
        | [] =>
            let secondCheckResult :=
              checkRebalancingNeeded c [targetPool] (Some id) true 1 in
            match inactivePositions secondCheckResult with
            | [] => Ok (stop false "❌ **Cannot Create Position**" r0)
            | _ :: _ => Ok (conclude (processForced targetPool [] r0))
            end
        end
    end.

Definition automaticMode (address : string)
  : Result (RebalancingResult * list Operation) :=
  let poolsToProcess := defaultPoolsToManage in
  let r0 := {| run_details := initialDetails; started := [] |} in
  let check := checkRebalancingNeeded c poolsToProcess None false 0 in
  if negb (c_success check)
  then Ok (stop false (c_message check) (update (pushError "Rebalancing check failed") r0))
  else
    await afterCreation :=
      match inactivePositions check with
      | _ :: _ => Ok (inr r0)
      | [] =>
          await allUserPositions := getAllPositions c in
          match missingPositionPools poolsToProcess allUserPositions with
          | _ :: _ =>
              Ok (inr (processMissing address
                         (missingPositionPools poolsToProcess allUserPositions) r0))
          | [] =>
              Ok (inl (stop true "✅ No rebalancing needed - portfolio is optimal" r0))
          end
      end in
    match afterCreation with
    | inl finished => Ok finished
    | inr r1 =>
        let r2 := update (setProcessed (length (inactivePositions check))) r1 in
        Ok (conclude (processInactive poolsToProcess (inactivePositions check) r2))
    end.

(** [executeRebalancingFlow], paired with the operations it started.
    The outer [catch] reports an exception that escaped; notifications
    and the health check that only notifies are left out. *)
Definition executeRebalancingFlow (options : RebalancingOptions)
  : RebalancingResult * list Operation :=
  let escaped (e : string) :=
    ({| success := false;
        message := ("❌ Rebalancing flow failed: " ++ String_of_error e)%string;
        details := pushError (String_of_error e) initialDetails |}, []) in
  match getAccount c with
  | Throw e => escaped e
  | Ok address =>
      match (match o_poolId options with
             | Some id =>
                 if String.eqb id "" then automaticMode address
                 else specificMode address id (o_rangePercent options)
             | None => automaticMode address
             end) with
      | Ok out => out
      | Throw e => escaped e
      end
  end.

End Flow.

Definition creations (ops : list Operation) : list PoolConfig :=
  flat_map (fun op => match op with Creation p => [p] | Rebalancing _ => [] end) ops.

Definition rebalancings (ops : list Operation) : list RebalanceExecution.InactivePosition :=
  flat_map (fun op => match op with Rebalancing p => [p] | Creation _ => [] end) ops.

End RebalancingFlow.

(** ** worker.ts: the scheduled trigger *)

Module Worker.

Record OperationLimit : Type := {
  maxRebalancingOperations : nat;
  maxPositionCreations : nat;
  maxAPIRetries : nat
}.

(** "CIRCUIT BREAKER: Limit operations to prevent too many subrequests".
    The object is declared by [scheduled] and handed to nothing. *)
Definition operationLimit : OperationLimit :=
  {| maxRebalancingOperations := 2; maxPositionCreations := 1; maxAPIRetries := 1 |}.

(** The rebalancing step of [scheduled]: when the schedule is enabled,
    one automatic cycle of the batch controller over the default pools. *)
Definition scheduled (isScheduleEnabled : bool) (c : RebalancingFlow.Collaborators)
  : option (RebalancingFlow.RebalancingResult * list RebalancingFlow.Operation) :=
  if isScheduleEnabled
  then Some (RebalancingFlow.executeRebalancingFlow c Pools.DEFAULT_POOLS_TO_MANAGE
               {| RebalancingFlow.o_poolId := None;
                  RebalancingFlow.o_rangePercent := None |})
  else None.

End Worker.

(** ** libs/hyperion/rebalanceExecution.ts: the check before a cycle *)

Module RebalanceCheck.
Import Pools.
Import Ratio.

(** [RebalanceCheckResult] without its [message], which is display text
    assembled from the same data. *)
Record RebalanceCheckResult : Type := {
  success : bool;
  shouldNotify : bool;
  inactivePositions : list RebalanceExecution.InactivePosition
}.

(** What [checkRebalancingNeeded] asks of the outside: the account, the
    positions of the account, the amounts of a position (for the
    classifier), the ratio data of a pool (which may be [null]), and the
    text [`$${Number(pos.value || 0).toFixed(2)}`] of a position. *)
Record Services : Type := {
  getAccount : Result string;
  getAllPositions : Result (list Read.HyperionPosition);
  fetchTokensAmountByPositionId : string -> Result (Z * Z);
  generateRatioResponse : string -> Result (option RatioResponseData);
  positionValue : Read.HyperionPosition -> string
}.

(** [array.map(f)] for an [f] that may raise. *)
Fixpoint mapR {A B} (f : A -> Result B) (l : list A) : Result (list B) :=
  match l with
  | [] => Ok []
  | a :: l' =>
      await b := f a in
      await bs := mapR f l' in
      Ok (b :: bs)
  end.

(** [specificPoolId], when it is given and not empty. *)
Definition given (specificPoolId : option string) : option string :=
  if truthy_string specificPoolId then specificPoolId else None.

Definition managedPoolIds (poolsToMonitor : list PoolConfig)
    (specificPoolId : option string) : list string :=
  match given specificPoolId with
  | Some id => [id]
  | None => map poolId (List.filter enabled poolsToMonitor)
  end.

Definition poolsToCheck (poolsToMonitor : list PoolConfig)
    (specificPoolId : option string) : list PoolConfig :=
  match given specificPoolId with
  | Some id =>
      match List.filter (fun p => samePoolId (poolId p) id) poolsToMonitor with
      | [] => [{| poolId := id; name := "Target Pool"; enabled := true;
                  rangePercent := RangeNull |}]
      | found => found
      end
  | None => List.filter enabled poolsToMonitor
  end.

(** [managedPoolIds.some(managedId => managedId.toLowerCase() === pool.poolId.toLowerCase())] *)
Definition managed (ids : list string) (pos : Read.HyperionPosition) : bool :=
  existsb (fun managedId => samePoolId managedId (Read.pool_poolId (Read.pool pos))) ids.

Section Check.

Variable s : Services.

(** "Convert to our format with pool names". The token symbols are read
    only when the pool has no configured name. *)
Definition describe (pools : list PoolConfig) (pos : Read.HyperionPosition)
  : Result RebalanceExecution.InactivePosition :=
  let pool := Read.pool pos in
  let poolConfig :=
    find (fun p => samePoolId (poolId p) (Read.pool_poolId pool)) pools in
  let symbols :=
    await info1 := Read.field (Read.token1Info pool) in
    await info2 := Read.field (Read.token2Info pool) in
    Ok (Read.symbol info1 ++ "/" ++ Read.symbol info2)%string in
  await poolName :=
    match poolConfig with
    | Some p => if String.eqb (name p) "" then symbols else Ok (name p)
    | None => symbols
    end in
  Ok {| RebalanceExecution.objectId := Read.objectId pos;
        RebalanceExecution.poolId := Read.pool_poolId pool;
        RebalanceExecution.poolName := poolName;
        RebalanceExecution.value := positionValue s pos |}.

(** The branch of a manual command on a pool without positions: the
    [CREATE_NEW] entry when some balance is at hand, nothing otherwise;
    its own [try] swallows every failure. *)
Definition creationEntry (pools : list PoolConfig) (id : string)
  : list RebalanceExecution.InactivePosition :=
  match (await _account := getAccount s in generateRatioResponse s id) with
  | Ok (Some data) =>
      let hasMinimumBalance :=
        num_ge (availableToken1 data) (1 # 100) || num_ge (token2Balance data) (1 # 100) in
      if hasMinimumBalance then
        let poolConfig := find (fun p => samePoolId (poolId p) id) pools in
        [{| RebalanceExecution.objectId := "CREATE_NEW";
            RebalanceExecution.poolId := id;
            RebalanceExecution.poolName :=
              match poolConfig with
              | Some p => if String.eqb (name p) "" then "Target Pool" else name p
              | None => "Target Pool"
              end;
            RebalanceExecution.value := "$0.00" |}]
      else []
  | Ok None => []
  | Throw _ => []
  end.

(** [checkRebalancingNeeded]: the [try] and its [catch]. *)
Definition checkRebalancingNeeded (poolsToMonitor : list PoolConfig)
    (specificPoolId : option string) (forceAllPositions : bool)
  : RebalanceCheckResult :=
  let attempt :=
    await _account := getAccount s in
    await allPositions := getAllPositions s in
    let ids := managedPoolIds poolsToMonitor specificPoolId in
    let pools := poolsToCheck poolsToMonitor specificPoolId in
    let managedPositions := List.filter (managed ids) allPositions in
    let positionsToRebalance :=
      if forceAllPositions then managedPositions
      else Read.filterInactivePositions (fetchTokensAmountByPositionId s)
             (Some getPoolConfigsForFilter) managedPositions in
    await entries := mapR (describe pools) positionsToRebalance in
    match entries with
    | _ :: _ =>
        Ok {| success := true; shouldNotify := true; inactivePositions := entries |}
    | [] =>
        match given specificPoolId, forceAllPositions, managedPositions with
        | Some id, false, [] =>
            Ok {| success := true; shouldNotify := true;
                  inactivePositions := creationEntry pools id |}
        | _, _, _ =>
            Ok {| success := true; shouldNotify := false; inactivePositions := [] |}
        end
    end in
  match attempt with
  | Ok result => result
  | Throw _ => {| success := false; shouldNotify := true; inactivePositions := [] |}
  end.

End Check.

(** The batch controller runs with this check: its collaborator answers
    as [checkRebalancingNeeded] does over the services [s], at every
    call, and reads the positions from the same source. *)
Definition Implements (c : RebalancingFlow.Collaborators) (s : Services) : Prop :=
  RebalancingFlow.getAllPositions c = getAllPositions s
  /\ forall pools specificPoolId force call,
       RebalancingFlow.c_success
         (RebalancingFlow.checkRebalancingNeeded c pools specificPoolId force call)
       = success (checkRebalancingNeeded s pools specificPoolId force)
       /\ RebalancingFlow.inactivePositions
            (RebalancingFlow.checkRebalancingNeeded c pools specificPoolId force call)
          = inactivePositions (checkRebalancingNeeded s pools specificPoolId force).

(** Collaborators of the batch controller whose check is the function
    above; [message] is the text of a result. *)
Definition withCheck (s : Services) (message : RebalanceCheckResult -> string)
    (c : RebalancingFlow.Collaborators) : RebalancingFlow.Collaborators :=
  {| RebalancingFlow.getAccount := getAccount s;
     RebalancingFlow.checkRebalancingNeeded :=
       fun pools specificPoolId force _ =>
         let r := checkRebalancingNeeded s pools specificPoolId force in
         {| RebalancingFlow.c_success := success r;
            RebalancingFlow.c_message := message r;
            RebalancingFlow.inactivePositions := inactivePositions r |};
     RebalancingFlow.getAllPositions := getAllPositions s;
     RebalancingFlow.executeRebalancing := RebalancingFlow.executeRebalancing c;
     RebalancingFlow.generateRatioResponse := RebalancingFlow.generateRatioResponse c;
     RebalancingFlow.getSwapPayload := RebalancingFlow.getSwapPayload c;
     RebalancingFlow.getCreatePoolPayload := RebalancingFlow.getCreatePoolPayload c;
     RebalancingFlow.executeTransaction := RebalancingFlow.executeTransaction c;
     RebalancingFlow.Number_toString := RebalancingFlow.Number_toString c |}.

End RebalanceCheck.

(** ** libs/hyperion/read.ts: the positions report *)

Module PositionsResponse.
Import Pools.
Import Read.

(** The status line of a position in the report. *)
Inductive Status : Type :=
  | Active
  | Inactive
  | NeedsRebalancing.

(** The result of [generatePositionsResponse]: [hasInactive], and the
    status lines of the positions in place of the [message] that shows
    them ([None] for the two messages without positions: the error
    message and "No Hyperion positions found"). *)
Record PositionsReport : Type := {
  statuses : option (list Status);
  hasInactive : bool
}.

Section Report.

Variable fetchAllPositionsByAddress : Result (list HyperionPosition).
Variable fetchWalletBalancesWithUSD : Result unit.
Variable formatWalletBalancesWithUSD : Result unit.
Variable fetchTokensAmountByPositionId : string -> Result (Z * Z).
Variable poolConfigs : option (list FilterConfig).

(** One iteration of the loop: what it contributes to [hasInactive] and
    the status it shows.  A failed fetch of the amounts is swallowed and
    leaves both at zero. *)
Definition positionStatus (pos : HyperionPosition) : Result (bool * Status) :=
  let p := pool pos in
  await info1 := field (token1Info p) in
  await info2 := field (token2Info p) in
  let price := priceOf (sqrtPrice p) (decimals info1) (decimals info2) in
  let '(token1Amount, token2Amount) :=
    match fetchTokensAmountByPositionId (objectId pos) with
    | Ok (t1, t2) =>
        ((inject_Z t1 / pow10 (decimals info1))%Q,
         (inject_Z t2 / pow10 (decimals info2))%Q)
    | Throw _ => (0%Q, 0%Q)
    end in
  let rangePercent := lookupRangePercent poolConfigs (pool_poolId p) in
  let active := isActive pos in
  let needs :=
    needsRebalancing rangePercent active
      (pctToken1 token1Amount token2Amount price)
      (pctToken2 token1Amount token2Amount price) in
  Ok (negb active || needs,
      if negb active then Inactive
      else if needs then NeedsRebalancing else Active).

(** The loop over the positions. *)
Fixpoint scan (positions : list HyperionPosition) (hasInactive : bool)
    (shown : list Status) : Result PositionsReport :=
  match positions with
  | [] => Ok {| statuses := Some shown; hasInactive := hasInactive |}
  | pos :: rest =>
      await st := positionStatus pos in
      scan rest (hasInactive || fst st) (shown ++ [snd st])
  end.

Definition generatePositionsResponse : PositionsReport :=
  let attempt :=
    await positions := fetchAllPositionsByAddress in
    await _walletBalances := fetchWalletBalancesWithUSD in
    match positions with
    | [] =>
        await _walletSection := formatWalletBalancesWithUSD in
        Ok {| statuses := None; hasInactive := false |}
    | _ :: _ =>
        await _walletSection := formatWalletBalancesWithUSD in
        scan positions false []
    end in
  match attempt with
  | Ok report => report
  | Throw _ => {| statuses := None; hasInactive := false |}
  end.

End Report.

End PositionsResponse.

(** ** libs/hyperion/addLiquidity.ts: liquidity within given maximum amounts *)

Module MaxTokenLiquidity.
Import Ratio.
Import CreatePool.
Import AddLiquidity.

(** [prioritizeToken: 'A' | 'B'] *)
Inductive Priority : Type :=
  | PriorityA
  | PriorityB.

(** The arguments of [sdk.Pool.estCurrencyAAmountFromB]. *)
Record EstBArgs : Type := {
  b_currencyA : string;
  b_currencyB : string;
  b_currencyBAmount : Z;
  b_feeTierIndex : FeeTierIndex;
  b_tickLower : Z;
  b_tickUpper : Z;
  b_currentPriceTick : Z
}.

Section CustomBalances.

(** The two directions of the liquidity oracle. *)
Variable estCurrencyBAmountFromA : EstArgs -> Result Z.
Variable estCurrencyAAmountFromB : EstBArgs -> Result Z.
(** The ratio data read for the pool ([None]: [data] is [null]), and the
    position's tick range and fee tier as resolved from its details. *)
Variable ratioData : option RatioResponseData.
Variable actualTickLower actualTickUpper : Z.
Variable actualFeeTierIndex : FeeTierIndex.

(** "Calculate optimal amounts using the prioritization strategy": the
    final amounts of the two tokens, or the error raised. *)
Definition finalAmounts (r : RatioResponseData)
    (customToken1Balance customToken2Balance : number)
    (prioritizeToken : Priority) (liquidityPercentage : number)
  : Result (number * number) :=
  match prioritizeToken with
  | PriorityA =>
      let finalToken1Amount := (customToken1Balance * liquidityPercentage)%Q in
      let token1AmountRaw :=
        Math_floor (finalToken1Amount * pow10 (r_token1Decimals r)) in
      await requiredToken2Raw :=
        estCurrencyBAmountFromA
          {| currencyA := Ratio.token1Address r;
             currencyB := Ratio.token2Address r;
             currencyAAmount := token1AmountRaw;
             est_feeTierIndex := actualFeeTierIndex;
             est_tickLower := actualTickLower;
             est_tickUpper := actualTickUpper;
             currentPriceTick := r_currentTick r |} in
      let finalToken2Amount :=
        (inject_Z requiredToken2Raw / pow10 (r_token2Decimals r))%Q in
      if num_gt finalToken2Amount customToken2Balance
      then Throw ("Insufficient " ++ r_token2Symbol r ++ ": need ")
      else Ok (finalToken1Amount, finalToken2Amount)
  | PriorityB =>
      let finalToken2Amount := (customToken2Balance * liquidityPercentage)%Q in
      let token2AmountRaw :=
        Math_floor (finalToken2Amount * pow10 (r_token2Decimals r)) in
      let estimated : Result number :=
        await requiredToken1Raw :=
          estCurrencyAAmountFromB
            {| b_currencyA := Ratio.token1Address r;
               b_currencyB := Ratio.token2Address r;
               b_currencyBAmount := token2AmountRaw;
               b_feeTierIndex := actualFeeTierIndex;
               b_tickLower := actualTickLower;
               b_tickUpper := actualTickUpper;
               b_currentPriceTick := r_currentTick r |} in
        let finalToken1Amount :=
          (inject_Z requiredToken1Raw / pow10 (r_token1Decimals r))%Q in
        if num_gt finalToken1Amount customToken1Balance
        then Throw ("Insufficient " ++ r_token1Symbol r ++ ": need ")
        else Ok finalToken1Amount in
      match estimated with
      | Ok finalToken1Amount => Ok (finalToken1Amount, finalToken2Amount)
      | Throw _ =>
          (* the [catch (methodError)]: "use ratio calculation" *)
          let finalToken1Amount := (finalToken2Amount / liquidityRatio r)%Q in
          if num_gt finalToken1Amount customToken1Balance
          then
            let finalToken1Amount' := (customToken1Balance * liquidityPercentage)%Q in
            Ok (finalToken1Amount', (finalToken1Amount' * liquidityRatio r)%Q)
          else Ok (finalToken1Amount, finalToken2Amount)
      end
  end.

(** [executeAddLiquidityWithCustomBalances] from the ratio data to the
    parameters handed to [sdk.Position.addLiquidityTransactionPayload];
    the enclosing [try] turns a [Throw] into a result with
    [success = false]. *)
Definition customBalancesAllocation (positionId : string)
    (customToken1Balance customToken2Balance : number)
    (prioritizeToken : Priority) (liquidityPercentage : number)
  : Result AddLiquidityParams :=
  match ratioData with
  | None => Throw "Failed to get ratio data"
  | Some r =>
      await amounts :=
        finalAmounts r customToken1Balance customToken2Balance prioritizeToken
          liquidityPercentage in
      let finalToken1AmountRaw :=
        Math_floor (fst amounts * pow10 (r_token1Decimals r)) in
      let finalToken2AmountRaw :=
        Math_floor (snd amounts * pow10 (r_token2Decimals r)) in
      if (finalToken1AmountRaw <? 100000) || (finalToken2AmountRaw <? 100000)
      then Throw "Amounts too small for liquidity addition: "
      else
        Ok {| a_positionId := positionId;
              a_currencyA := convertAPTAddressForTransaction (Ratio.token1Address r);
              a_currencyB := convertAPTAddressForTransaction (Ratio.token2Address r);
              a_currencyAAmount := finalToken1AmountRaw;
              a_currencyBAmount := finalToken2AmountRaw;
              a_slippage := (1 # 10)%Q;
              a_feeTierIndex := actualFeeTierIndex |}
  end.

End CustomBalances.

End MaxTokenLiquidity.

(** ** libs/hyperion/swap.ts *)

Module Swap.

(** The answer of [sdk.Swap.estToAmount] as far as it is read:
    [Number(amountOut)] and the route. *)
Record Estimate : Type := {
  amountOut : Z;
  path : list string
}.

(** The [swapParams] handed to [sdk.Swap.swapTransactionPayload]. *)
Record SwapParams : Type := {
  currencyA : string;
  currencyB : string;
  currencyAAmount : Z;
  currencyBAmount : Z;
  slippage : number;
  poolRoute : list string;
  recipient : string
}.

(** [getSwapPayload] up to the call of the SDK's payload builder;
    [estToAmount] is asked with the amount and the two tokens. *)
Definition getSwapPayload (apiKey : option string)
    (estToAmount : Z -> string -> string -> Result Estimate)
    (transactionData : RebalanceExecution.SwapRequest) : Result SwapParams :=
  if negb (truthy_string apiKey)
  then Throw "APTOS_API_KEY environment variable is not set."
  else
    await estimate :=
      estToAmount (RebalanceExecution.sr_swapAmountRaw transactionData)
        (RebalanceExecution.sr_swapFromToken transactionData)
        (RebalanceExecution.sr_swapToToken transactionData) in
    Ok {| currencyA :=
            CreatePool.convertAPTAddressForTransaction
              (RebalanceExecution.sr_swapFromToken transactionData);
          currencyB :=
            CreatePool.convertAPTAddressForTransaction
              (RebalanceExecution.sr_swapToToken transactionData);
          currencyAAmount := RebalanceExecution.sr_swapAmountRaw transactionData;
          currencyBAmount := amountOut estimate;
          slippage := (1 # 10)%Q;
          poolRoute := path estimate;
          recipient := RebalanceExecution.sr_recipient transactionData |}.

(** The request the orchestrator's swap step makes for a recommended
    swap: 90% of the recommended raw amount. *)
Definition orchestratorRequest (plan : Ratio.SwapPlan) (address : string)
  : RebalanceExecution.SwapRequest :=
  {| RebalanceExecution.sr_swapFromToken := Ratio.swapFromToken plan;
     RebalanceExecution.sr_swapToToken := Ratio.swapToToken plan;
     RebalanceExecution.sr_swapAmountRaw :=
       Math_floor (inject_Z (Ratio.swapAmountRaw plan) * (9 # 10));
     RebalanceExecution.sr_recipient := address |}.

End Swap.

(** ** libs/hyperion/read.ts: the retrying balance fetch of the ratio calculator *)

Module BalanceFetch.
Import Ratio.

(** The variables of "Fetch user balances with retry and validation". *)
Record Balances : Type := {
  token1Balance : number;
  token2Balance : number;
  balanceFetchAttempts : nat
}.

Definition maxBalanceFetchAttempts : nat := 3.

Section Loop.

(** What the two balance requests of the [n]-th attempt answer: the two
    amounts, or the exception one of them raised. *)
Variable fetchBalances : nat -> Result (number * number).
Variable token1Symbol token2Symbol : string.

(** The [while] loop; [fuel] bounds the unfolding and
    [maxBalanceFetchAttempts] suffices, since every pass counts an
    attempt. *)
Fixpoint retry (fuel : nat) (st : Balances) : Balances :=
  match fuel with
  | O => st
  | S fuel' =>
      if (balanceFetchAttempts st <? maxBalanceFetchAttempts)%nat then
        let attempt := S (balanceFetchAttempts st) in
        match fetchBalances attempt with
        | Ok (balance1, balance2) =>
            let st' := {| token1Balance := balance1; token2Balance := balance2;
                          balanceFetchAttempts := attempt |} in
            if isAPTstkAPTPool token1Symbol token2Symbol then
              let hasToken1 := num_gt balance1 (1 # 1000) in
              let hasToken2 := num_gt balance2 (1 # 1000) in
              if (negb hasToken1 || negb hasToken2)
                 && (attempt <? maxBalanceFetchAttempts)%nat
              then retry fuel' st'
              else st'
            else st'
        | Throw _ =>
            retry fuel' {| token1Balance := token1Balance st;
                           token2Balance := token2Balance st;
                           balanceFetchAttempts := attempt |}
        end
      else st
  end.

Definition fetchWithRetry : Balances :=
  retry maxBalanceFetchAttempts
    {| token1Balance := 0; token2Balance := 0; balanceFetchAttempts := 0 |}.

(** Both balances of an answer are above the 0.001 threshold. *)
Definition plausible (answer : number * number) : bool :=
  num_gt (fst answer) (1 # 1000) && num_gt (snd answer) (1 # 1000).

End Loop.

End BalanceFetch.

(** ** worker.ts: the webhook handler and its guard against duplicates *)

Module WorkerFetch.

Definition DEDUPLICATION_WINDOW : Z := 30000.

(** The module-level [processingCommands] map after [cleanupOldCommands]
    at time [now]. *)
Definition cleanupOldCommands (now : Z) (processingCommands : gmap string Z)
  : gmap string Z :=
  filter (fun kv : string * Z => ¬ (now - kv.2 > DEDUPLICATION_WINDOW))
         processingCommands.

(** [text.split(' ')[0]] *)
Fixpoint firstWord (text : string) : string :=
  match text with
  | EmptyString => EmptyString
  | String c rest => if Ascii.eqb c " " then EmptyString else String c (firstWord rest)
  end.

(** [s.startsWith(p)] *)
Definition startsWith (s p : string) : bool := String.prefix p s.

Definition isLongCommand (text : string) : bool :=
  startsWith text "/rebalance" || startsWith text "/addliquidity".

(** What the handler does with an update. *)
Inductive Outcome : Type :=
  | AlreadyProcessing
  | Started (commandId : string)
  | Regular.

Section Handler.

(** How [Date.now()] prints inside a template string. *)
Variable Number_toString : Z -> string.

(** The loop over the entries: is a command of the same chat with the
    same command word being processed, and younger than the window? *)
Definition isAlreadyProcessing (chatId text : string) (now : Z)
    (processingCommands : gmap string Z) : bool :=
  existsb (fun kv : string * Z =>
             startsWith kv.1 (chatId ++ "_")
             && includes kv.1 (firstWord text)
             && (now - kv.2 <? DEDUPLICATION_WINDOW))
          (map_to_list processingCommands).

(** The [fetch] handler on a parsed update, at time [now]: [chatId] is
    how the chat id prints ([None]: the update has none), [text] the
    message text (empty when absent).  It returns the map it leaves and
    what it did with the update. *)
Definition fetch (now : Z) (chatId : option string) (text : string)
    (processingCommands : gmap string Z) : gmap string Z * Outcome :=
  let cleaned := cleanupOldCommands now processingCommands in
  match chatId with
  | Some chat =>
      if isLongCommand text then
        if isAlreadyProcessing chat text now cleaned
        then (cleaned, AlreadyProcessing)
        else
          let commandBase := (chat ++ "_" ++ text)%string in
          let commandId := (commandBase ++ "_" ++ Number_toString now)%string in
          (<[commandId := now]> cleaned, Started commandId)
      else (cleaned, Regular)
  | None => (cleaned, Regular)
  end.

(** The [finally] of the background processing. *)
Definition finished (commandId : string) (processingCommands : gmap string Z)
  : gmap string Z :=
  delete commandId processingCommands.

End Handler.

End WorkerFetch.

(** ** Quantities named by the properties of the ratio calculator *)

Module RatioFacts.
Import Ratio.

(** The market price [calculateOptimalRatioData] derives from a pool. *)
Definition priceOfPool (p : PoolInfo) : number :=
  let sqrtPriceDecimal := (sqrtPrice p / inject_Z (2 ^ 64))%Q in
  let decimalsRatio := pow10 (token1Decimals p - token2Decimals p) in
  ((sqrtPriceDecimal * sqrtPriceDecimal) * decimalsRatio)%Q.

End RatioFacts.

(** ** Quantities named by the properties of the allocation search *)

Module AllocationFacts.
Import Ratio.
Import CreatePool.

Section Facts.

Variable est : Estimator.
Variable ratioData : RatioData.

(** The query [getCreatePoolPayload] puts to the oracle for a raw amount
    of token1. *)
Definition query (token1Raw : Z) : EstArgs :=
  {| currencyA := token1Address ratioData;
     currencyB := token2Address ratioData;
     currencyAAmount := token1Raw;
     est_feeTierIndex := feeTierIndex ratioData;
     est_tickLower := tickLower ratioData;
     est_tickUpper := tickUpper ratioData;
     currentPriceTick := currentTick ratioData |}.

(** The raw token1 amount of the candidate at [percentage]. *)
Definition candidateToken1Raw (percentage : number) : Z :=
  Math_floor
    (inject_Z (Math_floor (availableToken1 ratioData * (percentage / 100)
                           * pow10 (token1Decimals ratioData))) / 1000) * 1000.

(** At its [call]-th query the oracle answers for the candidate at
    [percentage], and the rounded answer is within the token2 balance. *)
Definition feasible (call : nat) (percentage : number) : Prop :=
  exists cand,
    evaluate est ratioData call percentage = Ok cand
    /\ (roundedRequiredToken2 cand <= token2Balance ratioData)%Q.

(** Some query of the run found [percentage] not feasible. *)
Definition rejected (percentage : number) : Prop :=
  exists call, ~ feasible call percentage.

(** How the search variables hang together: a recorded allocation is the
    candidate at [minPercentage], nothing recorded means [minPercentage]
    never moved, and [maxPercentage] moved only to rejected
    percentages. *)
Definition Recorded (s : SearchState) : Prop :=
  (found s = true ->
     bestToken1Amount s = (availableToken1 ratioData * (minPercentage s / 100))%Q
     /\ bestToken1AmountRaw s = candidateToken1Raw (minPercentage s)
     /\ exists call,
          feasible call (minPercentage s)
          /\ exists raw,
               est call (query (bestToken1AmountRaw s)) = Ok raw
               /\ bestToken2AmountRaw s = Math_floor (inject_Z raw / 1000) * 1000)
  /\ (found s = false -> minPercentage s = 50%Q)
  /\ (maxPercentage s = (999 # 10)%Q \/ rejected (maxPercentage s)).

End Facts.

End AllocationFacts.

(** ** Quantities named by the properties of the top-up allocation *)

Module TopUpFacts.
Import Ratio.
Import CreatePool.

Section Facts.

Variable est : Estimator.
Variable updatedRatioData : RatioResponseData.
Variable actualTickLower actualTickUpper : Z.
Variable actualFeeTierIndex : FeeTierIndex.
Variable liquidityPercentage : number.

(** The query [executeAddLiquidity] puts to the oracle for a raw amount of
    token1: the position's own range and fee tier. *)
Definition query (token1Raw : Z) : EstArgs :=
  {| currencyA := Ratio.token1Address updatedRatioData;
     currencyB := Ratio.token2Address updatedRatioData;
     currencyAAmount := token1Raw;
     est_feeTierIndex := actualFeeTierIndex;
     est_tickLower := actualTickLower;
     est_tickUpper := actualTickUpper;
     currentPriceTick := r_currentTick updatedRatioData |}.

(** The raw token1 amount of the candidate at [percentage]. *)
Definition candidateToken1Raw (percentage : number) : Z :=
  Math_floor
    (AddLiquidity.maxUsableToken1 updatedRatioData liquidityPercentage
     * (percentage / 100) * pow10 (r_token1Decimals updatedRatioData)).

(** What every iteration of the top-up search preserves. *)
Definition TopUpInv (s : SearchState) : Prop :=
  (50 <= minPercentage s)%Q
  /\ (minPercentage s <= maxPercentage s)%Q
  /\ (maxPercentage s <= 999 # 10)%Q
  /\ (found s = true ->
      (bestToken2Amount s <= Ratio.token2Balance updatedRatioData)%Q
      /\ bestToken2Amount s
         = (inject_Z (bestToken2AmountRaw s)
            / pow10 (r_token2Decimals updatedRatioData))%Q
      /\ exists percentage call,
           (50 <= percentage)%Q /\ (percentage <= 999 # 10)%Q
           /\ bestToken1AmountRaw s = candidateToken1Raw percentage
           /\ est call (query (bestToken1AmountRaw s)) = Ok (bestToken2AmountRaw s)).

End Facts.

End TopUpFacts.

(** ** Quantities named by the properties of the batch controller *)

Module FlowFacts.
Import RebalancingFlow.

Section Facts.

Variable c : Collaborators.
Variable targetPool : Pools.PoolConfig.

(** The orchestrator's result for a position of a forced batch, when the
    run neither raised nor reported a failure. *)
Definition outcome (position : RebalanceExecution.InactivePosition)
  : option RebalanceExecution.RebalanceExecutionResult :=
  match executeRebalancing c position targetPool true with
  | Ok r => if RebalanceExecution.success r then Some r else None
  | Throw _ => None
  end.

Definition succeeded (position : RebalanceExecution.InactivePosition) : bool :=
  match outcome position with Some _ => true | None => false end.

Definition failed (position : RebalanceExecution.InactivePosition) : bool :=
  negb (succeeded position).

(** The transaction hashes of a run that the batch result takes over. *)
Definition carriedHashes (position : RebalanceExecution.InactivePosition)
  : list string :=
  match outcome position with
  | Some r => RebalanceExecution.transactionHashes (RebalanceExecution.details r)
  | None => []
  end.

End Facts.

End FlowFacts.

(** ** Sample data used to exercise the definitions *)

Module Samples.
Import Pools.
Import Read.

Definition APT : TokenInfo := {| symbol := "APT"; decimals := 8 |}.
Definition USDT : TokenInfo := {| symbol := "USDT"; decimals := 6 |}.

(** A pool quoting 100 USDT per APT ([sqrtPrice = 2^64], decimals 8 and 6). *)
Definition poolAt (id : string) (tick : Z) : PoolData :=
  {| currentTick := tick; pool_poolId := id; sqrtPrice := inject_Z (2 ^ 64);
     token1Info := Some APT; token2Info := Some USDT |}.

(** The configured APT/USDT pool (range 5), its id in upper case. *)
Definition usdtPoolId : string :=
  "0X18269B1090D668FBBC01902FA6A5AC6E75565D61860DDAE636AC89741C883CBC".

(** The configured APT/stkAPT pool (tightest range). *)
Definition stkPoolId : string :=
  "0x9878b6f039b1fce27240fd51f536fceefac939268ecaa8dd6c84b7640177abe4".

Definition unknownPoolId : string := "0xdead".

Definition positionIn (id : string) (lower upper tick : Z) : HyperionPosition :=
  {| objectId := "0xp1"; tickLower := lower; tickUpper := upper; createdAt := 0;
     pool := poolAt id tick |}.

(** A pool payload without its second token descriptor. *)
Definition brokenPosition (lower upper tick : Z) : HyperionPosition :=
  {| objectId := "0xp2"; tickLower := lower; tickUpper := upper; createdAt := 0;
     pool := {| currentTick := tick; pool_poolId := stkPoolId;
                sqrtPrice := inject_Z (2 ^ 64);
                token1Info := Some APT; token2Info := None |} |}.

Definition fetchAnswers (t1 t2 : Z) : string -> Result (Z * Z) :=
  fun _ => Ok (t1, t2).

Definition fetchDown : string -> Result (Z * Z) :=
  fun _ => Throw "request failed".

Definition configured : option (list FilterConfig) := Some getPoolConfigsForFilter.

(** *** A node that accepts everything, and a process that just started *)

Definition stringify (args : list ExecuteTransaction.Argument) : string :=
  match args with
  | [] => "[]"
  | _ :: _ => "[..]"
  end.

Definition acceptingNode : ExecuteTransaction.Network :=
  {| ExecuteTransaction.timerLag := 3;
     ExecuteTransaction.buildLatency := 120;
     ExecuteTransaction.build := Ok tt;
     ExecuteTransaction.simulateLatency := 200;
     ExecuteTransaction.simulate := ExecuteTransaction.SimSuccess;
     ExecuteTransaction.submitLatency := 150;
     ExecuteTransaction.signAndSubmitTransaction := Ok "0xhash";
     ExecuteTransaction.confirmLatency := 900;
     ExecuteTransaction.waitForTransaction := Ok tt |}.

Definition freshProcess : ExecuteTransaction.Runtime :=
  {| ExecuteTransaction.clock := 1700000000000;
     ExecuteTransaction.recentTransactions := ∅ |}.

Definition removeLiquidityPayload : ExecuteTransaction.TransactionPayload :=
  {| ExecuteTransaction.function_name := "0x8b4a::router_v3::remove_liquidity";
     ExecuteTransaction.typeArguments := None;
     ExecuteTransaction.functionArguments := [ExecuteTransaction.ArgString "0xp1"] |}.

Definition swapPayload : ExecuteTransaction.TransactionPayload :=
  {| ExecuteTransaction.function_name := "0x8b4a::router_v3::swap";
     ExecuteTransaction.typeArguments := None;
     ExecuteTransaction.functionArguments := [ExecuteTransaction.ArgNumber 180000000] |}.

(** *** A run of the orchestrator in which the swap is refused *)

Definition ratioWithSwap : Ratio.RatioResponseData :=
  {| Ratio.r_poolId := usdtPoolId;
     Ratio.token1Address := "0xa"; Ratio.token2Address := "0xusdt";
     Ratio.r_token1Symbol := "APT"; Ratio.r_token2Symbol := "USDT";
     Ratio.r_currentTick := 150;
     Ratio.feeTierIndex := Ratio.PER_0_05_SPACING_5;
     Ratio.tickLower := 100; Ratio.tickUpper := 200;
     Ratio.r_feeRate := 500;
     Ratio.liquidityRatio := 100; Ratio.marketPrice := 100;
     Ratio.token1Balance := 5; Ratio.token2Balance := 0;
     Ratio.availableToken1 := 4;
     Ratio.r_token1Decimals := 8; Ratio.r_token2Decimals := 6;
     Ratio.swap :=
       Some {| Ratio.swapAmount := 2; Ratio.swapAmountRaw := 200000000;
               Ratio.swapFromToken := "0xa"; Ratio.swapToToken := "0xusdt";
               Ratio.swapFromSymbol := "APT"; Ratio.swapToSymbol := "USDT" |} |}.

Definition refusedSwap : RebalanceExecution.Collaborators :=
  {| RebalanceExecution.getAccount := Ok "0xme";
     RebalanceExecution.getRemoveLiquidityPayload := fun _ _ _ => Ok removeLiquidityPayload;
     RebalanceExecution.executeTransaction :=
       fun _ operationName =>
         if String.eqb operationName "remove liquidity" then Ok "0xremoved"
         else Throw "Transaction simulation failed: EINSUFFICIENT_BALANCE";
     RebalanceExecution.generateRatioResponse := fun _ => Some ratioWithSwap;
     RebalanceExecution.getSwapPayload := fun _ => Ok swapPayload;
     RebalanceExecution.getCreatePoolPayload := fun _ => Throw "not reached";
     RebalanceExecution.getAllPositions := Ok [];
     RebalanceExecution.executeAddLiquidity :=
       fun _ => {| RebalanceExecution.al_success := false;
                   RebalanceExecution.al_swapExecuted := false;
                   RebalanceExecution.al_transactionHashes := [];
                   RebalanceExecution.al_swapDetails := None;
                   RebalanceExecution.al_error := None |};
     RebalanceExecution.Number_toString := fun _ => "5" |}.

Definition stalePosition : RebalanceExecution.InactivePosition :=
  {| RebalanceExecution.objectId := "0xp1";
     RebalanceExecution.poolId := usdtPoolId;
     RebalanceExecution.poolName := "APT/USDT";
     RebalanceExecution.value := "$12.00" |}.

Definition usdtConfig : PoolConfig :=
  {| poolId := usdtPoolId; name := "APT/USDT"; enabled := true;
     rangePercent := RangeNumber 5 |}.

(** *** A wallet whose candidates all need less than 1000 raw units of token2 *)

Definition dustEstimator : Ratio.Estimator := fun _ _ => Ok 500.

Definition smallWallet : CreatePool.RatioData :=
  {| CreatePool.token1Address := "0xa"; CreatePool.token2Address := "0xusdt";
     CreatePool.feeTierIndex := Ratio.PER_0_05_SPACING_5;
     CreatePool.currentTick := 150;
     CreatePool.tickLower := 100; CreatePool.tickUpper := 200;
     CreatePool.token1Balance := 2; CreatePool.token2Balance := 1;
     CreatePool.availableToken1 := 1;
     CreatePool.token1Decimals := 8; CreatePool.token2Decimals := 6;
     CreatePool.token1Symbol := "APT"; CreatePool.token2Symbol := "USDT" |}.

(** *** An oracle asking one raw unit of token2 per raw unit of token1 *)

Definition linearEstimator : Ratio.Estimator :=
  fun _ args => Ok (Ratio.currencyAAmount args).

(** One APT available beside 70 USDT: 70% of the APT can be paired. *)
Definition unbalancedWallet : CreatePool.RatioData :=
  {| CreatePool.token1Address := "0xa"; CreatePool.token2Address := "0xusdt";
     CreatePool.feeTierIndex := Ratio.PER_0_05_SPACING_5;
     CreatePool.currentTick := 150;
     CreatePool.tickLower := 100; CreatePool.tickUpper := 200;
     CreatePool.token1Balance := 2; CreatePool.token2Balance := 70;
     CreatePool.availableToken1 := 1;
     CreatePool.token1Decimals := 8; CreatePool.token2Decimals := 6;
     CreatePool.token1Symbol := "APT"; CreatePool.token2Symbol := "USDT" |}.

(** Ratio data of a wallet with four APT and a thousand USDT. *)
Definition fundedRatio : Ratio.RatioResponseData :=
  {| Ratio.r_poolId := usdtPoolId;
     Ratio.token1Address := "0xa"; Ratio.token2Address := "0xusdt";
     Ratio.r_token1Symbol := "APT"; Ratio.r_token2Symbol := "USDT";
     Ratio.r_currentTick := 150;
     Ratio.feeTierIndex := Ratio.PER_0_05_SPACING_5;
     Ratio.tickLower := 100; Ratio.tickUpper := 200;
     Ratio.r_feeRate := 500;
     Ratio.liquidityRatio := 100; Ratio.marketPrice := 100;
     Ratio.token1Balance := 5; Ratio.token2Balance := 1000;
     Ratio.availableToken1 := 4;
     Ratio.r_token1Decimals := 8; Ratio.r_token2Decimals := 6;
     Ratio.swap := None |}.

(** *** Cycles of the batch controller *)

Definition idleOrchestrator : RebalancingFlow.Collaborators :=
  {| RebalancingFlow.getAccount := Ok "0xme";
     RebalancingFlow.checkRebalancingNeeded :=
       fun _ _ _ _ =>
         {| RebalancingFlow.c_success := true; RebalancingFlow.c_message := "";
            RebalancingFlow.inactivePositions := [] |};
     RebalancingFlow.getAllPositions := Ok [];
     RebalancingFlow.executeRebalancing := fun _ _ _ => Throw "node unreachable";
     RebalancingFlow.generateRatioResponse := fun _ _ _ => None;
     RebalancingFlow.getSwapPayload := fun _ => Throw "node unreachable";
     RebalancingFlow.getCreatePoolPayload := fun _ => Throw "node unreachable";
     RebalancingFlow.executeTransaction := fun _ _ => Throw "node unreachable";
     RebalancingFlow.Number_toString := fun _ => "5" |}.

(** The check reports the given positions. *)
Definition reporting (positions : list RebalanceExecution.InactivePosition)
  : RebalancingFlow.Collaborators :=
  {| RebalancingFlow.getAccount := Ok "0xme";
     RebalancingFlow.checkRebalancingNeeded :=
       fun _ _ _ _ =>
         {| RebalancingFlow.c_success := true; RebalancingFlow.c_message := "";
            RebalancingFlow.inactivePositions := positions |};
     RebalancingFlow.getAllPositions := Ok [];
     RebalancingFlow.executeRebalancing := fun _ _ _ => Throw "node unreachable";
     RebalancingFlow.generateRatioResponse := fun _ _ _ => None;
     RebalancingFlow.getSwapPayload := fun _ => Throw "node unreachable";
     RebalancingFlow.getCreatePoolPayload := fun _ => Throw "node unreachable";
     RebalancingFlow.executeTransaction := fun _ _ => Throw "node unreachable";
     RebalancingFlow.Number_toString := fun _ => "5" |}.

Definition stkConfig : PoolConfig :=
  {| poolId := stkPoolId; name := "APT/stkAPT"; enabled := true;
     rangePercent := RangeNull |}.

Definition automatic : RebalancingFlow.RebalancingOptions :=
  {| RebalancingFlow.o_poolId := None; RebalancingFlow.o_rangePercent := None |}.

Definition manual (id : string) : RebalancingFlow.RebalancingOptions :=
  {| RebalancingFlow.o_poolId := Some id; RebalancingFlow.o_rangePercent := None |}.

End Samples.

(** ** Sample data for the ratio calculator *)

Module RatioSamples.
Import Pools.
Import Ratio.

(** An APT/USDT pool at 100 USDT per APT, fee rate 0.05%. *)
Definition aptUsdtPool : PoolInfo :=
  {| currentTick := 150; feeRate := 500; sqrtPrice := inject_Z (2 ^ 64);
     token1 := "0xa"; token2 := "0xusdt";
     token1Symbol := "APT"; token2Symbol := "USDT";
     token1Decimals := 8; token2Decimals := 6 |}.

(** A price-to-tick conversion that answers with the price itself. *)
Definition identityTicks : number -> FeeTierIndex -> number -> option number :=
  fun price _ _ => Some price.

(** The oracle asks 100 USDT per APT: 100000 USDT for the 1000 APT of the
    calculator's test query. *)
Definition hundredPerToken : Estimator := fun _ _ => Ok 100000000000.

End RatioSamples.

(** ** Sample data for the orchestrator *)

Module OrchestratorSamples.

(** What the ratio calculator reports on the APT/stkAPT pool when the
    balance reads came back with dust. *)
Definition dustRatio : Ratio.RatioResponseData :=
  {| Ratio.r_poolId := Samples.stkPoolId;
     Ratio.token1Address := "0xa"; Ratio.token2Address := "0xstk";
     Ratio.r_token1Symbol := "APT"; Ratio.r_token2Symbol := "stkAPT";
     Ratio.r_currentTick := 150;
     Ratio.feeTierIndex := Ratio.PER_0_01_SPACING_1;
     Ratio.tickLower := 149; Ratio.tickUpper := 151;
     Ratio.r_feeRate := 100;
     Ratio.liquidityRatio := 1; Ratio.marketPrice := 1;
     Ratio.token1Balance := 1; Ratio.token2Balance := (2 # 1000);
     Ratio.availableToken1 := (1 # 1000);
     Ratio.r_token1Decimals := 8; Ratio.r_token2Decimals := 8;
     Ratio.swap := None |}.

(** Every request succeeds, and the balances read are dust. *)
Definition dustWallet : RebalanceExecution.Collaborators :=
  {| RebalanceExecution.getAccount := Ok "0xme";
     RebalanceExecution.getRemoveLiquidityPayload :=
       fun _ _ _ => Ok Samples.removeLiquidityPayload;
     RebalanceExecution.executeTransaction := fun _ _ => Ok "0xhash";
     RebalanceExecution.generateRatioResponse := fun _ => Some dustRatio;
     RebalanceExecution.getSwapPayload := fun _ => Ok Samples.swapPayload;
     RebalanceExecution.getCreatePoolPayload := fun _ => Ok Samples.swapPayload;
     RebalanceExecution.getAllPositions := Ok [];
     RebalanceExecution.executeAddLiquidity :=
       fun _ => {| RebalanceExecution.al_success := true;
                   RebalanceExecution.al_swapExecuted := false;
                   RebalanceExecution.al_transactionHashes := ["0xtopup"];
                   RebalanceExecution.al_swapDetails := None;
                   RebalanceExecution.al_error := None |};
     RebalanceExecution.Number_toString := fun _ => "5" |}.

End OrchestratorSamples.

(** ** Sample data for the check before a cycle *)

Module CheckSamples.

(** An in-range position in the configured APT/USDT pool. *)
Definition usdtPosition : Read.HyperionPosition :=
  Samples.positionIn Samples.usdtPoolId 100 200 150.

(** An account holding the given positions, with every request answered. *)
Definition holder (positions : list Read.HyperionPosition) : RebalanceCheck.Services :=
  {| RebalanceCheck.getAccount := Ok "0xme";
     RebalanceCheck.getAllPositions := Ok positions;
     RebalanceCheck.fetchTokensAmountByPositionId :=
       Samples.fetchAnswers 100000000 100000000;
     RebalanceCheck.generateRatioResponse := fun _ => Ok (Some Samples.fundedRatio);
     RebalanceCheck.positionValue := fun _ => "$12.00" |}.

Definition usdtEntry : RebalanceExecution.InactivePosition :=
  {| RebalanceExecution.objectId := "0xp1";
     RebalanceExecution.poolId := Samples.usdtPoolId;
     RebalanceExecution.poolName := "APT/USDT";
     RebalanceExecution.value := "$12.00" |}.

End CheckSamples.

(** * Properties *)

(** ** Numbers *)

Lemma num_lt_iff (a b : number) : num_lt a b = true <-> (a < b)%Q.
Proof.
  unfold num_lt. rewrite negb_true_iff. split.
  - intros H. apply Qnot_le_lt. intros Hle.
    apply Qle_bool_iff in Hle. congruence.
  - intros H. destruct (Qle_bool b a) eqn:E; [|reflexivity].
    apply Qle_bool_iff in E. exfalso. exact (Qlt_not_le _ _ H E).
Qed.

Lemma num_le_iff (a b : number) : num_le a b = true <-> (a <= b)%Q.
Proof. apply Qle_bool_iff. Qed.

Lemma num_gt_iff (a b : number) : num_gt a b = true <-> (b < a)%Q.
Proof. apply num_lt_iff. Qed.

Lemma num_eq_iff (a b : number) : num_eq a b = true <-> (a == b)%Q.
Proof. apply Qeq_bool_iff. Qed.

Lemma Math_floor_quotient (a b : Z) :
  Math_floor (inject_Z a / inject_Z b) = a `div` b.
Proof. unfold Math_floor. symmetry. apply Zdiv_Qdiv. Qed.

Lemma Math_ceil_quotient (a b : Z) :
  Math_ceil (inject_Z a / inject_Z b) = - ((- a) `div` b).
Proof.
  unfold Math_ceil, Qceiling. f_equal.
  rewrite (Zdiv_Qdiv (- a) b). apply Qfloor_comp.
  rewrite inject_Z_opp. unfold Qdiv. ring.
Qed.

(** Rounding down to a multiple of 1000, as the allocation search does. *)
Lemma floor_to_thousand (n : Z) :
  let r := Math_floor (inject_Z n / 1000) * 1000 in
  (1000 | r) /\ r <= n < r + 1000.
Proof.
  cbv zeta. change (1000%Q) with (inject_Z 1000).
  rewrite Math_floor_quotient. split.
  - exists (n `div` 1000). reflexivity.
  - pose proof (Z.div_mod n 1000 ltac:(lia)).
    pose proof (Z.mod_pos_bound n 1000 ltac:(lia)). lia.
Qed.

(** ** The ratio calculator *)

Section RatioProperties.
Import Pools.
Import Ratio.

Lemma tightestRange_div (currentTick tickSpacing : Z) :
  tightestRange currentTick tickSpacing =
  ((currentTick - tickSpacing) `div` tickSpacing * tickSpacing,
   - ((- (currentTick + tickSpacing)) `div` tickSpacing) * tickSpacing).
Proof.
  unfold tightestRange.
  now rewrite Math_floor_quotient, Math_ceil_quotient.
Qed.

Lemma tightestRange_brackets (currentTick tickSpacing : Z) :
  0 < tickSpacing ->
  fst (tightestRange currentTick tickSpacing) <= currentTick - tickSpacing
  /\ currentTick + tickSpacing <= snd (tightestRange currentTick tickSpacing).
Proof.
  intros Hs. rewrite tightestRange_div. cbn [fst snd].
  pose proof (Z.div_mod (currentTick - tickSpacing) tickSpacing ltac:(lia)).
  pose proof (Z.mod_pos_bound (currentTick - tickSpacing) tickSpacing Hs).
  pose proof (Z.div_mod (- (currentTick + tickSpacing)) tickSpacing ltac:(lia)).
  pose proof (Z.mod_pos_bound (- (currentTick + tickSpacing)) tickSpacing Hs).
  nia.
Qed.

Lemma feeConfigFor_spacing_pos (feeRate : Z) : 0 < spacing (feeConfigFor feeRate).
Proof.
  unfold feeConfigFor, feeConfig.
  repeat match goal with |- context [if ?b then _ else _] => destruct b end;
    cbn; lia.
Qed.

(** With [rangePercent] null (or undefined) the calculator returns the
    tightest range of the pool's own tick spacing. *)
Lemma calculateOptimalRatioData_tightest priceToTick est id p b1 b2 r :
  calculateOptimalRatioData priceToTick est id RangeNull (Some p) b1 b2 = Some r ->
  (tickLower r, tickUpper r) =
    tightestRange (currentTick p) (spacing (feeConfigFor (feeRate p))).
Proof.
  unfold calculateOptimalRatioData. cbn [tickRange].
  destruct (tightestRange _ _) as [lo hi].
  destruct (est _ _); [|discriminate].
  intros [= <-]. reflexivity.
Qed.

(** C5. With a null [rangePercent] the ratio calculator takes
    [tickLower = floor((currentTick - tickSpacing) / tickSpacing) * tickSpacing]
    and [tickUpper = ceil((currentTick + tickSpacing) / tickSpacing) * tickSpacing];
    for [currentTick = 500] and [tickSpacing = 60] that is [420] and
    [600]; and for every current tick and positive spacing the lower
    bound is below the upper one and both are multiples of the spacing.
    The same holds of the bounds in the data the calculator returns. *)
Theorem tightest_range_bounds (currentTick tickSpacing : Z) :
  0 < tickSpacing ->
  tightestRange 500 60 = (420, 600)
  /\ fst (tightestRange currentTick tickSpacing)
     = Math_floor (inject_Z (currentTick - tickSpacing) / inject_Z tickSpacing)
       * tickSpacing
  /\ snd (tightestRange currentTick tickSpacing)
     = Math_ceil (inject_Z (currentTick + tickSpacing) / inject_Z tickSpacing)
       * tickSpacing
  /\ fst (tightestRange currentTick tickSpacing)
     < snd (tightestRange currentTick tickSpacing)
  /\ (tickSpacing | fst (tightestRange currentTick tickSpacing))
  /\ (tickSpacing | snd (tightestRange currentTick tickSpacing))
  /\ (forall priceToTick est id p b1 b2 r,
        calculateOptimalRatioData priceToTick est id RangeNull (Some p) b1 b2 = Some r ->
        (tickLower r, tickUpper r)
          = tightestRange (Ratio.currentTick p) (spacing (feeConfigFor (feeRate p)))
        /\ tickLower r < tickUpper r).
Proof.
  intros Hs. split; [reflexivity|].
  split; [reflexivity|]. split; [reflexivity|].
  pose proof (tightestRange_brackets currentTick tickSpacing Hs) as [Hlo Hhi].
  split; [lia|].
  rewrite tightestRange_div. cbn [fst snd].
  split; [eexists; reflexivity|]. split; [eexists; reflexivity|].
  intros priceToTick est id p b1 b2 r Hr.
  pose proof (calculateOptimalRatioData_tightest _ _ _ _ _ _ _ Hr) as E.
  split; [exact E|].
  pose proof (tightestRange_brackets (Ratio.currentTick p) _
                (feeConfigFor_spacing_pos (feeRate p))) as [H1 H2].
  rewrite <- E in H1, H2. cbn [fst snd] in H1, H2.
  pose proof (feeConfigFor_spacing_pos (feeRate p)). lia.
Qed.

Lemma tightest_range_bounds_witness :
  0 < 60
  /\ fst (tightestRange 500 60) < snd (tightestRange 500 60).
Proof.
  split; [lia|].
  apply (tightest_range_bounds 500 60). lia.
Defined.



End RatioProperties.

(** ** The position classifier *)

Section ClassifierProperties.
Import Pools.
Import Read.

Variable fetch : string -> Result (Z * Z).
Variable poolConfigs : option (list FilterConfig).

(** The loop pushes exactly the flagged positions, in order. *)
Lemma filterInactivePositions_filter (positions : list HyperionPosition) :
  filterInactivePositions fetch poolConfigs positions
  = List.filter (flagged fetch poolConfigs) positions.
Proof.
  unfold filterInactivePositions.
  enough (G : forall acc,
             fold_left (fun acc pos =>
                          if flagged fetch poolConfigs pos then acc ++ [pos] else acc)
                       positions acc
             = acc ++ List.filter (flagged fetch poolConfigs) positions)
    by apply (G []).
  induction positions as [|pos rest IH]; intros acc; cbn.
  - now rewrite app_nil_r.
  - rewrite IH. destruct (flagged fetch poolConfigs pos); [|reflexivity].
    now rewrite <- app_assoc.
Qed.

Lemma filterInactivePositions_app (l1 l2 : list HyperionPosition) :
  filterInactivePositions fetch poolConfigs (l1 ++ l2)
  = filterInactivePositions fetch poolConfigs l1
    ++ filterInactivePositions fetch poolConfigs l2.
Proof.
  rewrite !filterInactivePositions_filter. induction l1 as [|x l1 IH]; cbn.
  - reflexivity.
  - rewrite IH. now destruct (flagged fetch poolConfigs x).
Qed.

Lemma In_filterInactivePositions pos positions :
  In pos (filterInactivePositions fetch poolConfigs positions)
  <-> In pos positions /\ flagged fetch poolConfigs pos = true.
Proof. rewrite filterInactivePositions_filter. apply filter_In. Qed.

Lemma isActive_iff pos :
  isActive pos = true
  <-> tickLower pos < currentTick (pool pos) < tickUpper pos.
Proof. unfold isActive. rewrite andb_true_iff, !Z.ltb_lt. reflexivity. Qed.

(** A position that is evaluated: both token descriptors are present and
    the token amounts were fetched. *)
Lemma flagged_evaluated pos info1 info2 t1 t2 :
  token1Info (pool pos) = Some info1 ->
  token2Info (pool pos) = Some info2 ->
  fetch (objectId pos) = Ok (t1, t2) ->
  let price := priceOf (sqrtPrice (pool pos)) (decimals info1) (decimals info2) in
  let token1Amount := (inject_Z t1 / pow10 (decimals info1))%Q in
  let token2Amount := (inject_Z t2 / pow10 (decimals info2))%Q in
  flagged fetch poolConfigs pos
  = needsRebalancing (lookupRangePercent poolConfigs (pool_poolId (pool pos)))
      (isActive pos)
      (pctToken1 token1Amount token2Amount price)
      (pctToken2 token1Amount token2Amount price).
Proof.
  intros H1 H2 Hf. unfold flagged, analysePosition.
  rewrite H1, H2. cbn [field bindR]. rewrite Hf. reflexivity.
Qed.

Lemma needsRebalancing_tightest active pct1 pct2 :
  needsRebalancing RangeNull active pct1 pct2 = true
  <-> active = false \/ (pct1 == 0)%Q \/ (pct2 == 0)%Q.
Proof.
  unfold needsRebalancing. rewrite <- !num_eq_iff.
  destruct active, (num_eq pct1 0), (num_eq pct2 0); cbn; intuition congruence.
Qed.

Lemma needsRebalancing_custom rangePercent active pct1 pct2 :
  rangePercent <> RangeNull ->
  needsRebalancing rangePercent active pct1 pct2 = true
  <-> (pct1 < 10)%Q \/ (pct2 < 10)%Q.
Proof.
  intros Hr. rewrite <- !num_lt_iff.
  destruct rangePercent; [|congruence|]; cbn;
    destruct (num_lt pct1 10), (num_lt pct2 10); cbn; intuition congruence.
Qed.



(** When the token-amount fetch raises, the inner [catch] ends the
    iteration: the position is not pushed. *)
Lemma flagged_fetch_raises pos info1 info2 e :
  token1Info (pool pos) = Some info1 ->
  token2Info (pool pos) = Some info2 ->
  fetch (objectId pos) = Throw e ->
  flagged fetch poolConfigs pos = false.
Proof.
  intros H1 H2 Hf. unfold flagged, analysePosition.
  rewrite H1, H2. cbn [field bindR]. now rewrite Hf.
Qed.

(** When the analysis itself raises, the outer [catch] pushes the
    position if it is inactive. *)
Lemma flagged_analysis_raises pos :
  token1Info (pool pos) = None \/ token2Info (pool pos) = None ->
  flagged fetch poolConfigs pos = negb (isActive pos).
Proof.
  intros H. unfold flagged, analysePosition.
  destruct (token1Info (pool pos)) as [i1|]; cbn [field bindR].
  - destruct H as [H|H]; [discriminate|]. now rewrite H.
  - reflexivity.
Qed.


End ClassifierProperties.

(** *** The classifier on sample positions *)

(** One APT (100 USDT) beside 900 USDT is a 10% share: not flagged under
    the custom rule; beside 1000 USDT it is below 10%: flagged. *)
Example custom_rule_at_ten_percent :
  Read.filterInactivePositions (Samples.fetchAnswers (10 ^ 8) (900 * 10 ^ 6))
    Samples.configured [Samples.positionIn Samples.usdtPoolId 100 200 150] = []
  /\ Read.filterInactivePositions (Samples.fetchAnswers (10 ^ 8) (1000 * 10 ^ 6))
       Samples.configured [Samples.positionIn Samples.usdtPoolId 100 200 150]
     = [Samples.positionIn Samples.usdtPoolId 100 200 150].
Proof. split; vm_compute; reflexivity. Qed.

(** Under the tightest rule an active position with shares 5% and 95% is
    left alone, a depleted one and one on its upper bound are flagged. *)
Example tightest_rule_samples :
  Read.filterInactivePositions (Samples.fetchAnswers (10 ^ 8) (1900 * 10 ^ 6))
    Samples.configured [Samples.positionIn Samples.stkPoolId 100 200 150] = []
  /\ Read.filterInactivePositions (Samples.fetchAnswers 0 (1900 * 10 ^ 6))
       Samples.configured [Samples.positionIn Samples.stkPoolId 100 200 150]
     = [Samples.positionIn Samples.stkPoolId 100 200 150]
  /\ Read.filterInactivePositions (Samples.fetchAnswers (10 ^ 8) (1900 * 10 ^ 6))
       Samples.configured [Samples.positionIn Samples.stkPoolId 100 200 200]
     = [Samples.positionIn Samples.stkPoolId 100 200 200].
Proof. repeat split; vm_compute; reflexivity. Qed.





(** ** The orchestrator *)

Section OrchestratorProperties.
Import Ratio.
Import RebalanceExecution.

Variable c : Collaborators.
Variable inactivePosition : InactivePosition.
Variable poolConfig : Pools.PoolConfig.

Lemma bindS_ok {A B} (m : Step A) (k : A -> Step B) d d' a :
  m d = (d', Ok a) -> bindS m k d = k a d'.
Proof. intros H. unfold bindS. now rewrite H. Qed.

Lemma bindS_throw {A B} (m : Step A) (k : A -> Step B) d d' e :
  m d = (d', Throw e) -> bindS m k d = (d', Throw e).
Proof. intros H. unfold bindS. now rewrite H. Qed.

Lemma removeStep_succeeds address removePayload removeHash d :
  isPositionCreation inactivePosition = false ->
  getRemoveLiquidityPayload c address (objectId inactivePosition) 1 = Ok removePayload ->
  executeTransaction c removePayload "remove liquidity" = Ok removeHash ->
  removeStep c inactivePosition address d
  = (pushHashes [removeHash] (setPositionRemoved d), Ok tt).
Proof.
  intros Hnew Hp Ht. unfold removeStep, bindS, lift, modify.
  now rewrite Hnew, Hp, Ht.
Qed.

Lemma swapStep_fails address ratioResult plan e d :
  generateRatioResponse c AfterRemoval = Some ratioResult ->
  swapRequested ratioResult = Some plan ->
  swapFails c address plan e ->
  swapStep c address d = (d, Throw e).
Proof.
  intros Hr Hs Hf. unfold swapStep. rewrite Hr, Hs.
  unfold bindS, lift, modify.
  destruct Hf as [Hf | (swapPayload & Hp & Hf)].
  - now rewrite Hf.
  - now rewrite Hp, Hf.
Qed.

(** C2. When the removal succeeds and the swap step then fails, the
    orchestrator returns a result (it is a total function: nothing
    escapes) with [success = false], the removal's hash as the only
    entry of [transactionHashes], the removal recorded as done, and the
    error string of the failure. *)
Theorem partial_failure_keeps_progress
    address removePayload removeHash ratioResult plan e :
  isPositionCreation inactivePosition = false ->
  getAccount c = Ok address ->
  getRemoveLiquidityPayload c address (objectId inactivePosition) 1 = Ok removePayload ->
  executeTransaction c removePayload "remove liquidity" = Ok removeHash ->
  generateRatioResponse c AfterRemoval = Some ratioResult ->
  swapRequested ratioResult = Some plan ->
  swapFails c address plan e ->
  let result := executeRebalancing c inactivePosition poolConfig in
  success result = false
  /\ transactionHashes (details result) = [removeHash]
  /\ length (transactionHashes (details result)) = 1%nat
  /\ error (details result) = Some (String_of_error e)
  /\ positionRemoved (details result) = true
  /\ swapExecuted (details result) = false
  /\ swapDetails (details result) = []
  /\ newPositionCreated (details result) = false.
Proof.
  intros Hnew Ha Hp Ht Hr Hs Hf. cbv zeta.
  unfold executeRebalancing, tryBody.
  rewrite (bindS_ok _ _ initialDetails initialDetails address)
    by (unfold lift; now rewrite Ha).
  rewrite (bindS_ok _ _ _ _ tt
             (removeStep_succeeds address removePayload removeHash _ Hnew Hp Ht)).
  rewrite (bindS_throw _ _ _ _ e (swapStep_fails address ratioResult plan e _ Hr Hs Hf)).
  cbn. repeat split; reflexivity.
Qed.

(** Whatever happens after it, a completed removal stays in the result. *)
Lemma removal_is_never_discarded address removePayload removeHash :
  isPositionCreation inactivePosition = false ->
  getAccount c = Ok address ->
  getRemoveLiquidityPayload c address (objectId inactivePosition) 1 = Ok removePayload ->
  executeTransaction c removePayload "remove liquidity" = Ok removeHash ->
  let result := executeRebalancing c inactivePosition poolConfig in
  hd_error (transactionHashes (details result)) = Some removeHash
  /\ positionRemoved (details result) = true.
Proof.
  intros Hnew Ha Hp Ht. cbv zeta.
  unfold executeRebalancing, tryBody.
  rewrite (bindS_ok _ _ initialDetails initialDetails address)
    by (unfold lift; now rewrite Ha).
  rewrite (bindS_ok _ _ _ _ tt
             (removeStep_succeeds address removePayload removeHash _ Hnew Hp Ht)).
  set (d0 := pushHashes [removeHash] (setPositionRemoved initialDetails)).
  assert (Hd0 : hd_error (transactionHashes d0) = Some removeHash
                /\ positionRemoved d0 = true) by (split; reflexivity).
  clearbody d0.
  assert (Hswap : forall d, (hd_error (transactionHashes d) = Some removeHash
                             /\ positionRemoved d = true) ->
                  let '(d', _) := swapStep c address d in
                  hd_error (transactionHashes d') = Some removeHash
                  /\ positionRemoved d' = true).
  { intros d [Hh Hrm]. unfold swapStep, bindS, lift, modify, throw, ret.
    destruct (generateRatioResponse c AfterRemoval) as [r|]; [|now split].
    destruct (swapRequested r) as [pl|]; [|now split].
    destruct (getSwapPayload c _) as [sp|]; [|now split].
    destruct (executeTransaction c sp _) as [h|]; [|now split].
    cbn. split; [|exact Hrm].
    destruct (transactionHashes d); [discriminate|exact Hh]. }
  assert (Hcreate : forall d, (hd_error (transactionHashes d) = Some removeHash
                               /\ positionRemoved d = true) ->
                    let '(d', _) := createStep c inactivePosition poolConfig d in
                    hd_error (transactionHashes d') = Some removeHash
                    /\ positionRemoved d' = true).
  { intros d [Hh Hrm]. unfold createStep, safetyCheck, bindS, lift, modify, throw, ret.
    destruct (generateRatioResponse c BeforeCreation) as [r|]; [|now split].
    destruct (isAPTstkAPTPool _ _);
      [destruct (negb _ && negb _); [now split|]|];
      (destruct (bindR _ _) as [h|msg];
       [cbn; split; [|exact Hrm];
        destruct (transactionHashes d); [discriminate|exact Hh]
       |destruct (includes msg _); now split]). }
  assert (Htop : forall d, (hd_error (transactionHashes d) = Some removeHash
                            /\ positionRemoved d = true) ->
                 let '(d', _) := topUpStep c poolConfig d in
                 hd_error (transactionHashes d') = Some removeHash
                 /\ positionRemoved d' = true).
  { intros d [Hh Hrm]. unfold topUpStep, bindS, lift, modify, throw, ret.
    destruct (generateRatioResponse c AfterCreation) as [r|]; [|now split].
    destruct (_ || _); [|now split].
    destruct (getAllPositions c) as [ps|]; [|now split].
    destruct (newest _) as [np|]; [|now split].
    destruct (al_success _); [|now split].
    assert (hd_error (transactionHashes d ++ al_transactionHashes
                        (executeAddLiquidity c (Read.objectId np)))
            = Some removeHash)
      by (destruct (transactionHashes d); [discriminate|exact Hh]).
    destruct (al_swapExecuted _); [destruct (al_swapDetails _)|]; cbn; now split. }
  unfold bindS.
  specialize (Hswap d0 Hd0). destruct (swapStep c address d0) as [d1 [u1|e1]];
    [|exact Hswap].
  specialize (Hcreate d1 Hswap).
  destruct (createStep c inactivePosition poolConfig d1) as [d2 [u2|e2]];
    [|exact Hcreate].
  specialize (Htop d2 Hcreate).
  destruct (topUpStep c poolConfig d2) as [d3 [u3|e3]]; exact Htop.
Qed.

End OrchestratorProperties.

(** ** The allocation search of [getCreatePoolPayload] *)

Section AllocationProperties.
Import Ratio.
Import CreatePool.

Variable est : Estimator.
Variable ratioData : RatioData.

Lemma width_nonneg (k : nat) : (0 <= width k)%Q.
Proof.
  induction k as [|k IH]; cbn [width].
  - vm_compute. discriminate.
  - unfold Qdiv. change (/ 2)%Q with (1 # 2)%Q. lra.
Qed.

(** Every candidate is rounded down to a multiple of 1000 raw units on
    both sides. *)
Lemma evaluate_rounds call percentage cand :
  evaluate est ratioData call percentage = Ok cand ->
  let token1AmountRaw :=
    Math_floor (availableToken1 ratioData * (percentage / 100)
                * pow10 (token1Decimals ratioData)) in
  (1000 | roundedToken1AmountRaw cand)
  /\ roundedToken1AmountRaw cand <= token1AmountRaw < roundedToken1AmountRaw cand + 1000
  /\ (1000 | roundedToken2AmountRaw cand)
  /\ (exists requiredToken2Raw,
        est call {| currencyA := token1Address ratioData;
                    currencyB := token2Address ratioData;
                    currencyAAmount := roundedToken1AmountRaw cand;
                    est_feeTierIndex := feeTierIndex ratioData;
                    est_tickLower := tickLower ratioData;
                    est_tickUpper := tickUpper ratioData;
                    currentPriceTick := currentTick ratioData |}
        = Ok requiredToken2Raw
        /\ roundedToken2AmountRaw cand <= requiredToken2Raw
           < roundedToken2AmountRaw cand + 1000)
  /\ (roundedRequiredToken2 cand
      == inject_Z (roundedToken2AmountRaw cand) / pow10 (token2Decimals ratioData))%Q.
Proof.
  unfold evaluate. cbv zeta.
  destruct (est call _) as [raw|] eqn:E; cbn [bindR]; [|discriminate].
  intros [= <-]. cbn.
  split; [apply floor_to_thousand|]. split; [apply floor_to_thousand|].
  split; [apply floor_to_thousand|]. split; [|reflexivity].
  exists raw. split; [exact E|apply floor_to_thousand].
Qed.

Lemma iterate_inv k s :
  SearchInv ratioData k s -> SearchInv ratioData (S k) (iterate est ratioData s).
Proof.
  intros (Hi & Hw & Hlo & Hhi & Hbest).
  pose proof (width_nonneg k) as Hk.
  assert (Hhalf : forall a b : Q, ((a + b) / 2 == (a + b) * (1 # 2))%Q)
    by (intros; unfold Qdiv; reflexivity).
  unfold iterate. cbv zeta. cbn [nextIteration minPercentage maxPercentage iteration].
  destruct (evaluate est ratioData (S (iteration s)) _) as [cand|] eqn:E.
  - destruct (num_le (roundedRequiredToken2 cand) (token2Balance ratioData)) eqn:F.
    + unfold SearchInv; cbn. rewrite !Hhalf.
      split; [now rewrite Hi|]. split; [unfold Qdiv; change (/ 2)%Q with (1 # 2)%Q; lra|].
      split; [lra|]. split; [lra|]. intros _.
      apply evaluate_rounds in E. cbv zeta in E.
      destruct E as (D1 & _ & D2 & _ & Heq).
      split; [now apply num_le_iff|]. split; [exact D1|]. split; [exact D2|exact Heq].
    + unfold SearchInv; cbn. rewrite !Hhalf.
      split; [now rewrite Hi|]. split; [unfold Qdiv; change (/ 2)%Q with (1 # 2)%Q; lra|].
      split; [lra|]. split; [lra|]. exact Hbest.
  - unfold SearchInv; cbn. rewrite !Hhalf.
    split; [now rewrite Hi|]. split; [unfold Qdiv; change (/ 2)%Q with (1 # 2)%Q; lra|].
    split; [lra|]. split; [lra|]. exact Hbest.
Qed.

Lemma continues_inv k s :
  SearchInv ratioData k s ->
  continues s = (k <? maxIterations)%nat && num_gt (width k) tolerance.
Proof.
  intros (Hi & Hw & _). unfold continues, num_gt, num_lt. rewrite Hi.
  f_equal. f_equal. apply Qleb_comp; [exact Hw|reflexivity].
Qed.

Lemma initialSearch_inv : SearchInv ratioData 0 initialSearch.
Proof.
  unfold SearchInv, initialSearch; cbn.
  split; [reflexivity|]. split; [reflexivity|].
  split; [apply Qle_refl|]. split; [apply Qle_refl|]. discriminate.
Qed.

(** From [[50, 99.9]] the interval is within the tolerance after nine
    halvings, whatever the oracle answers. *)
Lemma binarySearch_inv fuel k s :
  SearchInv ratioData k s -> (k <= 9)%nat -> (9 - k <= fuel)%nat ->
  SearchInv ratioData 9 (binarySearch est ratioData fuel s).
Proof.
  revert k s. induction fuel as [|fuel IH]; intros k s Hinv Hk Hfuel.
  - assert (k = 9%nat) by lia. subst k. exact Hinv.
  - cbn [binarySearch]. rewrite (continues_inv k s Hinv).
    destruct (Nat.eq_dec k 9%nat) as [->|Hne].
    + replace (num_gt (width 9) tolerance) with false by (vm_compute; reflexivity).
      rewrite andb_false_r. exact Hinv.
    + replace ((k <? maxIterations)%nat && num_gt (width k) tolerance) with true.
      * apply (IH (S k)); [now apply iterate_inv|lia|lia].
      * do 9 (destruct k as [|k]; [vm_compute; reflexivity|]). lia.
Qed.

(** The fuel of [binarySearch] never cuts the loop short: when the
    unfolding ends, the [while] condition is false. *)
Lemma binarySearch_stops fuel s :
  (maxIterations - iteration s <= fuel)%nat ->
  continues (binarySearch est ratioData fuel s) = false.
Proof.
  revert s. induction fuel as [|fuel IH]; intros s Hfuel; cbn [binarySearch].
  - unfold continues. replace (iteration s <? maxIterations)%nat with false; [reflexivity|].
    symmetry. apply Nat.ltb_ge. lia.
  - destruct (continues s) eqn:E; [|exact E].
    apply IH. unfold iterate. cbv zeta. unfold maxIterations in *.
    destruct (evaluate _ _ _ _) as [cand|];
      [destruct (num_le _ _)|]; cbn [iteration searchHigher searchLower record nextIteration];
      lia.
Qed.

Lemma fallback_inv s :
  SearchInv ratioData 9 s ->
  found (fallback est ratioData s) = true ->
  (bestToken2Amount (fallback est ratioData s) <= token2Balance ratioData)%Q
  /\ (1000 | bestToken1AmountRaw (fallback est ratioData s))
  /\ (1000 | bestToken2AmountRaw (fallback est ratioData s))
  /\ (bestToken2Amount (fallback est ratioData s)
      == inject_Z (bestToken2AmountRaw (fallback est ratioData s))
         / pow10 (token2Decimals ratioData))%Q.
Proof.
  intros (_ & _ & _ & _ & Hbest). unfold fallback.
  destruct (found s) eqn:Hf; [intros _; now apply Hbest|].
  destruct (evaluate est ratioData _ _) as [cand|] eqn:E; [|congruence].
  destruct (num_le (roundedRequiredToken2 cand) (token2Balance ratioData)) eqn:F;
    [|congruence].
  intros _. cbn. apply evaluate_rounds in E. cbv zeta in E.
  destruct E as (D1 & _ & D2 & _ & Heq).
  split; [now apply num_le_iff|]. split; [exact D1|]. split; [exact D2|exact Heq].
Qed.


End AllocationProperties.

(** ** The transaction executor's cooldown *)

Section ExecutorProperties.
Import ExecuteTransaction.

Variable JSON_stringify : list Argument -> string.

Lemma buildTimes_app (l1 l2 : list Event) :
  buildTimes (l1 ++ l2) = buildTimes l1 ++ buildTimes l2.
Proof. unfold buildTimes. apply flat_map_app. Qed.

(** Every call builds exactly one transaction. *)
Lemma executeTransaction_builds_once net sender p rt rt' events r :
  executeTransaction JSON_stringify net sender p rt = (rt', events, r) ->
  buildTimes events = [buildTime JSON_stringify net sender p rt].
Proof.
  unfold executeTransaction, attempt, buildTime. cbv zeta.
  cbn [clock cleanupOldTransactions].
  match goal with |- context [submittedRecently ?l _] => set (last := l) end.
  destruct (submittedRecently last (clock rt));
    destruct (build net); destruct (simulationError (simulate net));
    destruct (signAndSubmitTransaction net); destruct (waitForTransaction net);
    repeat match goal with
           | |- context [if includes ?e ?s then _ else _] => destruct (includes e s)
           end;
    intros [= <- <- <-]; rewrite ?buildTimes_app; reflexivity.
Qed.

Lemma cleanup_keeps_fresh rt sig last :
  recentTransactions rt !! sig = Some last ->
  clock rt - last <= TRANSACTION_COOLDOWN ->
  recentTransactions (cleanupOldTransactions rt) !! sig = Some last.
Proof.
  intros Hl Hfresh. unfold cleanupOldTransactions. cbn [recentTransactions].
  apply map_lookup_filter_Some_2; [exact Hl|]. cbn. lia.
Qed.

(** A call that gets past the simulation leaves its signature in the
    table, stamped with the time at which the call started. *)
Lemma executeTransaction_marks net sender p rt rt' events r :
  reachesSubmission net ->
  executeTransaction JSON_stringify net sender p rt = (rt', events, r) ->
  recentTransactions rt' !! txSignature JSON_stringify sender p = Some (clock rt).
Proof.
  intros [[u Hb] Hs]. unfold executeTransaction, attempt. cbv zeta.
  rewrite Hb, Hs. cbn [simulationError clock cleanupOldTransactions].
  match goal with |- context [submittedRecently ?l _] => set (last := l) end.
  destruct (submittedRecently last (clock rt));
    destruct (signAndSubmitTransaction net); destruct (waitForTransaction net);
    repeat match goal with
           | |- context [if includes ?e ?s then _ else _] => destruct (includes e s)
           end;
    intros [= <- <- <-]; cbn; apply lookup_insert_eq.
Qed.

(** A call that fails before that leaves the table without the entry
    it did not find. *)
Lemma executeTransaction_failed_simulation_leaves_no_mark
    net sender p rt rt' events r vm_status :
  recentTransactions rt !! txSignature JSON_stringify sender p = None ->
  (exists u, build net = Ok u) ->
  simulate net = SimFailure vm_status ->
  executeTransaction JSON_stringify net sender p rt = (rt', events, r) ->
  recentTransactions rt' !! txSignature JSON_stringify sender p = None
  /\ exists e, r = Throw e.
Proof.
  intros Hnone [u Hb] Hs. unfold executeTransaction, attempt. cbv zeta.
  rewrite Hb, Hs. cbn [simulationError clock cleanupOldTransactions].
  match goal with
  | |- context [submittedRecently ?l _] =>
      assert (Hlast : l = None)
        by (apply map_lookup_filter_None_2; now left);
      rewrite !Hlast
  end.
  cbn [submittedRecently].
  match goal with
  | |- context [if includes ?e ?s then _ else _] => destruct (includes e s)
  end; intros [= <- <- <-]; cbn;
    (split; [apply map_lookup_filter_None_2; now left|eexists; reflexivity]).
Qed.


End ExecutorProperties.


Lemma partial_failure_keeps_progress_witness :
  let result :=
    RebalanceExecution.executeRebalancing Samples.refusedSwap Samples.stalePosition
      Samples.usdtConfig in
  RebalanceExecution.isPositionCreation Samples.stalePosition = false
  /\ RebalanceExecution.swapFails Samples.refusedSwap "0xme"
       {| Ratio.swapAmount := 2; Ratio.swapAmountRaw := 200000000;
          Ratio.swapFromToken := "0xa"; Ratio.swapToToken := "0xusdt";
          Ratio.swapFromSymbol := "APT"; Ratio.swapToSymbol := "USDT" |}
       "Transaction simulation failed: EINSUFFICIENT_BALANCE"
  /\ RebalanceExecution.success result = false
  /\ RebalanceExecution.transactionHashes (RebalanceExecution.details result)
     = ["0xremoved"%string]
  /\ RebalanceExecution.error (RebalanceExecution.details result)
     = Some "Error: Transaction simulation failed: EINSUFFICIENT_BALANCE"%string.
Proof.
  cbv zeta.
  assert (Hfails : RebalanceExecution.swapFails Samples.refusedSwap "0xme"
            {| Ratio.swapAmount := 2; Ratio.swapAmountRaw := 200000000;
               Ratio.swapFromToken := "0xa"; Ratio.swapToToken := "0xusdt";
               Ratio.swapFromSymbol := "APT"; Ratio.swapToSymbol := "USDT" |}
            "Transaction simulation failed: EINSUFFICIENT_BALANCE").
  { right. exists Samples.swapPayload. split; reflexivity. }
  split; [reflexivity|]. split; [exact Hfails|].
  pose proof (partial_failure_keeps_progress Samples.refusedSwap Samples.stalePosition
                Samples.usdtConfig "0xme" Samples.removeLiquidityPayload "0xremoved"
                Samples.ratioWithSwap _ _
                eq_refl eq_refl eq_refl eq_refl eq_refl eq_refl Hfails)
    as (Hs & Hh & _ & He & _).
  split; [exact Hs|]. split; [exact Hh|exact He].
Defined.

(** ** Validation after the allocation search *)

Section ValidationProperties.
Import Ratio.
Import CreatePool.


Lemma getCreatePoolPayload_validated est ratioData apiKey params :
  getCreatePoolPayload est ratioData apiKey = Ok params ->
  p_currencyAAmount params = bestToken1AmountRaw (allocationSearch est ratioData)
  /\ p_currencyBAmount params = bestToken2AmountRaw (allocationSearch est ratioData)
  /\ p_currencyAAmount params
     <= Math_floor (availableToken1 ratioData * pow10 (token1Decimals ratioData))
  /\ p_currencyBAmount params
     <= Math_floor (token2Balance ratioData * pow10 (token2Decimals ratioData)).
Proof.
  unfold getCreatePoolPayload. cbv zeta.
  repeat match goal with
         | |- context [if ?b then Throw _ else _] =>
             destruct b eqn:?; [discriminate|]
         end.
  intros [= <-]. cbn.
  repeat match goal with
         | H : (_ >? _) = false |- _ => rewrite Z.gtb_ltb, Z.ltb_ge in H
         end.
  repeat split; assumption.
Qed.

Lemma getCreatePoolPayload_rejects est ratioData apiKey :
  bestToken1AmountRaw (allocationSearch est ratioData)
  > Math_floor (availableToken1 ratioData * pow10 (token1Decimals ratioData))
  \/ bestToken2AmountRaw (allocationSearch est ratioData)
     > Math_floor (token2Balance ratioData * pow10 (token2Decimals ratioData)) ->
  exists e, getCreatePoolPayload est ratioData apiKey = Throw e.
Proof.
  intros Hover.
  destruct (getCreatePoolPayload est ratioData apiKey) as [params|e] eqn:E;
    [|now exists e].
  apply getCreatePoolPayload_validated in E. destruct E as (E1 & E2 & H1 & H2). lia.
Qed.

Lemma addLiquidityAllocation_minimums
    est updatedRatioData lower upper fee liquidityPercentage positionId params :
  AddLiquidity.addLiquidityAllocation est updatedRatioData lower upper fee
    liquidityPercentage positionId = Ok params ->
  AddLiquidity.a_currencyAAmount params
  = bestToken1AmountRaw
      (AddLiquidity.allocationSearch est updatedRatioData lower upper fee
         liquidityPercentage)
  /\ AddLiquidity.a_currencyBAmount params
     = bestToken2AmountRaw
         (AddLiquidity.allocationSearch est updatedRatioData lower upper fee
            liquidityPercentage)
  /\ AddLiquidity.finalMinToken1Raw <= AddLiquidity.a_currencyAAmount params
  /\ AddLiquidity.finalMinToken2Raw <= AddLiquidity.a_currencyBAmount params.
Proof.
  unfold AddLiquidity.addLiquidityAllocation. cbv zeta.
  repeat match goal with
         | |- context [if ?b then Throw _ else _] =>
             destruct b eqn:?; [discriminate|]
         end.
  intros [= <-]. cbn.
  repeat match goal with
         | H : (_ <? _) = false |- _ => rewrite Z.ltb_ge in H
         end.
  repeat split; assumption.
Qed.


End ValidationProperties.

(** ** The batch controller *)

Section FlowProperties.
Import Pools.
Import RebalancingFlow.

Variable c : Collaborators.
Variable defaultPoolsToManage : list PoolConfig.

Lemma creations_app (l1 l2 : list Operation) :
  creations (l1 ++ l2) = creations l1 ++ creations l2.
Proof. unfold creations. apply flat_map_app. Qed.

Lemma rebalancings_app (l1 l2 : list Operation) :
  rebalancings (l1 ++ l2) = rebalancings l1 ++ rebalancings l2.
Proof. unfold rebalancings. apply flat_map_app. Qed.

Lemma creations_map_Creation (l : list PoolConfig) :
  creations (map Creation l) = l.
Proof. induction l as [|p l IH]; cbn; [reflexivity|f_equal; exact IH]. Qed.

Lemma creations_map_Rebalancing (l : list RebalanceExecution.InactivePosition) :
  creations (map Rebalancing l) = [].
Proof. induction l as [|p l IH]; cbn; [reflexivity|exact IH]. Qed.

Lemma rebalancings_map_Rebalancing (l : list RebalanceExecution.InactivePosition) :
  rebalancings (map Rebalancing l) = l.
Proof. induction l as [|p l IH]; cbn; [reflexivity|f_equal; exact IH]. Qed.

(** Forced mode starts one orchestrator run per position, in order. *)
Lemma processForced_started targetPool positions r :
  started (processForced c targetPool positions r)
  = started r ++ map Rebalancing positions.
Proof.
  unfold processForced. revert r.
  induction positions as [|pos rest IH]; intros r; cbn [fold_left map].
  - now rewrite app_nil_r.
  - rewrite IH.
    destruct (executeRebalancing c pos targetPool true); cbn [started update start];
      now rewrite <- app_assoc.
Qed.

(** The loop over the missing pools starts a creation for the first
    [maxPoolsPerExecution] of them and for no other. *)
Lemma processMissing_started address missing r :
  started (processMissing c address missing r)
  = started r ++ map Creation (slice0 maxPoolsPerExecution missing).
Proof.
  unfold processMissing.
  generalize (slice0 maxPoolsPerExecution missing) as pools. intros pools. revert r.
  induction pools as [|pool rest IH]; intros r; cbn [fold_left map].
  - now rewrite app_nil_r.
  - rewrite IH.
    destruct (createMissing c address pool _) as [d [u|e]]; cbn [started update start];
      now rewrite <- app_assoc.
Qed.

(** The loop of automatic mode over the flagged positions starts no
    creation. *)
Lemma processInactive_creations pools positions r :
  creations (started (processInactive c pools positions r)) = creations (started r).
Proof.
  unfold processInactive. revert r.
  induction positions as [|pos rest IH]; intros r; cbn [fold_left].
  - reflexivity.
  - rewrite IH.
    destruct (findPool pools _) as [cfg|]; [|reflexivity].
    destruct (executeRebalancing c pos cfg false); cbn [started update start];
      rewrite creations_app; cbn; now rewrite app_nil_r.
Qed.

Lemma automatic_creations address out :
  automaticMode c defaultPoolsToManage address = Ok out ->
  creations (snd out) = []
  \/ exists positions,
       getAllPositions c = Ok positions
       /\ creations (snd out)
          = slice0 maxPoolsPerExecution (missingPositionPools defaultPoolsToManage positions).
Proof.
  unfold automaticMode. cbv zeta.
  destruct (negb (c_success _)); [intros [= <-]; now left|].
  destruct (inactivePositions _) as [|pos rest] eqn:Hinactive; cbn [bindR].
  - destruct (getAllPositions c) as [positions|e]; cbn [bindR]; [|discriminate].
    destruct (missingPositionPools defaultPoolsToManage positions) as [|m ms] eqn:Hm.
    + intros [= <-]. now left.
    + intros [= <-]. right. exists positions. split; [reflexivity|].
      rewrite Hm. unfold conclude. cbn [snd fold_left processInactive started update].
      rewrite processMissing_started. cbn [started app].
      apply creations_map_Creation.
  - intros E. left.
    match type of E with
    | Ok ?x = Ok out => assert (Hout : out = x) by congruence
    end.
    rewrite Hout. unfold conclude. cbn [snd].
    rewrite processInactive_creations. reflexivity.
Qed.

Lemma specific_rebalancings address id override positions :
  let check :=
    checkRebalancingNeeded c [targetPoolFor defaultPoolsToManage id override]
      (Some id) true 0 in
  c_success check = true ->
  inactivePositions check = positions ->
  positions <> [] ->
  exists out,
    specificMode c defaultPoolsToManage address id override = Ok out
    /\ rebalancings (snd out) = positions.
Proof.
  cbv zeta. intros Hok Hpos Hne. unfold specificMode. cbv zeta.
  rewrite Hok, Hpos. cbn [negb].
  destruct positions as [|p ps]; [congruence|].
  eexists. split; [reflexivity|].
  unfold conclude. cbn [snd]. rewrite processForced_started. cbn [started app].
  apply rebalancings_map_Rebalancing.
Qed.

Lemma flow_automatic_creations (options : RebalancingOptions) :
  o_poolId options = None ->
  let ops := snd (executeRebalancingFlow c defaultPoolsToManage options) in
  creations ops = []
  \/ exists positions,
       getAllPositions c = Ok positions
       /\ creations ops
          = slice0 maxPoolsPerExecution (missingPositionPools defaultPoolsToManage positions).
Proof.
  intros Hauto. unfold executeRebalancingFlow. cbv zeta. rewrite Hauto.
  destruct (getAccount c) as [address|e]; [|left; reflexivity].
  destruct (automaticMode c defaultPoolsToManage address) as [out|e] eqn:E;
    [|left; reflexivity].
  exact (automatic_creations address out E).
Qed.

Lemma flow_specific_rebalancings (options : RebalancingOptions) address id positions :
  getAccount c = Ok address ->
  o_poolId options = Some id ->
  id <> ""%string ->
  let check :=
    checkRebalancingNeeded c
      [targetPoolFor defaultPoolsToManage id (o_rangePercent options)]
      (Some id) true 0 in
  c_success check = true ->
  inactivePositions check = positions ->
  positions <> [] ->
  rebalancings (snd (executeRebalancingFlow c defaultPoolsToManage options)) = positions.
Proof.
  cbv zeta. intros Ha Hid Hne Hok Hpos Hnonempty.
  unfold executeRebalancingFlow. cbv zeta. rewrite Ha, Hid.
  replace (String.eqb id "") with false
    by (symmetry; now apply String.eqb_neq).
  destruct (specific_rebalancings address id (o_rangePercent options) positions
              Hok Hpos Hnonempty) as (out & E & Hr).
  now rewrite E.
Qed.

(** C9, as the code has it. In an automatic cycle at most one position
    creation is started, for the first of the enabled pools without a
    position; the others wait for a later cycle. In specific-pool mode
    every position reported for the pool gets its orchestrator run, one
    rebalancing operation each, with no cap. *)
Theorem creations_are_rate_limited (options : RebalancingOptions) :
  let ops := snd (executeRebalancingFlow c defaultPoolsToManage options) in
  (o_poolId options = None ->
   (length (creations ops) <= 1)%nat
   /\ (forall positions,
         getAllPositions c = Ok positions ->
         incl (creations ops)
              (slice0 1 (missingPositionPools defaultPoolsToManage positions))))
  /\ (forall address id positions,
        getAccount c = Ok address ->
        o_poolId options = Some id ->
        id <> ""%string ->
        let check :=
          checkRebalancingNeeded c
            [targetPoolFor defaultPoolsToManage id (o_rangePercent options)]
            (Some id) true 0 in
        c_success check = true ->
        inactivePositions check = positions ->
        positions <> [] ->
        rebalancings ops = positions).
Proof.
  cbv zeta. split.
  - intros Hauto.
    destruct (flow_automatic_creations options Hauto) as [Hnone|(positions & Hp & Hc)].
    + rewrite Hnone. split; [cbn; lia|intros positions _ x []].
    + rewrite Hc. split.
      * unfold slice0, maxPoolsPerExecution.
        destruct (missingPositionPools defaultPoolsToManage positions) as [|m ms];
          simpl; lia.
      * intros positions' Hp'. assert (positions' = positions) by congruence.
        subst positions'. apply incl_refl.
  - intros address id positions. apply flow_specific_rebalancings.
Qed.

End FlowProperties.

Lemma creations_are_rate_limited_witness :
  let pools := [Samples.usdtConfig; Samples.stkConfig] in
  let ops :=
    snd (RebalancingFlow.executeRebalancingFlow Samples.idleOrchestrator pools
           Samples.automatic) in
  RebalancingFlow.o_poolId Samples.automatic = None
  /\ RebalancingFlow.missingPositionPools pools [] = pools
  /\ RebalancingFlow.creations ops = [Samples.usdtConfig]
  /\ (length (RebalancingFlow.creations ops) <= 1)%nat.
Proof.
  cbv zeta. split; [reflexivity|]. split; [reflexivity|].
  split; [vm_compute; reflexivity|].
  apply (creations_are_rate_limited Samples.idleOrchestrator
           [Samples.usdtConfig; Samples.stkConfig] Samples.automatic).
  reflexivity.
Defined.

(** C9, as stated, fails: nothing caps the rebalancing operations of a
    cycle. Three reported positions start three orchestrator runs, in
    specific-pool mode and in a scheduled automatic cycle alike (one more
    than the limit the scheduled trigger declares), and for every bound
    some cycle starts more. *)
Lemma rebalancing_operations_are_not_capped :
  let three := [Samples.stalePosition; Samples.stalePosition; Samples.stalePosition] in
  RebalancingFlow.rebalancings
    (snd (RebalancingFlow.executeRebalancingFlow (Samples.reporting three)
            Pools.DEFAULT_POOLS_TO_MANAGE (Samples.manual Samples.usdtPoolId)))
  = three
  /\ option_map (fun out => RebalancingFlow.rebalancings (snd out))
       (Worker.scheduled true (Samples.reporting three))
     = Some three
  /\ (Worker.maxRebalancingOperations Worker.operationLimit < length three)%nat
  /\ (forall cap : nat,
        exists c options,
          (cap < length (RebalancingFlow.rebalancings
                           (snd (RebalancingFlow.executeRebalancingFlow c
                                   Pools.DEFAULT_POOLS_TO_MANAGE options))))%nat).
Proof.
  cbv zeta. split; [vm_compute; reflexivity|]. split; [vm_compute; reflexivity|].
  split; [cbn; lia|].
  intros cap.
  exists (Samples.reporting (repeat Samples.stalePosition (S cap))).
  exists (Samples.manual Samples.usdtPoolId).
  rewrite (flow_specific_rebalancings
             (Samples.reporting (repeat Samples.stalePosition (S cap)))
             Pools.DEFAULT_POOLS_TO_MANAGE (Samples.manual Samples.usdtPoolId)
             "0xme"%string Samples.usdtPoolId
             (repeat Samples.stalePosition (S cap))
             eq_refl eq_refl ltac:(discriminate) eq_refl eq_refl ltac:(discriminate)).
  rewrite repeat_length. lia.
Qed.



(** ** More on the ratio calculator: the swap recommendation *)

Section SwapProperties.
Import Pools.
Import Ratio.
Import RatioFacts.

(** What the two branches of [swapFor] produce. *)
Lemma swapFor_cases p available1 balance2 deficit1 deficit2 plan :
  swapFor p available1 balance2 deficit1 deficit2 = Some plan ->
  ((0 < deficit1)%Q /\ (Math_abs deficit2 < balance2)%Q
   /\ plan = {| swapAmount := Math_abs deficit2;
                swapAmountRaw := Math_floor (Math_abs deficit2 * pow10 (token2Decimals p));
                swapFromToken := token2 p; swapToToken := token1 p;
                swapFromSymbol := token2Symbol p; swapToSymbol := token1Symbol p |})
  \/ ((0 < deficit2)%Q /\ (Math_abs deficit1 < available1)%Q
      /\ plan = {| swapAmount := Math_abs deficit1;
                   swapAmountRaw := Math_floor (Math_abs deficit1 * pow10 (token1Decimals p));
                   swapFromToken := token1 p; swapToToken := token2 p;
                   swapFromSymbol := token1Symbol p; swapToSymbol := token2Symbol p |}).
Proof.
  unfold swapFor. cbv zeta.
  destruct (_ || _); [|discriminate].
  destruct (num_gt deficit1 0 && num_gt balance2 (Math_abs deficit2)) eqn:E1.
  - apply andb_true_iff in E1. destruct E1 as [H1 H2].
    apply num_gt_iff in H1. apply num_gt_iff in H2.
    intros [= <-]. left. repeat split; assumption.
  - destruct (num_gt deficit2 0 && num_gt available1 (Math_abs deficit1)) eqn:E2;
      [|discriminate].
    apply andb_true_iff in E2. destruct E2 as [H1 H2].
    apply num_gt_iff in H1. apply num_gt_iff in H2.
    intros [= <-]. right. repeat split; assumption.
Qed.

Lemma swapDecision_cases p available1 balance2 optimal1 optimal2 plan :
  swapDecision p available1 balance2 optimal1 optimal2 = Some plan ->
  swapFor p available1 balance2 (optimal1 - available1) (optimal2 - balance2) = Some plan.
Proof.
  unfold swapDecision. cbv zeta.
  destruct (_ || _); [|discriminate].
  destruct (isAPTstkAPTPool _ _); [|tauto].
  destruct (negb _ && negb _); [discriminate|tauto].
Qed.

(** The fields of the data [calculateOptimalRatioData] returns. *)
Lemma calculateOptimalRatioData_fields priceToTick est id rangePercent p b1 b2 r :
  calculateOptimalRatioData priceToTick est id rangePercent (Some p) b1 b2 = Some r ->
  token2Balance r = b2
  /\ token1Balance r = b1
  /\ availableToken1 r
     = (if String.eqb (token1Symbol p) "APT" then Math_max 0 (b1 - 1) else b1)
  /\ marketPrice r
     = priceOfPool p
  /\ swap r
     = swapDecision p (availableToken1 r) b2
         (optimalToken1Amount (availableToken1 r) (marketPrice r) (liquidityRatio r) b2)
         (optimalToken2Amount (availableToken1 r) (marketPrice r) (liquidityRatio r) b2).
Proof.
  unfold calculateOptimalRatioData, priceOfPool. cbv zeta.
  destruct (tickRange _ _ _ _ _ _ _) as [lo hi].
  destruct (est _ _); [|discriminate].
  intros [= <-]. cbn. repeat split; reflexivity.
Qed.

Ltac plan_fields :=
  cbn [swapAmount swapAmountRaw swapFromToken swapToToken swapFromSymbol swapToSymbol].

Lemma Math_abs_nonneg (x : number) : (0 <= Math_abs x)%Q.
Proof. apply Qabs_nonneg. Qed.



(** The two deficits the calculator derives cancel at the market price. *)
Lemma deficits_cancel (available1 marketPrice liquidityRatio balance2 : number) :
  ~ (marketPrice + liquidityRatio == 0)%Q ->
  ((optimalToken1Amount available1 marketPrice liquidityRatio balance2 - available1)
     * marketPrice
   + (optimalToken2Amount available1 marketPrice liquidityRatio balance2 - balance2)
   == 0)%Q.
Proof.
  intros Hnz.
  unfold optimalToken2Amount, optimalToken1Amount, totalValueInToken2.
  field. exact Hnz.
Qed.



Lemma Math_max_zero_cases (x : number) :
  ((x <= 0)%Q /\ Math_max 0 x = 0%Q) \/ ((0 <= x)%Q /\ Math_max 0 x = x).
Proof.
  unfold Math_max. destruct (Qle_bool 0 x) eqn:E.
  - right. split; [apply Qle_bool_iff; exact E|reflexivity].
  - left. split; [|reflexivity].
    apply Qlt_le_weak, Qnot_le_lt. intros H. apply Qle_bool_iff in H. congruence.
Qed.

(** X3. The gas reserve.  When token1 of the pool is APT, the calculator
    keeps one APT out of the amount it plans with: the available amount
    is never negative, never above the balance less one when that is
    positive, and a recommended sale of token1 leaves more than one APT
    in the wallet.  For any other token1 the whole balance is
    available. *)
Theorem apt_swap_keeps_the_gas_reserve
    priceToTick est id rangePercent p b1 b2 r :
  calculateOptimalRatioData priceToTick est id rangePercent (Some p) b1 b2 = Some r ->
  (token1Symbol p = "APT" ->
     (0 <= availableToken1 r)%Q
     /\ ((1 <= b1)%Q -> (availableToken1 r == b1 - 1)%Q)
     /\ ((b1 <= 1)%Q -> (availableToken1 r == 0)%Q)
     /\ (forall plan,
           swap r = Some plan ->
           swapFromSymbol plan = "APT" -> token2Symbol p <> "APT" ->
           (1 < token1Balance r - swapAmount plan)%Q))
  /\ (token1Symbol p <> "APT" -> availableToken1 r = token1Balance r).
Proof.
  intros Hr.
  destruct (calculateOptimalRatioData_fields _ _ _ _ _ _ _ _ Hr)
    as (Eb2 & Eb1 & Eav & _ & Eswap).
  split.
  - intros Hapt. rewrite Hapt in Eav. cbn in Eav.
    destruct (Math_max_zero_cases (b1 - 1)) as [[Hle E]|[Hle E]];
      rewrite E in Eav.
    + split; [rewrite Eav; lra|]. split; [intros; rewrite Eav; lra|].
      split; [intros; rewrite Eav; lra|].
      intros plan Hplan Hfrom Hneq. exfalso.
      rewrite Eswap in Hplan. apply swapDecision_cases, swapFor_cases in Hplan.
      destruct Hplan as [(_ & _ & ->)|(_ & Hlt & ->)]; cbn [swapFromSymbol] in Hfrom.
      * congruence.
      * rewrite Eav in Hlt. pose proof (Math_abs_nonneg
          (optimalToken1Amount 0 (marketPrice r) (liquidityRatio r) b2 - 0)).
        lra.
    + split; [rewrite Eav; lra|]. split; [intros; rewrite Eav; lra|].
      split; [intros; rewrite Eav; lra|].
      intros plan Hplan Hfrom Hneq.
      rewrite Eswap in Hplan. apply swapDecision_cases, swapFor_cases in Hplan.
      destruct Hplan as [(_ & _ & ->)|(_ & Hlt & ->)]; cbn [swapFromSymbol] in Hfrom; plan_fields.
      * congruence.
      * rewrite Eb1. rewrite Eav in Hlt. rewrite Eav. lra.
  - intros Hneq. rewrite Eav, Eb1.
    destruct (String.eqb (token1Symbol p) "APT") eqn:E; [|reflexivity].
    apply String.eqb_eq in E. contradiction.
Qed.

Lemma apt_swap_keeps_the_gas_reserve_witness :
  exists r plan,
    calculateOptimalRatioData RatioSamples.identityTicks RatioSamples.hundredPerToken
      "0xpool" RangeNull (Some RatioSamples.aptUsdtPool) 5 0 = Some r
    /\ swap r = Some plan
    /\ (1 < token1Balance r - swapAmount plan)%Q.
Proof.
  destruct (calculateOptimalRatioData RatioSamples.identityTicks
              RatioSamples.hundredPerToken "0xpool" RangeNull
              (Some RatioSamples.aptUsdtPool) 5 0) as [r|] eqn:Hr;
    [|vm_compute in Hr; discriminate].
  destruct (swap r) as [plan|] eqn:Hplan;
    [|exfalso; vm_compute in Hr; injection Hr as <-; discriminate].
  exists r, plan. split; [reflexivity|]. split; [exact Hplan|].
  refine (proj2 (proj2 (proj2 (proj1
            (apt_swap_keeps_the_gas_reserve _ _ _ _ _ _ _ _ Hr) eq_refl)))
            plan Hplan _ _).
  - pose proof Hr as E. vm_compute in E. injection E as <-.
    cbn in Hplan. injection Hplan as <-. reflexivity.
  - discriminate.
Defined.

(** X4. No swap is recommended on empty or dust balances: not when
    neither the available token1 nor the token2 balance is positive, not
    on the APT/stkAPT pair when both are below 0.01, and not when both
    deficits are within 0.01. *)
Theorem no_swap_on_dust
    priceToTick est id rangePercent p b1 b2 r :
  calculateOptimalRatioData priceToTick est id rangePercent (Some p) b1 b2 = Some r ->
  let optimal1 :=
    optimalToken1Amount (availableToken1 r) (marketPrice r) (liquidityRatio r)
      (token2Balance r) in
  let optimal2 :=
    optimalToken2Amount (availableToken1 r) (marketPrice r) (liquidityRatio r)
      (token2Balance r) in
  ((availableToken1 r <= 0)%Q -> (token2Balance r <= 0)%Q -> swap r = None)
  /\ (isAPTstkAPTPool (token1Symbol p) (token2Symbol p) = true ->
      (availableToken1 r < 1 # 100)%Q -> (token2Balance r < 1 # 100)%Q ->
      swap r = None)
  /\ ((Math_abs (optimal1 - availableToken1 r) <= 1 # 100)%Q ->
      (Math_abs (optimal2 - token2Balance r) <= 1 # 100)%Q ->
      swap r = None).
Proof.
  intros Hr. cbv zeta.
  destruct (calculateOptimalRatioData_fields _ _ _ _ _ _ _ _ Hr)
    as (Eb2 & _ & _ & _ & Eswap).
  rewrite Eb2, Eswap. unfold swapDecision, swapFor. cbv zeta.
  split; [|split].
  - intros H1 H2.
    destruct (num_gt (availableToken1 r) 0) eqn:E1;
      [apply num_gt_iff in E1; lra|].
    destruct (num_gt b2 0) eqn:E2; [apply num_gt_iff in E2; lra|].
    reflexivity.
  - intros Hpair H1 H2. rewrite Hpair.
    destruct (_ || _); [|reflexivity].
    unfold num_ge.
    destruct (num_le (1 # 100) (availableToken1 r)) eqn:E1;
      [apply num_le_iff in E1; lra|].
    destruct (num_le (1 # 100) b2) eqn:E2; [apply num_le_iff in E2; lra|].
    reflexivity.
  - intros H1 H2.
    destruct (num_gt (Math_abs (_ - availableToken1 r)) _) eqn:E1;
      [apply num_gt_iff in E1; lra|].
    destruct (num_gt (Math_abs (_ - b2)) _) eqn:E2;
      [apply num_gt_iff in E2; lra|].
    cbn. destruct (_ || _); [|reflexivity].
    destruct (isAPTstkAPTPool _ _); [|reflexivity].
    destruct (_ && _); reflexivity.
Qed.

Lemma no_swap_on_dust_witness :
  exists r,
    calculateOptimalRatioData RatioSamples.identityTicks RatioSamples.hundredPerToken
      "0xpool" RangeNull (Some RatioSamples.aptUsdtPool) (1 # 2) 0 = Some r
    /\ swap r = None.
Proof.
  destruct (calculateOptimalRatioData RatioSamples.identityTicks
              RatioSamples.hundredPerToken "0xpool" RangeNull
              (Some RatioSamples.aptUsdtPool) (1 # 2) 0) as [r|] eqn:Hr;
    [|vm_compute in Hr; discriminate].
  exists r. split; [reflexivity|].
  apply (proj1 (no_swap_on_dust _ _ _ _ _ _ _ _ Hr)).
  - pose proof Hr as E. vm_compute in E. injection E as <-. cbn. discriminate.
  - pose proof Hr as E. vm_compute in E. injection E as <-. cbn. discriminate.
Defined.

End SwapProperties.

(** ** More on the allocation search of [getCreatePoolPayload] *)

Section SearchProperties.
Import Ratio.
Import CreatePool.
Import AllocationFacts.

Variable est : Estimator.
Variable ratioData : RatioData.

Lemma pow10_pos (d : Z) : (0 < pow10 d)%Q.
Proof. unfold pow10. apply Qpower_0_lt. reflexivity. Qed.

(** What a successful evaluation of a candidate is made of. *)
Lemma evaluate_candidate call percentage cand :
  evaluate est ratioData call percentage = Ok cand ->
  adjustedToken1Amount cand = (availableToken1 ratioData * (percentage / 100))%Q
  /\ roundedToken1AmountRaw cand = candidateToken1Raw ratioData percentage
  /\ exists raw,
       est call (query ratioData (roundedToken1AmountRaw cand)) = Ok raw
       /\ roundedToken2AmountRaw cand = Math_floor (inject_Z raw / 1000) * 1000.
Proof.
  unfold evaluate. cbv zeta.
  destruct (est call _) as [raw|] eqn:E; cbn [bindR]; [|discriminate].
  intros [= <-]. cbn. split; [reflexivity|]. split; [reflexivity|].
  exists raw. split; [exact E|reflexivity].
Qed.

Lemma initialSearch_recorded : Recorded est ratioData initialSearch.
Proof.
  unfold Recorded, initialSearch; cbn.
  split; [discriminate|]. split; [reflexivity|]. left. reflexivity.
Qed.

Lemma iterate_recorded s :
  Recorded est ratioData s -> Recorded est ratioData (iterate est ratioData s).
Proof.
  intros (Hfound & Hnone & Hmax).
  unfold iterate. cbv zeta. cbn [nextIteration minPercentage maxPercentage iteration].
  set (current := ((minPercentage s + maxPercentage s) / 2)%Q).
  destruct (evaluate est ratioData (S (iteration s)) current) as [cand|] eqn:E.
  - destruct (num_le (roundedRequiredToken2 cand) (token2Balance ratioData)) eqn:F.
    + apply num_le_iff in F.
      destruct (evaluate_candidate _ _ _ E) as (E1 & E2 & raw & E3 & E4).
      unfold Recorded; cbn. split; [intros _|split; [discriminate|exact Hmax]].
      split; [exact E1|]. split; [exact E2|].
      exists (S (iteration s)). split; [exists cand; split; assumption|].
      exists raw. split; assumption.
    + unfold Recorded; cbn. split; [exact Hfound|]. split; [exact Hnone|].
      right. exists (S (iteration s)). intros (cand' & E' & Hle).
      rewrite E in E'. injection E' as <-.
      apply num_le_iff in Hle. congruence.
  - unfold Recorded; cbn. split; [exact Hfound|]. split; [exact Hnone|].
    right. exists (S (iteration s)). intros (cand' & E' & _). congruence.
Qed.

Lemma binarySearch_recorded fuel s :
  Recorded est ratioData s -> Recorded est ratioData (binarySearch est ratioData fuel s).
Proof.
  revert s. induction fuel as [|fuel IH]; intros s Hs; cbn [binarySearch].
  - exact Hs.
  - destruct (continues s); [|exact Hs]. apply IH, iterate_recorded, Hs.
Qed.

(** Where the loop ends: after nine halvings of [[50, 99.9]]. *)
Lemma searched_interval :
  let searched := binarySearch est ratioData maxIterations initialSearch in
  (50 <= minPercentage searched)%Q
  /\ (maxPercentage searched <= 999 # 10)%Q
  /\ (0 <= maxPercentage searched - minPercentage searched)%Q
  /\ (maxPercentage searched - minPercentage searched < 1 # 10)%Q.
Proof.
  cbv zeta.
  destruct (binarySearch_inv est ratioData maxIterations 0 initialSearch
              (initialSearch_inv ratioData) ltac:(lia)
              ltac:(unfold maxIterations; lia)) as (_ & Hw & Hlo & Hhi & _).
  assert (Hw9 : (width 9 < 1 # 10)%Q) by (vm_compute; reflexivity).
  pose proof (width_nonneg 9). repeat split; lra.
Qed.

(** The allocation the search returns is the candidate at a percentage
    between 50 and 99.9, together with the oracle's answer for it. *)
Lemma allocationSearch_recorded :
  let final := allocationSearch est ratioData in
  found final = true ->
  exists percentage call,
    (50 <= percentage)%Q /\ (percentage <= 999 # 10)%Q
    /\ feasible est ratioData call percentage
    /\ bestToken1Amount final = (availableToken1 ratioData * (percentage / 100))%Q
    /\ bestToken1AmountRaw final = candidateToken1Raw ratioData percentage
    /\ exists raw,
         est call (query ratioData (bestToken1AmountRaw final)) = Ok raw
         /\ bestToken2AmountRaw final = Math_floor (inject_Z raw / 1000) * 1000.
Proof.
  cbv zeta. unfold allocationSearch.
  pose proof (binarySearch_recorded maxIterations initialSearch initialSearch_recorded)
    as (Hfound & _ & _).
  pose proof searched_interval as (Hlo & Hhi & Hw & _). cbv zeta in Hlo, Hhi, Hw.
  set (searched := binarySearch est ratioData maxIterations initialSearch) in *.
  unfold fallback. destruct (found searched) eqn:Hf.
  - intros _. destruct (Hfound eq_refl) as (E1 & E2 & call & Hfeas & Hraw).
    exists (minPercentage searched), call.
    split; [exact Hlo|]. split; [lra|]. repeat split; assumption.
  - destruct (evaluate est ratioData _ fallbackPercentage) as [cand|] eqn:E;
      [|congruence].
    destruct (num_le (roundedRequiredToken2 cand) (token2Balance ratioData)) eqn:F;
      [|congruence].
    intros _. apply num_le_iff in F.
    destruct (evaluate_candidate _ _ _ E) as (E1 & E2 & raw & E3 & E4).
    exists fallbackPercentage, (S (iteration searched)).
    split; [vm_compute; discriminate|]. split; [vm_compute; discriminate|].
    split; [exists cand; split; assumption|].
    cbn. split; [exact E1|]. split; [exact E2|].
    exists raw. split; assumption.
Qed.


Lemma candidateToken1Raw_monotone q q' :
  (0 <= availableToken1 ratioData)%Q -> (q <= q')%Q ->
  candidateToken1Raw ratioData q <= candidateToken1Raw ratioData q'.
Proof.
  intros Hav Hle. unfold candidateToken1Raw.
  change 1000%Q with (inject_Z 1000). rewrite !Math_floor_quotient.
  apply Z.mul_le_mono_nonneg_r; [lia|]. apply Z.div_le_mono; [lia|].
  apply Qfloor_resp_le.
  pose proof (pow10_pos (token1Decimals ratioData)) as Hpow.
  apply Qmult_le_compat_r; [|lra].
  unfold Qdiv. change (/ 100)%Q with (1 # 100)%Q. nra.
Qed.

Lemma feasible_any_call call call' percentage :
  (forall n n' args, est n args = est n' args) ->
  feasible est ratioData call percentage -> feasible est ratioData call' percentage.
Proof.
  intros Hdet (cand & E & Hle). exists cand. split; [|exact Hle].
  rewrite <- E. unfold evaluate. cbv zeta. now rewrite (Hdet call' call).
Qed.


End SearchProperties.

(** The sample oracle, which asks one raw unit of token2 per raw unit of
    token1, is monotone on the sample wallet. *)
Lemma linearEstimator_monotone q q' call :
  (q <= q')%Q ->
  AllocationFacts.feasible Samples.linearEstimator Samples.unbalancedWallet call q' ->
  AllocationFacts.feasible Samples.linearEstimator Samples.unbalancedWallet call q.
Proof.
  intros Hle (cand' & E' & H').
  destruct (CreatePool.evaluate Samples.linearEstimator Samples.unbalancedWallet call q)
    as [cand|] eqn:E;
    [|unfold CreatePool.evaluate, Samples.linearEstimator in E; cbn [bindR] in E;
      discriminate].
  exists cand. split; [exact E|].
  pose proof (evaluate_rounds _ _ _ _ _ E) as (_ & _ & _ & _ & Hq).
  pose proof (evaluate_rounds _ _ _ _ _ E') as (_ & _ & _ & _ & Hq').
  destruct (evaluate_candidate _ _ _ _ _ E) as (_ & R1 & raw & Eest & R2).
  destruct (evaluate_candidate _ _ _ _ _ E') as (_ & R1' & raw' & Eest' & R2').
  unfold Samples.linearEstimator in Eest, Eest'.
  cbn [AllocationFacts.query Ratio.currencyAAmount] in Eest, Eest'.
  injection Eest as <-. injection Eest' as <-.
  assert (Hraw : CreatePool.roundedToken2AmountRaw cand
                 <= CreatePool.roundedToken2AmountRaw cand').
  { rewrite R2, R2', R1, R1'.
    change 1000%Q with (inject_Z 1000). rewrite !Math_floor_quotient.
    apply Z.mul_le_mono_nonneg_r; [lia|]. apply Z.div_le_mono; [lia|].
    apply candidateToken1Raw_monotone; [vm_compute; discriminate|exact Hle]. }
  rewrite Hq. rewrite Hq' in H'.
  apply Qle_trans with (2 := H').
  apply Qmult_le_compat_r; [rewrite <- Zle_Qle; exact Hraw|].
  vm_compute. discriminate.
Qed.



(** ** The allocation search of [executeAddLiquidity] *)

Section TopUpProperties.
Import Ratio.
Import CreatePool.
Import TopUpFacts.

Variable est : Estimator.
Variable updatedRatioData : RatioResponseData.
Variable actualTickLower actualTickUpper : Z.
Variable actualFeeTierIndex : FeeTierIndex.
Variable liquidityPercentage : number.

Local Abbreviation topUpEvaluate :=
  (AddLiquidity.evaluate est updatedRatioData actualTickLower actualTickUpper
     actualFeeTierIndex liquidityPercentage).
Local Abbreviation topUpIterate :=
  (AddLiquidity.iterate est updatedRatioData actualTickLower actualTickUpper
     actualFeeTierIndex liquidityPercentage).
Local Abbreviation topUpSearch :=
  (AddLiquidity.binarySearch est updatedRatioData actualTickLower actualTickUpper
     actualFeeTierIndex liquidityPercentage).
Local Abbreviation topUpFallback :=
  (AddLiquidity.fallback est updatedRatioData actualTickLower actualTickUpper
     actualFeeTierIndex liquidityPercentage).
Local Abbreviation topUpAllocation :=
  (AddLiquidity.allocationSearch est updatedRatioData actualTickLower actualTickUpper
     actualFeeTierIndex liquidityPercentage).
Local Abbreviation Inv :=
  (TopUpInv est updatedRatioData actualTickLower actualTickUpper actualFeeTierIndex
     liquidityPercentage).

Lemma topUp_candidate call percentage cand :
  topUpEvaluate call percentage = Ok cand ->
  roundedToken1AmountRaw cand
  = candidateToken1Raw updatedRatioData liquidityPercentage percentage
  /\ est call (query updatedRatioData actualTickLower actualTickUpper
                 actualFeeTierIndex (roundedToken1AmountRaw cand))
     = Ok (roundedToken2AmountRaw cand)
  /\ roundedRequiredToken2 cand
     = (inject_Z (roundedToken2AmountRaw cand)
        / pow10 (r_token2Decimals updatedRatioData))%Q.
Proof.
  unfold AddLiquidity.evaluate. cbv zeta.
  destruct (est call _) as [raw|] eqn:E; cbn [bindR]; [|discriminate].
  intros [= <-]. cbn. split; [reflexivity|]. split; [exact E|reflexivity].
Qed.

Lemma topUp_initial : Inv initialSearch.
Proof.
  unfold TopUpInv, initialSearch; cbn.
  split; [apply Qle_refl|]. split; [vm_compute; discriminate|].
  split; [apply Qle_refl|]. discriminate.
Qed.

Lemma topUp_iterate s : Inv s -> Inv (topUpIterate s).
Proof.
  intros (Hlo & Hmid & Hhi & Hbest).
  assert (Hhalf : forall a b : Q, ((a + b) / 2 == (a + b) * (1 # 2))%Q)
    by (intros; unfold Qdiv; reflexivity).
  unfold AddLiquidity.iterate. cbv zeta.
  cbn [nextIteration minPercentage maxPercentage iteration].
  set (current := ((minPercentage s + maxPercentage s) / 2)%Q).
  assert (Hc : (minPercentage s <= current)%Q /\ (current <= maxPercentage s)%Q)
    by (unfold current; rewrite Hhalf; split; lra).
  destruct Hc as [Hc1 Hc2].
  destruct (topUpEvaluate (S (iteration s)) current) as [cand|] eqn:E.
  - destruct (num_le (roundedRequiredToken2 cand)
                (Ratio.token2Balance updatedRatioData)) eqn:F.
    + apply num_le_iff in F.
      destruct (topUp_candidate _ _ _ E) as (E1 & E2 & E3).
      unfold TopUpInv; cbn. split; [lra|]. split; [exact Hc2|]. split; [exact Hhi|].
      intros _. split; [exact F|]. split; [exact E3|].
      exists current, (S (iteration s)).
      split; [lra|]. split; [lra|]. split; assumption.
    + unfold TopUpInv; cbn. split; [exact Hlo|]. split; [exact Hc1|].
      split; [lra|]. exact Hbest.
  - unfold TopUpInv; cbn. split; [exact Hlo|]. split; [exact Hc1|].
    split; [lra|]. exact Hbest.
Qed.

Lemma topUp_search fuel s : Inv s -> Inv (topUpSearch fuel s).
Proof.
  revert s. induction fuel as [|fuel IH]; intros s Hs; cbn [AddLiquidity.binarySearch].
  - exact Hs.
  - destruct (AddLiquidity.continues s); [|exact Hs]. apply IH, topUp_iterate, Hs.
Qed.

(** The loop of the top-up search is never cut by the fuel. *)
Lemma topUp_search_stops fuel s :
  (AddLiquidity.maxIterations - iteration s <= fuel)%nat ->
  AddLiquidity.continues (topUpSearch fuel s) = false.
Proof.
  revert s. induction fuel as [|fuel IH]; intros s Hfuel;
    cbn [AddLiquidity.binarySearch].
  - unfold AddLiquidity.continues.
    replace (iteration s <? AddLiquidity.maxIterations)%nat with false; [reflexivity|].
    symmetry. apply Nat.ltb_ge. lia.
  - destruct (AddLiquidity.continues s) eqn:E; [|exact E].
    apply IH. unfold AddLiquidity.iterate. cbv zeta.
    unfold AddLiquidity.maxIterations in *.
    destruct (AddLiquidity.evaluate _ _ _ _ _ _ _ _) as [cand|];
      [destruct (num_le _ _)|];
      cbn [iteration searchHigher searchLower record nextIteration]; lia.
Qed.

Lemma topUp_allocation :
  found topUpAllocation = true ->
  (bestToken2Amount topUpAllocation <= Ratio.token2Balance updatedRatioData)%Q
  /\ bestToken2Amount topUpAllocation
     = (inject_Z (bestToken2AmountRaw topUpAllocation)
        / pow10 (r_token2Decimals updatedRatioData))%Q
  /\ exists percentage call,
       (50 <= percentage)%Q /\ (percentage <= 999 # 10)%Q
       /\ bestToken1AmountRaw topUpAllocation
          = candidateToken1Raw updatedRatioData liquidityPercentage percentage
       /\ est call (query updatedRatioData actualTickLower actualTickUpper
                      actualFeeTierIndex (bestToken1AmountRaw topUpAllocation))
          = Ok (bestToken2AmountRaw topUpAllocation).
Proof.
  unfold AddLiquidity.allocationSearch.
  pose proof (topUp_search AddLiquidity.maxIterations initialSearch topUp_initial)
    as (_ & _ & _ & Hbest).
  set (searched := topUpSearch AddLiquidity.maxIterations initialSearch) in *.
  unfold AddLiquidity.fallback. destruct (found searched) eqn:Hf.
  - intros _. apply Hbest. reflexivity.
  - destruct (topUpEvaluate _ AddLiquidity.fallbackPercentage) as [cand|] eqn:E;
      [|congruence].
    destruct (num_le (roundedRequiredToken2 cand)
                (Ratio.token2Balance updatedRatioData)) eqn:F; [|congruence].
    intros _. apply num_le_iff in F.
    destruct (topUp_candidate _ _ _ E) as (E1 & E2 & E3).
    cbn. split; [exact F|]. split; [exact E3|].
    exists AddLiquidity.fallbackPercentage, (S (iteration searched)).
    split; [vm_compute; discriminate|]. split; [vm_compute; discriminate|].
    split; assumption.
Qed.

(** X7. A top-up that [executeAddLiquidity] decides to make is covered by
    the wallet: the token2 amount it sends is exactly what the oracle
    answered for the token1 amount it sends, over the position's own
    range and fee tier, and is at most the token2 balance; the token1
    amount is the candidate at a percentage in [[50, 99.9]] of the usable
    share, hence at most 99.9% of [availableToken1 * liquidityPercentage]
    when that percentage is not negative.  The search loop ends by its
    own condition within its ten iterations. *)
Theorem top_up_is_covered_by_the_wallet (positionId : string) params :
  AddLiquidity.addLiquidityAllocation est updatedRatioData actualTickLower
    actualTickUpper actualFeeTierIndex liquidityPercentage positionId = Ok params ->
  (inject_Z (AddLiquidity.a_currencyBAmount params)
   / pow10 (r_token2Decimals updatedRatioData)
   <= Ratio.token2Balance updatedRatioData)%Q
  /\ (exists call,
        est call (query updatedRatioData actualTickLower actualTickUpper
                    actualFeeTierIndex (AddLiquidity.a_currencyAAmount params))
        = Ok (AddLiquidity.a_currencyBAmount params))
  /\ (exists percentage,
        (50 <= percentage)%Q /\ (percentage <= 999 # 10)%Q
        /\ AddLiquidity.a_currencyAAmount params
           = candidateToken1Raw updatedRatioData liquidityPercentage percentage)
  /\ ((0 <= liquidityPercentage)%Q ->
      (inject_Z (AddLiquidity.a_currencyAAmount params)
       <= Ratio.availableToken1 updatedRatioData * liquidityPercentage
          * (999 # 1000) * pow10 (r_token1Decimals updatedRatioData))%Q)
  /\ AddLiquidity.continues (topUpSearch AddLiquidity.maxIterations initialSearch)
     = false
  /\ (iteration (topUpSearch AddLiquidity.maxIterations initialSearch) <= 10)%nat.
Proof.
  intros Hok.
  assert (Hav : (0 <= Ratio.availableToken1 updatedRatioData)%Q).
  { revert Hok. unfold AddLiquidity.addLiquidityAllocation. cbv zeta.
    destruct (num_le (Ratio.availableToken1 updatedRatioData) (1 # 100)) eqn:E;
      [discriminate|].
    intros _. destruct (Qlt_le_dec (1 # 100) (Ratio.availableToken1 updatedRatioData))
      as [H|H]; [lra|].
    apply num_le_iff in H. congruence. }
  assert (Hfound : found topUpAllocation = true).
  { revert Hok. unfold AddLiquidity.addLiquidityAllocation. cbv zeta.
    repeat match goal with
           | |- context [if ?b then Throw _ else _] =>
               destruct b eqn:?; [discriminate|]
           end.
    intros _. now apply negb_false_iff. }
  apply addLiquidityAllocation_minimums in Hok. destruct Hok as (EA & EB & _ & _).
  destruct (topUp_allocation Hfound)
    as (Hle & E2 & pct & call & Hlo & Hhi & Eraw & Eest).
  rewrite <- EA in Eraw, Eest. rewrite <- EB in Eest, E2.
  pose proof (topUp_search_stops AddLiquidity.maxIterations initialSearch
                ltac:(cbn [iteration initialSearch]; lia)) as Hstop.
  split; [rewrite <- E2; exact Hle|].
  split; [exists call; exact Eest|].
  split; [exists pct; repeat split; assumption|].
  split; [|split; [exact Hstop|]].
  - intros Hpct. rewrite Eraw. unfold candidateToken1Raw, AddLiquidity.maxUsableToken1.
    pose proof (pow10_pos (r_token1Decimals updatedRatioData)) as Hpow.
    set (a := Ratio.availableToken1 updatedRatioData) in *.
    set (pw := pow10 (r_token1Decimals updatedRatioData)) in *.
    set (x := (a * liquidityPercentage * (pct / 100) * pw)%Q).
    pose proof (Qfloor_le x) as Hx. fold (Math_floor x) in Hx.
    assert (Hu : (0 <= a * liquidityPercentage * pw)%Q).
    { apply Qmult_le_0_compat; [apply Qmult_le_0_compat; assumption|lra]. }
    assert (Ex : (x == a * liquidityPercentage * pw * (pct * (1 # 100)))%Q)
      by (unfold x, Qdiv; change (/ 100)%Q with (1 # 100)%Q; ring).
    assert (Eg : (a * liquidityPercentage * (999 # 1000) * pw
                  == a * liquidityPercentage * pw * (999 # 1000))%Q) by ring.
    rewrite Eg. set (u := (a * liquidityPercentage * pw)%Q) in *.
    assert ((x <= u * (999 # 1000))%Q) by (rewrite Ex; nra). lra.
  - assert (Hit : forall fuel s,
               (iteration s <= 10)%nat -> (iteration (topUpSearch fuel s) <= 10)%nat).
    { induction fuel as [|fuel IH]; intros s Hs; cbn [AddLiquidity.binarySearch];
        [exact Hs|].
      destruct (AddLiquidity.continues s) eqn:E; [|exact Hs].
      apply IH. unfold AddLiquidity.continues, AddLiquidity.maxIterations in E.
      apply andb_true_iff in E. destruct E as [E _]. apply Nat.ltb_lt in E.
      unfold AddLiquidity.iterate. cbv zeta.
      destruct (AddLiquidity.evaluate _ _ _ _ _ _ _ _) as [cand|];
        [destruct (num_le _ _)|];
        cbn [iteration searchHigher searchLower record nextIteration]; lia. }
    apply Hit. cbn. lia.
Qed.

End TopUpProperties.

Lemma top_up_is_covered_by_the_wallet_witness :
  exists params,
    AddLiquidity.addLiquidityAllocation Samples.linearEstimator Samples.fundedRatio
      100 200 Ratio.PER_0_05_SPACING_5 1 "0xp1" = Ok params
    /\ (inject_Z (AddLiquidity.a_currencyBAmount params)
        / pow10 (Ratio.r_token2Decimals Samples.fundedRatio)
        <= Ratio.token2Balance Samples.fundedRatio)%Q.
Proof.
  destruct (AddLiquidity.addLiquidityAllocation Samples.linearEstimator
              Samples.fundedRatio 100 200 Ratio.PER_0_05_SPACING_5 1 "0xp1")
    as [params|] eqn:E; [|vm_compute in E; discriminate].
  exists params. split; [reflexivity|].
  exact (proj1 (top_up_is_covered_by_the_wallet _ _ _ _ _ _ _ _ E)).
Defined.

(** ** More on the transaction executor *)

Section ExecutorGating.
Import ExecuteTransaction.

Variable JSON_stringify : list Argument -> string.

Lemma simulationError_None s : simulationError s = None <-> s = SimSuccess.
Proof. destruct s; cbn; split; congruence. Qed.

(** X8. [executeTransaction] submits a transaction only after it was built
    and its simulation succeeded, and then exactly once.  A call that
    does not get that far raises and leaves the cooldown table as the
    clean-up left it; a call that returns carries the hash the node gave
    and the payload it was called with. *)
Theorem executor_submits_only_after_simulation net sender p rt rt' events r :
  executeTransaction JSON_stringify net sender p rt = (rt', events, r) ->
  ((exists t, In (Submitted t) events) <-> reachesSubmission net)
  /\ (length (List.filter (fun e => match e with Submitted _ => true | _ => false end)
                events) <= 1)%nat
  /\ (~ reachesSubmission net ->
      (exists e, r = Throw e)
      /\ recentTransactions rt' = recentTransactions (cleanupOldTransactions rt))
  /\ (forall res,
        r = Ok res ->
        signAndSubmitTransaction net = Ok (transactionHash res)
        /\ payload res = p
        /\ reachesSubmission net
        /\ exists u, waitForTransaction net = Ok u).
Proof.
  unfold executeTransaction, attempt, reachesSubmission. cbv zeta.
  cbn [clock cleanupOldTransactions].
  match goal with |- context [submittedRecently ?l _] => set (last := l) end.
  destruct (submittedRecently last (clock rt));
    (destruct (build net) as [u|eb];
     [destruct (simulate net) as [|vm|es] eqn:Hsim; cbn [simulationError];
      [destruct (signAndSubmitTransaction net) as [h|e1];
       [destruct (waitForTransaction net) as [w|e2]|]| |]|]);
    repeat match goal with
           | |- context [if includes ?e ?s then _ else _] => destruct (includes e s)
           end;
    intros [= <- <- <-]; cbn;
    (split; [split;
             [intros [t Ht];
              repeat (destruct Ht as [Ht|Ht]; [try discriminate|]);
              try contradiction; (split; [eexists; reflexivity|reflexivity])
             |intros [[u' Hu] Hs]; try discriminate;
              eexists; eauto 10]|]);
    (split; [lia|]);
    (split; [intros Hnot; try (exfalso; apply Hnot; split;
                                [eexists; reflexivity|reflexivity]);
             (split; [eexists; reflexivity|reflexivity])
            |intros res Hres; try discriminate;
             injection Hres as <-; cbn;
             repeat split; try reflexivity; eexists; reflexivity]).
Qed.

(** X9. Cleaning the cooldown table drops exactly the entries older than
    30 seconds and keeps the others with their stamps; it never changes
    whether a call has to wait, since an entry it drops is too old to
    cause one; and cleaning twice at the same instant is cleaning
    once. *)
Theorem cleanup_drops_only_expired_entries (rt : Runtime) (sig : string) :
  clock (cleanupOldTransactions rt) = clock rt
  /\ (forall t,
        recentTransactions (cleanupOldTransactions rt) !! sig = Some t
        <-> recentTransactions rt !! sig = Some t
            /\ clock rt - t <= TRANSACTION_COOLDOWN)
  /\ submittedRecently (recentTransactions (cleanupOldTransactions rt) !! sig) (clock rt)
     = submittedRecently (recentTransactions rt !! sig) (clock rt)
  /\ cleanupOldTransactions (cleanupOldTransactions rt) = cleanupOldTransactions rt.
Proof.
  assert (Hlookup : forall k t,
             recentTransactions (cleanupOldTransactions rt) !! k = Some t
             <-> recentTransactions rt !! k = Some t
                 /\ clock rt - t <= TRANSACTION_COOLDOWN).
  { intros k t. unfold cleanupOldTransactions. cbn [recentTransactions].
    rewrite map_lookup_filter_Some. cbn. split; intros [H1 H2]; (split; [exact H1|lia]). }
  split; [reflexivity|]. split; [apply Hlookup|]. split.
  - destruct (recentTransactions rt !! sig) as [t|] eqn:E.
    + destruct (Z_le_gt_dec (clock rt - t) TRANSACTION_COOLDOWN) as [Hle|Hgt].
      * now rewrite (proj2 (Hlookup sig t) (conj E Hle)).
      * destruct (recentTransactions (cleanupOldTransactions rt) !! sig) as [t'|] eqn:E'.
        -- apply Hlookup in E'. destruct E' as [E' _]. congruence.
        -- cbn. symmetry. apply andb_false_iff. right. apply Z.ltb_ge. lia.
    + destruct (recentTransactions (cleanupOldTransactions rt) !! sig) as [t'|] eqn:E';
        [|reflexivity].
      apply Hlookup in E'. destruct E' as [E' _]. congruence.
  - unfold cleanupOldTransactions at 1. cbn [clock recentTransactions cleanupOldTransactions].
    unfold cleanupOldTransactions. cbn [clock]. f_equal.
    apply map_eq. intros k. apply option_eq. intros t.
    rewrite !map_lookup_filter_Some. tauto.
Qed.

(** X10. The cooldown is per signature: a call whose signature has no
    entry in the table is not delayed by an earlier call with another
    signature, however recent; its transaction is built on entry. *)
Theorem other_signatures_are_not_delayed
    net1 net2 sender p1 p2 rt0 gap rt1 events1 r1 rt2 events2 r2 :
  txSignature JSON_stringify sender p1 <> txSignature JSON_stringify sender p2 ->
  recentTransactions rt0 !! txSignature JSON_stringify sender p2 = None ->
  executeTransaction JSON_stringify net1 sender p1 rt0 = (rt1, events1, r1) ->
  executeTransaction JSON_stringify net2 sender p2 (advance gap rt1) = (rt2, events2, r2) ->
  recentTransactions rt1 !! txSignature JSON_stringify sender p2 = None
  /\ hd_error events2 = Some (Built (clock rt1 + gap))
  /\ buildTimes events2 = [clock rt1 + gap].
Proof.
  intros Hneq Hnone H1 H2.
  assert (Hstill : recentTransactions rt1 !! txSignature JSON_stringify sender p2 = None).
  { revert H1. unfold executeTransaction, attempt. cbv zeta.
    cbn [clock cleanupOldTransactions].
    match goal with |- context [submittedRecently ?l _] => set (last := l) end.
    assert (Hclean : filter (fun kv : string * Z =>
                               ¬ (clock rt0 - kv.2 > TRANSACTION_COOLDOWN))
                            (recentTransactions rt0)
                     !! txSignature JSON_stringify sender p2 = None)
      by (apply map_lookup_filter_None_2; now left).
    destruct (submittedRecently last (clock rt0));
      destruct (build net1); destruct (simulationError (simulate net1));
      destruct (signAndSubmitTransaction net1); destruct (waitForTransaction net1);
      repeat match goal with
             | |- context [if includes ?e ?s then _ else _] => destruct (includes e s)
             end;
      intros [= <- <- <-]; cbn;
      rewrite ?lookup_insert_ne by exact Hneq; exact Hclean. }
  split; [exact Hstill|].
  revert H2. unfold executeTransaction, attempt. cbv zeta.
  cbn [clock cleanupOldTransactions advance recentTransactions].
  match goal with
  | |- context [submittedRecently ?l _] =>
      assert (Hlast : l = None)
        by (apply map_lookup_filter_None_2; now left);
      rewrite !Hlast
  end.
  cbn [submittedRecently].
  destruct (build net2); destruct (simulationError (simulate net2));
    destruct (signAndSubmitTransaction net2); destruct (waitForTransaction net2);
    repeat match goal with
           | |- context [if includes ?e ?s then _ else _] => destruct (includes e s)
           end;
    intros [= <- <- <-]; split; reflexivity.
Qed.

End ExecutorGating.

Lemma executor_submits_only_after_simulation_witness :
  exists rt' events res,
    ExecuteTransaction.executeTransaction Samples.stringify Samples.acceptingNode
      "0xme" Samples.swapPayload Samples.freshProcess = (rt', events, Ok res)
    /\ ExecuteTransaction.payload res = Samples.swapPayload
    /\ ExecuteTransaction.reachesSubmission Samples.acceptingNode.
Proof.
  destruct (ExecuteTransaction.executeTransaction Samples.stringify
              Samples.acceptingNode "0xme" Samples.swapPayload Samples.freshProcess)
    as [[rt' events] r] eqn:E.
  destruct r as [res|e]; [|exfalso; vm_compute in E; discriminate].
  exists rt', events, res. split; [reflexivity|].
  destruct (proj2 (proj2 (proj2
             (executor_submits_only_after_simulation _ _ _ _ _ _ _ _ E))) res eq_refl)
    as (_ & Hp & Hr & _).
  split; [exact Hp|exact Hr].
Defined.

Lemma other_signatures_are_not_delayed_witness :
  exists rt1 events1 r1 rt2 events2 r2,
    ExecuteTransaction.executeTransaction Samples.stringify Samples.acceptingNode
      "0xme" Samples.removeLiquidityPayload Samples.freshProcess = (rt1, events1, r1)
    /\ ExecuteTransaction.executeTransaction Samples.stringify Samples.acceptingNode
         "0xme" Samples.swapPayload (ExecuteTransaction.advance 5 rt1)
       = (rt2, events2, r2)
    /\ ExecuteTransaction.buildTimes events2 = [ExecuteTransaction.clock rt1 + 5].
Proof.
  destruct (ExecuteTransaction.executeTransaction Samples.stringify
              Samples.acceptingNode "0xme" Samples.removeLiquidityPayload
              Samples.freshProcess) as [[rt1 events1] r1] eqn:E1.
  destruct (ExecuteTransaction.executeTransaction Samples.stringify
              Samples.acceptingNode "0xme" Samples.swapPayload
              (ExecuteTransaction.advance 5 rt1)) as [[rt2 events2] r2] eqn:E2.
  exists rt1, events1, r1, rt2, events2, r2.
  split; [reflexivity|]. split; [exact E2|].
  refine (proj2 (proj2 (other_signatures_are_not_delayed Samples.stringify
            Samples.acceptingNode Samples.acceptingNode "0xme"
            Samples.removeLiquidityPayload Samples.swapPayload Samples.freshProcess
            5 rt1 events1 r1 rt2 events2 r2 _ _ E1 E2))).
  - vm_compute. discriminate.
  - reflexivity.
Defined.

(** ** More on the orchestrator: what a result can look like *)

Section OrchestratorShape.
Import Pools.
Import Ratio.
Import RebalanceExecution.

Variable c : Collaborators.
Variable inactivePosition : InactivePosition.
Variable poolConfig : PoolConfig.

(** What each step does to the details, whatever the collaborators
    answer. *)
Lemma removeStep_effect address d :
  (exists r, removeStep c inactivePosition address d = (d, r)
             /\ (r = Ok tt -> isPositionCreation inactivePosition = true))
  \/ (isPositionCreation inactivePosition = false
      /\ exists removeHash,
           removeStep c inactivePosition address d
           = (pushHashes [removeHash] (setPositionRemoved d), Ok tt)).
Proof.
  unfold removeStep, bindS, lift, modify, ret.
  destruct (isPositionCreation inactivePosition) eqn:E.
  - left. eexists. split; [reflexivity|]. reflexivity.
  - destruct (getRemoveLiquidityPayload c _ _ _) as [p|e].
    + destruct (executeTransaction c p _) as [h|e].
      * right. split; [reflexivity|]. exists h. reflexivity.
      * left. eexists. split; [reflexivity|discriminate].
    + left. eexists. split; [reflexivity|discriminate].
Qed.

Lemma swapStep_effect address d :
  (exists r, swapStep c address d = (d, r))
  \/ (exists swapHash detail,
        swapStep c address d
        = (setSwapExecuted (pushSwapDetail detail (pushHashes [swapHash] d)), Ok tt)).
Proof.
  unfold swapStep, bindS, lift, modify, ret, throw.
  destruct (generateRatioResponse c AfterRemoval) as [r|]; [|left; eexists; reflexivity].
  destruct (swapRequested r) as [plan|]; [|left; eexists; reflexivity].
  destruct (getSwapPayload c _) as [p|e]; [|left; eexists; reflexivity].
  destruct (executeTransaction c p _) as [h|e]; [|left; eexists; reflexivity].
  right. eexists. eexists. reflexivity.
Qed.

Lemma createStep_effect d :
  (exists e, createStep c inactivePosition poolConfig d = (d, Throw e))
  \/ (exists createHash position,
        createStep c inactivePosition poolConfig d
        = (pushNewPosition position
             (pushHashes [createHash] (setNewPositionCreated d)), Ok tt)).
Proof.
  unfold createStep, safetyCheck, bindS, lift, modify, ret, throw.
  destruct (generateRatioResponse c BeforeCreation) as [r|];
    [|left; eexists; reflexivity].
  destruct (isAPTstkAPTPool _ _);
    [destruct (negb _ && negb _); [left; eexists; reflexivity|]|];
    (destruct (bindR _ _) as [h|msg];
     [right; eexists; eexists; reflexivity
     |destruct (includes msg _); left; eexists; reflexivity]).
Qed.

Lemma topUpStep_effect d :
  topUpStep c poolConfig d = (d, Ok tt)
  \/ (exists hashes,
        topUpStep c poolConfig d
        = (pushHashes hashes (setAdditionalLiquidityAdded d), Ok tt))
  \/ (exists hashes detail,
        topUpStep c poolConfig d
        = (pushSwapDetail detail (pushHashes hashes (setAdditionalLiquidityAdded d)),
           Ok tt)).
Proof.
  unfold topUpStep, bindS, lift, modify, ret, throw.
  destruct (generateRatioResponse c AfterCreation) as [r|]; [|now left].
  destruct (_ || _); [|now left].
  destruct (getAllPositions c) as [ps|]; [|now left].
  destruct (newest _) as [np|]; [|now left].
  destruct (al_success _); [|now left].
  destruct (al_swapExecuted _); [destruct (al_swapDetails _)|];
    right; [right|left|left]; repeat eexists.
Qed.

(** What the [try] body leaves behind, on either exit. *)
Lemma tryBody_outcome d r :
  tryBody c inactivePosition poolConfig initialDetails = (d, r) ->
  error d = None
  /\ newPositionCreated d = match r with Ok _ => true | Throw _ => false end
  /\ (newPositionCreated d = true ->
      positionRemoved d = negb (isPositionCreation inactivePosition))
  /\ (positionRemoved d = true -> isPositionCreation inactivePosition = false)
  /\ (additionalLiquidityAdded d = true -> newPositionCreated d = true)
  /\ (swapExecuted d = true -> swapDetails d <> [])
  /\ (length (transactionHashes d)
      >= Nat.b2n (positionRemoved d) + Nat.b2n (swapExecuted d)
         + Nat.b2n (newPositionCreated d))%nat
  /\ (additionalLiquidityAdded d = false ->
      length (transactionHashes d)
      = (Nat.b2n (positionRemoved d) + Nat.b2n (swapExecuted d)
         + Nat.b2n (newPositionCreated d))%nat).
Proof.
  unfold tryBody, bindS at 1, lift at 1.
  destruct (getAccount c) as [address|e0];
    [|intros [= <- <-]; cbn; repeat split; intros; try lia; easy].
  unfold bindS.
  destruct (removeStep_effect address initialDetails)
    as [(r1 & -> & Hr1)|(Hcre & h1 & ->)];
    [destruct r1 as [[]|e1];
     [specialize (Hr1 eq_refl)
     |intros [= <- <-]; cbn; repeat split; intros; try lia; easy]|];
    match goal with
    | |- context [swapStep c address ?d0] =>
        destruct (swapStep_effect address d0) as [(r2 & ->)|(h2 & sd & ->)]
    end;
    try (destruct r2 as [[]|e2];
         [|intros [= <- <-]; cbn; rewrite ?Hcre; repeat split; intros;
           try lia; easy]);
    match goal with
    | |- context [createStep c inactivePosition poolConfig ?d0] =>
        destruct (createStep_effect d0) as [(e3 & ->)|(h3 & np & ->)]
    end;
    try (intros [= <- <-]; cbn; rewrite ?Hcre; repeat split; intros;
         try lia; easy);
    match goal with
    | |- context [topUpStep c poolConfig ?d0] =>
        destruct (topUpStep_effect d0) as [->|[(hs & ->)|(hs & sd' & ->)]]
    end;
    intros [= <- <-]; cbn; rewrite ?Hr1, ?Hcre; cbn; rewrite ?length_app; cbn;
    repeat split; intros; try lia; try easy.
Qed.

(** X11. A run of [executeRebalancing] is reported successful exactly
    when the new position was created, and exactly then the result
    carries no error: a failure of the optional top-up never turns a
    run into a failure.  A new position is created only after the old
    one was removed, unless the run is a creation ([CREATE_NEW]), which
    removes nothing; the top-up is recorded only after a creation; a
    recorded swap comes with its details; and without a top-up the
    result lists exactly one transaction hash per step recorded as
    done. *)
Theorem success_means_position_created :
  let result := executeRebalancing c inactivePosition poolConfig in
  let d := details result in
  success result = newPositionCreated d
  /\ (success result = true <-> error d = None)
  /\ (newPositionCreated d = true ->
      positionRemoved d = negb (isPositionCreation inactivePosition))
  /\ (positionRemoved d = true -> isPositionCreation inactivePosition = false)
  /\ (additionalLiquidityAdded d = true -> newPositionCreated d = true)
  /\ (swapExecuted d = true -> swapDetails d <> [])
  /\ (length (transactionHashes d)
      >= Nat.b2n (positionRemoved d) + Nat.b2n (swapExecuted d)
         + Nat.b2n (newPositionCreated d))%nat
  /\ (additionalLiquidityAdded d = false ->
      length (transactionHashes d)
      = (Nat.b2n (positionRemoved d) + Nat.b2n (swapExecuted d)
         + Nat.b2n (newPositionCreated d))%nat).
Proof.
  cbv zeta. unfold executeRebalancing.
  destruct (tryBody c inactivePosition poolConfig initialDetails) as [d r] eqn:E.
  destruct (tryBody_outcome d r E) as (H1 & H2 & H3 & H4 & H5 & H6 & H7 & H8).
  destruct r as [[]|e]; cbn [success details setError positionRemoved swapExecuted
    newPositionCreated additionalLiquidityAdded transactionHashes swapDetails error].
  - split; [now rewrite H2|]. split; [now split|].
    repeat split; assumption.
  - split; [now rewrite H2|]. split; [split; discriminate|].
    repeat split; assumption.
Qed.

(** X12. On the APT/stkAPT pair the orchestrator refuses to create a
    position when the balances read before the creation are both below
    0.01: the run fails without a new position, whatever the payload
    builder and the node would have answered. *)
Theorem dust_balances_block_creation finalRatioResult :
  generateRatioResponse c BeforeCreation = Some finalRatioResult ->
  isAPTstkAPTPool (r_token1Symbol finalRatioResult) (r_token2Symbol finalRatioResult)
  = true ->
  (availableToken1 finalRatioResult < 1 # 100)%Q ->
  (token2Balance finalRatioResult < 1 # 100)%Q ->
  let result := executeRebalancing c inactivePosition poolConfig in
  success result = false
  /\ newPositionCreated (details result) = false
  /\ additionalLiquidityAdded (details result) = false
  /\ (forall d, exists e, createStep c inactivePosition poolConfig d = (d, Throw e)).
Proof.
  intros Hr Hpair H1 H2. cbv zeta.
  assert (Hcreate : forall d,
             exists e, createStep c inactivePosition poolConfig d = (d, Throw e)).
  { intros d. unfold createStep, safetyCheck, bindS, throw. rewrite Hr, Hpair.
    unfold num_ge.
    destruct (num_le (1 # 100) (availableToken1 finalRatioResult)) eqn:E1;
      [apply num_le_iff in E1; lra|].
    destruct (num_le (1 # 100) (token2Balance finalRatioResult)) eqn:E2;
      [apply num_le_iff in E2; lra|].
    eexists. reflexivity. }
  assert (Hbody : exists d e,
             tryBody c inactivePosition poolConfig initialDetails = (d, Throw e)).
  { unfold tryBody, bindS at 1, lift at 1.
    destruct (getAccount c) as [address|e0]; [|eexists; eexists; reflexivity].
    unfold bindS.
    destruct (removeStep c inactivePosition address initialDetails) as [d1 [u1|e1]];
      [|eexists; eexists; reflexivity].
    destruct (swapStep c address d1) as [d2 [u2|e2]];
      [|eexists; eexists; reflexivity].
    destruct (Hcreate d2) as [e3 ->]. eexists; eexists; reflexivity. }
  destruct Hbody as (d & e & Hbody).
  destruct (tryBody_outcome d _ Hbody) as (_ & Hnew & _ & _ & Hadd & _).
  unfold executeRebalancing. rewrite Hbody. cbn.
  split; [reflexivity|]. split; [exact Hnew|]. split; [|exact Hcreate].
  destruct (additionalLiquidityAdded d); [|reflexivity].
  specialize (Hadd eq_refl). congruence.
Qed.

End OrchestratorShape.

Lemma dust_balances_block_creation_witness :
  RebalanceExecution.generateRatioResponse OrchestratorSamples.dustWallet
    RebalanceExecution.BeforeCreation = Some OrchestratorSamples.dustRatio
  /\ RebalanceExecution.success
       (RebalanceExecution.executeRebalancing OrchestratorSamples.dustWallet
          Samples.stalePosition Samples.stkConfig) = false
  /\ RebalanceExecution.newPositionCreated
       (RebalanceExecution.details
          (RebalanceExecution.executeRebalancing OrchestratorSamples.dustWallet
             Samples.stalePosition Samples.stkConfig)) = false.
Proof.
  split; [reflexivity|].
  pose proof (dust_balances_block_creation OrchestratorSamples.dustWallet
                Samples.stalePosition Samples.stkConfig OrchestratorSamples.dustRatio
                eq_refl eq_refl eq_refl eq_refl) as (H1 & H2 & _).
  split; [exact H1|exact H2].
Defined.

(** ** More on the batch controller: what a cycle reports *)

Section FlowAccounting.
Import Pools.
Import RebalancingFlow.
Import FlowFacts.

Variable c : Collaborators.
Variable defaultPoolsToManage : list PoolConfig.

(** What the forced loop adds to the counters, run by run. *)
Lemma processForced_details targetPool positions r :
  let d0 := run_details r in
  let d := run_details (processForced c targetPool positions r) in
  processedPositions d = (processedPositions d0 + length positions)%nat
  /\ successfulRebalances d
     = (successfulRebalances d0
        + length (List.filter (succeeded c targetPool) positions))%nat
  /\ failedRebalances d
     = (failedRebalances d0 + length (List.filter (failed c targetPool) positions))%nat
  /\ length (errors d)
     = (length (errors d0) + length (List.filter (failed c targetPool) positions))%nat
  /\ transactionHashes d
     = transactionHashes d0 ++ flat_map (carriedHashes c targetPool) positions.
Proof.
  cbv zeta. unfold processForced. revert r.
  induction positions as [|pos rest IH]; intros r; cbn [fold_left].
  - cbn. rewrite app_nil_r. repeat split; lia.
  - match goal with
    | |- context [fold_left ?f rest ?r1] => specialize (IH r1)
    end.
    destruct IH as (I1 & I2 & I3 & I4 & I5).
    rewrite I1, I2, I3, I4, I5. clear I1 I2 I3 I4 I5.
    cbn [List.filter flat_map length].
    unfold failed, succeeded, carriedHashes, outcome.
    destruct (executeRebalancing c pos targetPool true) as [res|e].
    + unfold absorb. cbv zeta.
      destruct (RebalanceExecution.success res);
        [destruct (RebalanceExecution.additionalLiquidityAdded
                     (RebalanceExecution.details res))|];
        cbn; rewrite ?length_app; cbn; rewrite <- ?app_assoc;
        repeat split; lia.
    + cbn. rewrite ?length_app. cbn. repeat split; lia.
Qed.

Lemma filter_succeeded_failed targetPool positions :
  (length (List.filter (succeeded c targetPool) positions)
   + length (List.filter (failed c targetPool) positions))%nat
  = length positions.
Proof.
  induction positions as [|pos rest IH]; [reflexivity|].
  cbn [List.filter]. unfold failed at 1.
  destruct (succeeded c targetPool pos); cbn; lia.
Qed.

(** X13. The accounts of a manual cycle: when the check reports positions
    for the pool, every one of them is processed; each run counts as
    successful or as failed, and each failure leaves one line in
    [errors]; the cycle is successful when at least one run was; and the
    batch result lists the transaction hashes of the successful runs only,
    so that the hashes of a run that failed half-way are not in it. *)
Theorem manual_cycle_accounts (options : RebalancingOptions) address id positions :
  getAccount c = Ok address ->
  o_poolId options = Some id ->
  id <> ""%string ->
  let targetPool := targetPoolFor defaultPoolsToManage id (o_rangePercent options) in
  let check := checkRebalancingNeeded c [targetPool] (Some id) true 0 in
  c_success check = true ->
  inactivePositions check = positions ->
  positions <> [] ->
  let result := fst (executeRebalancingFlow c defaultPoolsToManage options) in
  let d := details result in
  processedPositions d = length positions
  /\ successfulRebalances d = length (List.filter (succeeded c targetPool) positions)
  /\ (successfulRebalances d + failedRebalances d)%nat = length positions
  /\ length (errors d) = failedRebalances d
  /\ transactionHashes d = flat_map (carriedHashes c targetPool) positions
  /\ success result = (0 <? successfulRebalances d)%nat.
Proof.
  cbv zeta. intros Ha Hid Hne Hok Hpos Hnonempty.
  unfold executeRebalancingFlow. cbv zeta. rewrite Ha, Hid.
  replace (String.eqb id "") with false by (symmetry; now apply String.eqb_neq).
  unfold specificMode. cbv zeta. rewrite Hok, Hpos. cbn [negb].
  destruct positions as [|p ps] eqn:Hp; [congruence|]. rewrite <- Hp.
  unfold conclude. cbn [fst details success].
  set (r0 := {| run_details := initialDetails; started := [] |}).
  destruct (processForced_details
              (targetPoolFor defaultPoolsToManage id (o_rangePercent options))
              positions r0) as (I1 & I2 & I3 & I4 & I5).
  cbv zeta in I1, I2, I3, I4, I5. cbn in I1, I2, I3, I4, I5.
  pose proof (filter_succeeded_failed
                (targetPoolFor defaultPoolsToManage id (o_rangePercent options))
                positions) as Hsum.
  split; [exact I1|]. split; [exact I2|]. split; [lia|]. split; [lia|].
  split; [exact I5|].
  rewrite I1. replace (0 <? length positions)%nat with true; [reflexivity|].
  symmetry. apply Nat.ltb_lt. rewrite Hp. cbn. lia.
Qed.

Lemma processInactive_nil pools r : processInactive c pools [] r = r.
Proof. reflexivity. Qed.

(** X14. An automatic cycle in which the check reports nothing to
    rebalance is successful exactly when no enabled pool lacks a
    position.  When one does, the cycle attempts the creation and then
    resets [processedPositions] to the number of reported positions,
    zero: the record of the creation is kept, but the cycle is reported
    with [success = false], also when the position was created. *)
Theorem automatic_creation_is_reported_as_no_action
    (options : RebalancingOptions) address positions :
  o_poolId options = None ->
  getAccount c = Ok address ->
  let check := checkRebalancingNeeded c defaultPoolsToManage None false 0 in
  c_success check = true ->
  inactivePositions check = [] ->
  getAllPositions c = Ok positions ->
  let result := fst (executeRebalancingFlow c defaultPoolsToManage options) in
  let missing := missingPositionPools defaultPoolsToManage positions in
  processedPositions (details result) = 0%nat
  /\ (success result = true <-> missing = [])
  /\ (forall missingPool others d,
        missing = missingPool :: others ->
        createMissing c address missingPool initialDetails = (d, Ok tt) ->
        details result = setProcessed 0 d).
Proof.
  cbv zeta. intros Hauto Ha Hok Hnone Hall.
  unfold executeRebalancingFlow. cbv zeta. rewrite Ha, Hauto.
  unfold automaticMode. cbv zeta. rewrite Hok, Hnone, Hall. cbn [negb bindR].
  destruct (missingPositionPools defaultPoolsToManage positions) as [|m ms] eqn:Hm.
  - cbn. split; [reflexivity|]. split; [tauto|]. intros ? ? ? [=].
  - cbn [bindR length]. rewrite processInactive_nil.
    unfold conclude, processMissing, slice0, maxPoolsPerExecution.
    cbn [firstn fold_left start run_details started].
    destruct (createMissing c address m initialDetails) as [d1 [[]|e]] eqn:Hc;
      cbn [fst details success update run_details setProcessed processedPositions];
      (split; [reflexivity|]); (split; [split; [cbn; discriminate|discriminate]|]);
      intros m' ms' d [= <- <-] Hd; rewrite Hc in Hd; [injection Hd as <-|discriminate];
      reflexivity.
Qed.

End FlowAccounting.

Lemma manual_cycle_accounts_witness :
  let result :=
    fst (RebalancingFlow.executeRebalancingFlow
           (Samples.reporting [Samples.stalePosition; Samples.stalePosition])
           Pools.DEFAULT_POOLS_TO_MANAGE (Samples.manual Samples.usdtPoolId)) in
  RebalancingFlow.getAccount
    (Samples.reporting [Samples.stalePosition; Samples.stalePosition]) = Ok "0xme"%string
  /\ RebalancingFlow.processedPositions (RebalancingFlow.details result) = 2%nat
  /\ (RebalancingFlow.successfulRebalances (RebalancingFlow.details result)
      + RebalancingFlow.failedRebalances (RebalancingFlow.details result))%nat = 2%nat.
Proof.
  cbv zeta. split; [reflexivity|].
  pose proof (manual_cycle_accounts
                (Samples.reporting [Samples.stalePosition; Samples.stalePosition])
                Pools.DEFAULT_POOLS_TO_MANAGE (Samples.manual Samples.usdtPoolId)
                "0xme"%string Samples.usdtPoolId
                [Samples.stalePosition; Samples.stalePosition]
                eq_refl eq_refl ltac:(discriminate) eq_refl eq_refl ltac:(discriminate))
    as (H1 & _ & H3 & _).
  split; [exact H1|exact H3].
Defined.

Lemma automatic_creation_is_reported_as_no_action_witness :
  let pools := [Samples.usdtConfig; Samples.stkConfig] in
  let result :=
    fst (RebalancingFlow.executeRebalancingFlow Samples.idleOrchestrator pools
           Samples.automatic) in
  RebalancingFlow.missingPositionPools pools [] = pools
  /\ RebalancingFlow.processedPositions (RebalancingFlow.details result) = 0%nat
  /\ RebalancingFlow.success result <> true.
Proof.
  cbv zeta. split; [reflexivity|].
  pose proof (automatic_creation_is_reported_as_no_action Samples.idleOrchestrator
                [Samples.usdtConfig; Samples.stkConfig] Samples.automatic
                "0xme"%string [] eq_refl eq_refl eq_refl eq_refl eq_refl)
    as (H1 & H2 & _).
  split; [exact H1|]. intros Hs. apply H2 in Hs. discriminate Hs.
Defined.

(** ** The check before a cycle *)

Section CheckProperties.
Import Pools.
Import Ratio.
Import RebalanceCheck.

Variable s : Services.

Lemma mapR_Ok {A B} (f : A -> Result B) (l : list A) (bs : list B) :
  mapR f l = Ok bs -> Forall2 (fun a b => f a = Ok b) l bs.
Proof.
  revert bs. induction l as [|a l IH]; intros bs; cbn [mapR].
  - intros [= <-]. constructor.
  - destruct (f a) as [b|e] eqn:Ea; cbn [bindR]; [|discriminate].
    destruct (mapR f l) as [bs'|e]; cbn [bindR]; [|discriminate].
    intros [= <-]. constructor; [exact Ea|now apply IH].
Qed.

Lemma describe_fields pools pos entry :
  describe s pools pos = Ok entry ->
  RebalanceExecution.objectId entry = Read.objectId pos
  /\ RebalanceExecution.poolId entry = Read.pool_poolId (Read.pool pos).
Proof.
  unfold describe. cbv zeta.
  match goal with
  | |- bindR ?m _ = _ -> _ => destruct m as [poolName|e]
  end; cbn [bindR]; [|discriminate].
  intros [= <-]. split; reflexivity.
Qed.

Lemma mapR_describe pools positions entries :
  mapR (describe s pools) positions = Ok entries ->
  map RebalanceExecution.objectId entries = map Read.objectId positions
  /\ forall entry,
       In entry entries ->
       exists pos,
         In pos positions
         /\ RebalanceExecution.objectId entry = Read.objectId pos
         /\ RebalanceExecution.poolId entry = Read.pool_poolId (Read.pool pos).
Proof.
  intros H. apply mapR_Ok in H.
  induction H as [|pos entry positions entries Hd _ [IH1 IH2]].
  - split; [reflexivity|]. intros entry [].
  - apply describe_fields in Hd. destruct Hd as [E1 E2]. split.
    + cbn. now rewrite E1, IH1.
    + intros e [<-|Hin].
      * exists pos. split; [now left|]. split; assumption.
      * destruct (IH2 e Hin) as (pos' & Hp & Hrest).
        exists pos'. split; [now right|exact Hrest].
Qed.

(** What the [try] of the check returns when nothing raises. *)
Lemma checkRebalancingNeeded_entries poolsToMonitor specificPoolId force all :
  getAllPositions s = Ok all ->
  let result := checkRebalancingNeeded s poolsToMonitor specificPoolId force in
  let ids := managedPoolIds poolsToMonitor specificPoolId in
  let managedPositions := List.filter (managed ids) all in
  let positionsToRebalance :=
    if force then managedPositions
    else Read.filterInactivePositions (fetchTokensAmountByPositionId s)
           (Some getPoolConfigsForFilter) managedPositions in
  (success result = false /\ inactivePositions result = [])
  \/ (success result = true
      /\ mapR (describe s (poolsToCheck poolsToMonitor specificPoolId))
              positionsToRebalance
         = Ok (inactivePositions result))
  \/ (success result = true
      /\ force = false /\ managedPositions = []
      /\ exists id,
           given specificPoolId = Some id
           /\ inactivePositions result
              = creationEntry s (poolsToCheck poolsToMonitor specificPoolId) id).
Proof.
  intros Hall. cbv zeta. unfold checkRebalancingNeeded. cbv zeta.
  destruct (getAccount s) as [account|e]; cbn [bindR]; [|left; split; reflexivity].
  rewrite Hall. cbn [bindR].
  set (positions := if force then _ else _).
  destruct (mapR (describe s _) positions) as [entries|e] eqn:Hm; cbn [bindR];
    [|left; split; reflexivity].
  destruct entries as [|entry rest].
  - destruct (given specificPoolId) as [id|] eqn:Hid.
    + destruct force.
      * right. left. split; [reflexivity|reflexivity].
      * destruct (List.filter _ all) eqn:Hf.
        -- right. right. cbn. split; [reflexivity|].
           split; [reflexivity|]. split; [reflexivity|].
           exists id. split; reflexivity.
        -- right. left. split; [reflexivity|reflexivity].
    + right. left. destruct force; (split; [reflexivity|reflexivity]).
  - right. left. split; [reflexivity|reflexivity].
Qed.

(** X15. Every entry [checkRebalancingNeeded] reports is either a position
    of the account in one of the managed pools (the given pool, or the
    enabled pools when none is given), listed under its own object and
    pool ids and, outside force mode, one the classifier flagged; or it
    is the [CREATE_NEW] entry, which is produced only for a manual
    check without force on a pool in which the account has no position,
    when the ratio data shows at least 0.01 of one token.  In force
    mode a successful check lists every position of the managed pools,
    in order. *)
Theorem check_reports_positions_of_managed_pools
    poolsToMonitor specificPoolId force all entry :
  getAllPositions s = Ok all ->
  let result := checkRebalancingNeeded s poolsToMonitor specificPoolId force in
  let ids := managedPoolIds poolsToMonitor specificPoolId in
  In entry (inactivePositions result) ->
  ((exists pos,
       In pos all /\ managed ids pos = true
       /\ RebalanceExecution.objectId entry = Read.objectId pos
       /\ RebalanceExecution.poolId entry = Read.pool_poolId (Read.pool pos)
       /\ (force = false ->
           In pos (Read.filterInactivePositions (fetchTokensAmountByPositionId s)
                     (Some getPoolConfigsForFilter) (List.filter (managed ids) all)))
       /\ (given specificPoolId = None ->
           exists p,
             In p poolsToMonitor /\ enabled p = true
             /\ samePoolId (poolId p) (Read.pool_poolId (Read.pool pos)) = true))
   \/ (RebalanceExecution.objectId entry = "CREATE_NEW"%string
       /\ force = false
       /\ given specificPoolId = Some (RebalanceExecution.poolId entry)
       /\ List.filter (managed ids) all = []
       /\ exists data,
            generateRatioResponse s (RebalanceExecution.poolId entry) = Ok (Some data)
            /\ ((1 # 100 <= availableToken1 data)%Q
                \/ (1 # 100 <= token2Balance data)%Q)))
  /\ (force = true -> success result = true ->
      map RebalanceExecution.objectId (inactivePositions result)
      = map Read.objectId (List.filter (managed ids) all)).
Proof.
  intros Hall. cbv zeta. intros Hin.
  destruct (checkRebalancingNeeded_entries poolsToMonitor specificPoolId force all Hall)
    as [[Hs He]|[[Hs Hm]|(Hs & Hforce & Hnone & id & Hid & He)]];
    cbv zeta in *.
  - rewrite He in Hin. destruct Hin.
  - apply mapR_describe in Hm. destruct Hm as [Hmap Hentries]. split.
    + left. destruct (Hentries entry Hin) as (pos & Hpos & E1 & E2).
      assert (Hmanaged : In pos (List.filter
                (managed (managedPoolIds poolsToMonitor specificPoolId)) all)).
      { destruct force; [exact Hpos|].
        apply In_filterInactivePositions in Hpos. tauto. }
      apply filter_In in Hmanaged. destruct Hmanaged as [Hall' Hman].
      exists pos. split; [exact Hall'|]. split; [exact Hman|].
      split; [exact E1|]. split; [exact E2|]. split.
      * intros ->. exact Hpos.
      * intros Hg. unfold managedPoolIds in Hman. rewrite Hg in Hman.
        unfold managed in Hman. apply existsb_exists in Hman.
        destruct Hman as (mid & Hmid & Hsame).
        apply in_map_iff in Hmid. destruct Hmid as (p0 & <- & Hp0).
        apply filter_In in Hp0. destruct Hp0 as [Hp0 Hen].
        exists p0. repeat split; assumption.
    + intros -> _. exact Hmap.
  - split; [|intros ->; discriminate].
    right. rewrite He in Hin. unfold creationEntry in Hin.
    destruct (getAccount s) as [account|e]; cbn [bindR] in Hin; [|destruct Hin].
    destruct (generateRatioResponse s id) as [[data|]|e] eqn:Hr;
      try (destruct Hin; fail).
    destruct (num_ge (availableToken1 data) (1 # 100)
              || num_ge (token2Balance data) (1 # 100)) eqn:Hmin;
      [|destruct Hin].
    destruct Hin as [<-|[]]. cbn.
    split; [reflexivity|]. split; [exact Hforce|]. split; [exact Hid|].
    split; [exact Hnone|]. exists data. split; [exact Hr|].
    apply orb_true_iff in Hmin. unfold num_ge in Hmin.
    rewrite !num_le_iff in Hmin. exact Hmin.
Qed.

Lemma samePoolId_sym (a b : string) : samePoolId a b = samePoolId b a.
Proof. unfold samePoolId. apply String.eqb_sym. Qed.

Lemma given_id (id : string) : id <> ""%string -> given (Some id) = Some id.
Proof.
  intros Hne. unfold given, truthy_string.
  destruct (String.eqb id "") eqn:E; [apply String.eqb_eq in E; contradiction|].
  reflexivity.
Qed.

Lemma managed_single (id : string) (pos : Read.HyperionPosition) :
  managed [id] pos = RebalancingFlow.inPool id pos.
Proof.
  unfold managed, RebalancingFlow.inPool. cbn. rewrite orb_false_r.
  apply samePoolId_sym.
Qed.

Lemma filter_managed_single (id : string) (all : list Read.HyperionPosition) :
  List.filter (managed [id]) all = List.filter (RebalancingFlow.inPool id) all.
Proof. apply filter_ext. intros pos. apply managed_single. Qed.

(** X16. With [checkRebalancingNeeded] as its check, a manual cycle never
    creates a position: the controller always asks for a forced check,
    which reports the positions of the pool and never the [CREATE_NEW]
    entry, so that every operation the cycle starts is the rebalancing of
    a position the account holds in that pool; and when it holds none
    there, the cycle starts nothing and fails. *)
Theorem manual_rebalance_never_creates
    (c : RebalancingFlow.Collaborators) defaultPoolsToManage
    (options : RebalancingFlow.RebalancingOptions) id all :
  Implements c s ->
  RebalancingFlow.o_poolId options = Some id ->
  id <> ""%string ->
  getAllPositions s = Ok all ->
  let out := RebalancingFlow.executeRebalancingFlow c defaultPoolsToManage options in
  RebalancingFlow.creations (snd out) = []
  /\ (forall op,
        In op (snd out) ->
        exists entry pos,
          op = RebalancingFlow.Rebalancing entry
          /\ In pos all /\ RebalancingFlow.inPool id pos = true
          /\ RebalanceExecution.objectId entry = Read.objectId pos)
  /\ (List.filter (RebalancingFlow.inPool id) all = [] ->
      snd out = [] /\ RebalancingFlow.success (fst out) = false).
Proof.
  intros [Hpositions Hcheck] Hid Hne Hall. cbv zeta.
  assert (Hops : forall entries r0,
             RebalancingFlow.started r0 = [] ->
             (forall entry, In entry entries ->
                exists pos, In pos all /\ RebalancingFlow.inPool id pos = true
                            /\ RebalanceExecution.objectId entry = Read.objectId pos) ->
             let out :=
               RebalancingFlow.conclude
                 (RebalancingFlow.processForced c
                    (RebalancingFlow.targetPoolFor defaultPoolsToManage id
                       (RebalancingFlow.o_rangePercent options)) entries r0) in
             RebalancingFlow.creations (snd out) = []
             /\ forall op, In op (snd out) ->
                  exists entry pos,
                    op = RebalancingFlow.Rebalancing entry
                    /\ In pos all /\ RebalancingFlow.inPool id pos = true
                    /\ RebalanceExecution.objectId entry = Read.objectId pos).
  { intros entries r0 Hr0 Hentries. cbv zeta. unfold RebalancingFlow.conclude.
    cbn [snd]. rewrite processForced_started, Hr0. cbn [app]. split.
    - apply creations_map_Rebalancing.
    - intros op Hop. apply in_map_iff in Hop. destruct Hop as (entry & <- & Hin).
      destruct (Hentries entry Hin) as (pos & H1 & H2 & H3).
      exists entry, pos. repeat split; assumption. }
  unfold RebalancingFlow.executeRebalancingFlow. cbv zeta. rewrite Hid.
  replace (String.eqb id "") with false by (symmetry; now apply String.eqb_neq).
  destruct (RebalancingFlow.getAccount c) as [address|e];
    [|cbn; split; [reflexivity|]; split; [intros op []|split; reflexivity]].
  unfold RebalancingFlow.specificMode. cbv zeta.
  set (targetPool := RebalancingFlow.targetPoolFor defaultPoolsToManage id
                       (RebalancingFlow.o_rangePercent options)).
  destruct (Hcheck [targetPool] (Some id) true 0%nat) as [Hs0 He0].
  destruct (Hcheck [targetPool] (Some id) true 1%nat) as [_ He1].
  rewrite Hs0, He0, He1, Hpositions, Hall. cbn [bindR].
  pose proof (checkRebalancingNeeded_entries [targetPool] (Some id) true all Hall)
    as Hshape.
  cbv zeta in Hshape. unfold managedPoolIds in Hshape.
  rewrite (given_id id Hne), filter_managed_single in Hshape.
  destruct Hshape as [[Hs He]|[[Hs Hm]|(_ & Hforce & _)]]; [| |discriminate].
  - rewrite Hs, He. cbn. split; [reflexivity|]. split; [intros op []|].
    intros _. split; reflexivity.
  - rewrite Hs. cbn [negb].
    apply mapR_describe in Hm. destruct Hm as [_ Hentries].
    assert (Hfrom : forall entry,
               In entry (inactivePositions
                           (checkRebalancingNeeded s [targetPool] (Some id) true)) ->
               exists pos, In pos all /\ RebalancingFlow.inPool id pos = true
                           /\ RebalanceExecution.objectId entry = Read.objectId pos).
    { intros entry Hin. destruct (Hentries entry Hin) as (pos & Hp & E1 & _).
      apply filter_In in Hp. destruct Hp as [Hp1 Hp2].
      exists pos. repeat split; assumption. }
    destruct (inactivePositions (checkRebalancingNeeded s [targetPool] (Some id) true))
      as [|entry rest] eqn:Hlist.
    + destruct (List.filter (RebalancingFlow.inPool id) all) as [|pos ps] eqn:Hpool.
      * cbn. split; [reflexivity|]. split; [intros op []|]. intros _.
        split; reflexivity.
      * rewrite <- Hpool.
        match goal with
        | |- context [RebalancingFlow.processForced c targetPool ?entries ?r0] =>
            destruct (Hops entries r0 eq_refl) as [Hc Ho]
        end.
        { intros entry Hin. apply in_map_iff in Hin.
          destruct Hin as (pos' & <- & Hin). apply filter_In in Hin.
          destruct Hin as [Hin1 Hin2]. exists pos'. repeat split; assumption. }
        split; [exact Hc|]. split; [exact Ho|]. rewrite Hpool. discriminate.
    + match goal with
      | |- context [RebalancingFlow.processForced c targetPool ?entries ?r0] =>
          destruct (Hops entries r0 eq_refl Hfrom) as [Hc Ho]
      end.
      split; [exact Hc|]. split; [exact Ho|].
      intros Hempty. exfalso.
      destruct (Hfrom entry (or_introl eq_refl)) as (pos & Hp & Hin & _).
      assert (In pos (List.filter (RebalancingFlow.inPool id) all))
        by (apply filter_In; split; assumption).
      rewrite Hempty in H. destruct H.
Qed.

End CheckProperties.

Lemma check_reports_positions_of_managed_pools_witness :
  RebalanceCheck.getAllPositions (CheckSamples.holder [CheckSamples.usdtPosition])
  = Ok [CheckSamples.usdtPosition]
  /\ In CheckSamples.usdtEntry
       (RebalanceCheck.inactivePositions
          (RebalanceCheck.checkRebalancingNeeded
             (CheckSamples.holder [CheckSamples.usdtPosition])
             Pools.DEFAULT_POOLS_TO_MANAGE (Some Samples.usdtPoolId) true))
  /\ map RebalanceExecution.objectId
       (RebalanceCheck.inactivePositions
          (RebalanceCheck.checkRebalancingNeeded
             (CheckSamples.holder [CheckSamples.usdtPosition])
             Pools.DEFAULT_POOLS_TO_MANAGE (Some Samples.usdtPoolId) true))
     = map Read.objectId
         (List.filter
            (RebalanceCheck.managed
               (RebalanceCheck.managedPoolIds Pools.DEFAULT_POOLS_TO_MANAGE
                  (Some Samples.usdtPoolId)))
            [CheckSamples.usdtPosition]).
Proof.
  assert (Hin : In CheckSamples.usdtEntry
                  (RebalanceCheck.inactivePositions
                     (RebalanceCheck.checkRebalancingNeeded
                        (CheckSamples.holder [CheckSamples.usdtPosition])
                        Pools.DEFAULT_POOLS_TO_MANAGE (Some Samples.usdtPoolId) true)))
    by (vm_compute; left; reflexivity).
  split; [reflexivity|]. split; [exact Hin|].
  apply (proj2 (check_reports_positions_of_managed_pools
                  (CheckSamples.holder [CheckSamples.usdtPosition])
                  Pools.DEFAULT_POOLS_TO_MANAGE (Some Samples.usdtPoolId) true
                  [CheckSamples.usdtPosition] CheckSamples.usdtEntry eq_refl Hin));
    reflexivity.
Defined.

Lemma manual_rebalance_never_creates_witness :
  let c :=
    RebalanceCheck.withCheck (CheckSamples.holder []) (fun _ => ""%string)
      Samples.idleOrchestrator in
  let out :=
    RebalancingFlow.executeRebalancingFlow c Pools.DEFAULT_POOLS_TO_MANAGE
      (Samples.manual Samples.usdtPoolId) in
  RebalanceCheck.Implements c (CheckSamples.holder [])
  /\ snd out = []
  /\ RebalancingFlow.success (fst out) = false.
Proof.
  cbv zeta.
  assert (Himpl : RebalanceCheck.Implements
                    (RebalanceCheck.withCheck (CheckSamples.holder [])
                       (fun _ => ""%string) Samples.idleOrchestrator)
                    (CheckSamples.holder []))
    by (split; [reflexivity|intros; split; reflexivity]).
  split; [exact Himpl|].
  apply (manual_rebalance_never_creates (CheckSamples.holder [])
           (RebalanceCheck.withCheck (CheckSamples.holder []) (fun _ => ""%string)
              Samples.idleOrchestrator)
           Pools.DEFAULT_POOLS_TO_MANAGE (Samples.manual Samples.usdtPoolId)
           Samples.usdtPoolId [] Himpl eq_refl ltac:(discriminate) eq_refl).
  reflexivity.
Defined.

(** ** The positions report and the classifier *)

Section ReportProperties.
Import Pools.
Import Read.
Import PositionsResponse.

Variable fetchTokensAmountByPositionId : string -> Result (Z * Z).
Variable poolConfigs : option (list FilterConfig).

Lemma pct_of_nothing (price : number) :
  pctToken1 0 0 price = 0%Q /\ pctToken2 0 0 price = 0%Q.
Proof.
  unfold pctToken1, pctToken2. cbv zeta.
  assert (E : num_gt (0 * price + 0) 0 = false).
  { destruct (num_gt (0 * price + 0) 0) eqn:E; [|reflexivity].
    apply num_gt_iff in E. lra. }
  rewrite E. split; reflexivity.
Qed.

Lemma needsRebalancing_of_nothing rangePercent :
  needsRebalancing rangePercent true 0 0 = true.
Proof. destruct rangePercent; reflexivity. Qed.

(** The status of one position against the classifier's verdict. *)
Lemma positionStatus_flagged pos info1 info2 :
  token1Info (pool pos) = Some info1 ->
  token2Info (pool pos) = Some info2 ->
  exists st,
    positionStatus fetchTokensAmountByPositionId poolConfigs pos = Ok st
    /\ (fst st = true <-> snd st <> Active)
    /\ (isActive pos = false -> fst st = true)
    /\ (flagged fetchTokensAmountByPositionId poolConfigs pos = true -> fst st = true)
    /\ ((exists e, fetchTokensAmountByPositionId (objectId pos) = Throw e) ->
        fst st = true
        /\ flagged fetchTokensAmountByPositionId poolConfigs pos = false).
Proof.
  intros H1 H2. unfold positionStatus, flagged, analysePosition. cbv zeta.
  rewrite H1, H2. cbn [field bindR].
  destruct (fetchTokensAmountByPositionId (objectId pos)) as [[t1 t2]|e].
  - eexists. split; [reflexivity|]. cbn [fst snd].
    destruct (isActive pos); cbn [negb orb];
      [destruct (needsRebalancing _ true _ _)|];
      repeat split; intros; try reflexivity; try congruence;
      match goal with H : exists _, _ |- _ => destruct H; congruence end.
  - eexists. split; [reflexivity|].
    destruct (pct_of_nothing (priceOf (sqrtPrice (pool pos)) (decimals info1)
                                (decimals info2))) as [-> ->].
    cbn [fst snd].
    destruct (isActive pos); cbn [negb orb];
      rewrite ?needsRebalancing_of_nothing;
      repeat split; intros; try reflexivity; congruence.
Qed.

Lemma scan_raises positions hasInactive0 shown pos :
  In pos positions ->
  token1Info (pool pos) = None \/ token2Info (pool pos) = None ->
  exists e, scan fetchTokensAmountByPositionId poolConfigs positions hasInactive0 shown
            = Throw e.
Proof.
  revert hasInactive0 shown.
  induction positions as [|p rest IH]; intros h shown Hin Hbroken; [destruct Hin|].
  cbn [scan].
  destruct (positionStatus fetchTokensAmountByPositionId poolConfigs p) as [st|e] eqn:E;
    cbn [bindR]; [|eexists; reflexivity].
  destruct Hin as [->|Hin]; [|now apply IH].
  exfalso. unfold positionStatus in E. cbv zeta in E.
  destruct Hbroken as [Hb|Hb]; rewrite Hb in E.
  - cbn in E. discriminate.
  - destruct (token1Info (pool pos)); cbn in E; discriminate.
Qed.

Lemma scan_hasInactive positions hasInactive0 shown :
  (forall pos, In pos positions ->
     token1Info (pool pos) <> None /\ token2Info (pool pos) <> None) ->
  exists report,
    scan fetchTokensAmountByPositionId poolConfigs positions hasInactive0 shown
    = Ok report
    /\ (hasInactive0 = true -> hasInactive report = true)
    /\ (forall pos st,
          In pos positions ->
          positionStatus fetchTokensAmountByPositionId poolConfigs pos = Ok st ->
          fst st = true -> hasInactive report = true)
    /\ exists more, statuses report = Some (shown ++ more)
                    /\ length more = length positions.
Proof.
  revert hasInactive0 shown.
  induction positions as [|p rest IH]; intros h shown Hok; cbn [scan].
  - eexists. split; [reflexivity|]. cbn. split; [tauto|].
    split; [intros pos st []|]. exists []. now rewrite app_nil_r.
  - destruct (Hok p (or_introl eq_refl)) as [Hp1 Hp2].
    destruct (token1Info (pool p)) as [info1|] eqn:E1; [|congruence].
    destruct (token2Info (pool p)) as [info2|] eqn:E2; [|congruence].
    destruct (positionStatus_flagged p info1 info2 E1 E2) as (st & Est & _).
    rewrite Est. cbn [bindR].
    destruct (IH (h || fst st) (shown ++ [snd st])
                 (fun pos Hin => Hok pos (or_intror Hin)))
      as (report & Er & Hh & Hall & more & Hs & Hlen).
    exists report. split; [exact Er|]. split.
    + intros ->. apply Hh. reflexivity.
    + split.
      * intros pos st' [<-|Hin] Hst Hf.
        -- rewrite Est in Hst. injection Hst as <-. apply Hh.
           rewrite Hf. apply orb_true_r.
        -- exact (Hall pos st' Hin Hst Hf).
      * exists (snd st :: more). split; [now rewrite Hs, <- app_assoc|].
        cbn. now rewrite Hlen.
Qed.

(** X17. The positions report and the classifier.  When every position
    comes with both token descriptors, [generatePositionsResponse] sets
    [hasInactive] as soon as the classifier would flag one of the
    positions, as soon as one is out of range, and also as soon as the
    amounts of one could not be fetched (a position the classifier
    skips); it shows one status per position.  A single position without
    a token descriptor turns the whole report into the error message,
    with [hasInactive] false. *)
Theorem report_flags_what_the_classifier_flags
    fetchWalletBalancesWithUSD formatWalletBalancesWithUSD positions :
  let report :=
    generatePositionsResponse (Ok positions) fetchWalletBalancesWithUSD
      formatWalletBalancesWithUSD fetchTokensAmountByPositionId poolConfigs in
  (exists u, fetchWalletBalancesWithUSD = Ok u) ->
  (exists u, formatWalletBalancesWithUSD = Ok u) ->
  ((forall pos, In pos positions ->
      token1Info (pool pos) <> None /\ token2Info (pool pos) <> None) ->
   (filterInactivePositions fetchTokensAmountByPositionId poolConfigs positions <> [] ->
    hasInactive report = true)
   /\ ((exists pos, In pos positions /\ isActive pos = false) ->
       hasInactive report = true)
   /\ ((exists pos e,
          In pos positions /\ fetchTokensAmountByPositionId (objectId pos) = Throw e) ->
       hasInactive report = true)
   /\ (positions <> [] ->
       exists shown, statuses report = Some shown /\ length shown = length positions))
  /\ ((exists pos,
         In pos positions
         /\ (token1Info (pool pos) = None \/ token2Info (pool pos) = None)) ->
      hasInactive report = false /\ statuses report = None).
Proof.
  cbv zeta. intros [u1 Hw1] [u2 Hw2]. unfold generatePositionsResponse.
  rewrite Hw1, Hw2. cbn [bindR]. split.
  - intros Hok.
    destruct (scan_hasInactive positions false [] Hok)
      as (report & Er & _ & Hall & more & Hs & Hlen).
    assert (Hone : forall pos, In pos positions ->
               exists info1 info2,
                 token1Info (pool pos) = Some info1
                 /\ token2Info (pool pos) = Some info2).
    { intros pos Hin. destruct (Hok pos Hin) as [H1 H2].
      destruct (token1Info (pool pos)) as [i1|]; [|congruence].
      destruct (token2Info (pool pos)) as [i2|]; [|congruence].
      exists i1, i2. split; reflexivity. }
    assert (Hset : forall pos,
               In pos positions ->
               (forall st,
                  positionStatus fetchTokensAmountByPositionId poolConfigs pos = Ok st ->
                  fst st = true) ->
               hasInactive
                 match positions with
                 | [] => {| statuses := None; hasInactive := false |}
                 | _ :: _ =>
                     match scan fetchTokensAmountByPositionId poolConfigs positions
                             false [] with
                     | Ok r => r
                     | Throw _ => {| statuses := None; hasInactive := false |}
                     end
                 end = true).
    { intros pos Hin Hst. destruct positions as [|p0 rest]; [destruct Hin|].
      rewrite Er.
      destruct (Hone pos Hin) as (i1 & i2 & E1 & E2).
      destruct (positionStatus_flagged pos i1 i2 E1 E2) as (st & Est & _).
      exact (Hall pos st Hin Est (Hst st Est)). }
    assert (Hgoal : forall (b : PositionsReport),
               b = match positions with
                   | [] => {| statuses := None; hasInactive := false |}
                   | _ :: _ =>
                       match scan fetchTokensAmountByPositionId poolConfigs positions
                               false [] with
                       | Ok r => r
                       | Throw _ => {| statuses := None; hasInactive := false |}
                       end
                   end ->
               match (match positions with
                      | [] => Ok {| statuses := None; hasInactive := false |}
                      | _ :: _ =>
                          scan fetchTokensAmountByPositionId poolConfigs positions
                            false []
                      end) with
               | Ok r => r
               | Throw _ => {| statuses := None; hasInactive := false |}
               end = b).
    { intros b ->. destruct positions; reflexivity. }
    rewrite (Hgoal _ eq_refl). clear Hgoal.
    split; [|split; [|split]].
    + intros Hne.
      destruct (filterInactivePositions fetchTokensAmountByPositionId poolConfigs
                  positions) as [|pos l] eqn:Hf; [congruence|].
      assert (Hin : In pos (filterInactivePositions fetchTokensAmountByPositionId
                              poolConfigs positions)) by (rewrite Hf; now left).
      apply In_filterInactivePositions in Hin. destruct Hin as [Hin Hflag].
      apply (Hset pos Hin). intros st Est.
      destruct (Hone pos Hin) as (i1 & i2 & E1 & E2).
      destruct (positionStatus_flagged pos i1 i2 E1 E2) as (st' & Est' & _ & _ & Hfl & _).
      rewrite Est in Est'. injection Est' as <-. exact (Hfl Hflag).
    + intros (pos & Hin & Hinactive).
      apply (Hset pos Hin). intros st Est.
      destruct (Hone pos Hin) as (i1 & i2 & E1 & E2).
      destruct (positionStatus_flagged pos i1 i2 E1 E2) as (st' & Est' & _ & Hina & _).
      rewrite Est in Est'. injection Est' as <-. exact (Hina Hinactive).
    + intros (pos & e & Hin & Hthrow).
      apply (Hset pos Hin). intros st Est.
      destruct (Hone pos Hin) as (i1 & i2 & E1 & E2).
      destruct (positionStatus_flagged pos i1 i2 E1 E2)
        as (st' & Est' & _ & _ & _ & Hth).
      rewrite Est in Est'. injection Est' as <-.
      apply Hth. exists e. exact Hthrow.
    + intros Hne. destruct positions as [|p0 rest]; [congruence|].
      rewrite Er. exists more. split; [exact Hs|exact Hlen].
  - intros (pos & Hin & Hbroken).
    destruct positions as [|p0 rest]; [destruct Hin|].
    destruct (scan_raises (p0 :: rest) false [] pos Hin Hbroken) as [e ->].
    split; reflexivity.
Qed.

End ReportProperties.

Lemma report_flags_what_the_classifier_flags_witness :
  let positions := [Samples.positionIn Samples.usdtPoolId 100 200 250] in
  (exists u : unit, Ok tt = Ok u)
  /\ PositionsResponse.hasInactive
       (PositionsResponse.generatePositionsResponse (Ok positions) (Ok tt) (Ok tt)
          Samples.fetchDown Samples.configured) = true.
Proof.
  cbv zeta.
  assert (Hu : exists u : unit, @Ok unit tt = Ok u) by (exists tt; reflexivity).
  split; [exact Hu|].
  refine (proj1 (proj2 (proj1
            (report_flags_what_the_classifier_flags Samples.fetchDown
               Samples.configured (Ok tt) (Ok tt)
               [Samples.positionIn Samples.usdtPoolId 100 200 250] Hu Hu) _)) _).
  - intros pos [<-|[]]. split; discriminate.
  - eexists. split; [left; reflexivity|reflexivity].
Defined.

(** ** More on the classifier's rules *)

Section RuleProperties.
Import Pools.
Import Read.

Lemma pct_sum (token1Amount token2Amount price : number) :
  (0 < token1Amount * price + token2Amount)%Q ->
  (pctToken1 token1Amount token2Amount price
   + pctToken2 token1Amount token2Amount price == 100)%Q.
Proof.
  intros Hpos. unfold pctToken1, pctToken2. cbv zeta.
  rewrite (proj2 (num_gt_iff _ _) Hpos). cbv beta iota.
  change number with Q in *. field. lra.
Qed.



End RuleProperties.

(** ** The custom tick range *)

Section RangeProperties.
Import Pools.
Import Ratio.
Import RatioFacts.

Lemma floor_multiple_brackets (x : Q) (spacing : Z) :
  0 < spacing ->
  (inject_Z (Math_floor (x / inject_Z spacing) * spacing) <= x)%Q
  /\ (x < inject_Z (Math_floor (x / inject_Z spacing) * spacing) + inject_Z spacing)%Q.
Proof.
  intros Hs.
  assert (Hq : (0 < inject_Z spacing)%Q) by (rewrite <- (Zlt_Qlt 0); exact Hs).
  pose proof (Qfloor_le (x / inject_Z spacing)) as H1.
  pose proof (Qlt_floor (x / inject_Z spacing)) as H2.
  fold (Math_floor (x / inject_Z spacing)) in H1, H2.
  rewrite inject_Z_plus in H2. rewrite inject_Z_mult.
  set (f := inject_Z (Math_floor (x / inject_Z spacing))) in *.
  assert (Ex : (x == x / inject_Z spacing * inject_Z spacing)%Q)
    by (field; lra).
  assert (Hm1 : (f * inject_Z spacing <= x / inject_Z spacing * inject_Z spacing)%Q)
    by (apply Qmult_le_compat_r; [exact H1|lra]).
  assert (Hm2 : (x / inject_Z spacing * inject_Z spacing
                 < (f + inject_Z 1) * inject_Z spacing)%Q)
    by (apply Qmult_lt_compat_r; assumption).
  change (inject_Z 1) with 1%Q in Hm2.
  set (y := (x / inject_Z spacing * inject_Z spacing)%Q) in *.
  set (g := (f * inject_Z spacing)%Q) in *.
  assert (Eg : ((f + 1) * inject_Z spacing == g + inject_Z spacing)%Q)
    by (unfold g; ring).
  rewrite Eg in Hm2. split; lra.
Qed.

Lemma ceil_multiple_brackets (x : Q) (spacing : Z) :
  0 < spacing ->
  (x <= inject_Z (Math_ceil (x / inject_Z spacing) * spacing))%Q
  /\ (inject_Z (Math_ceil (x / inject_Z spacing) * spacing) - inject_Z spacing < x)%Q.
Proof.
  intros Hs.
  assert (Hq : (0 < inject_Z spacing)%Q) by (rewrite <- (Zlt_Qlt 0); exact Hs).
  pose proof (Qle_ceiling (x / inject_Z spacing)) as H1.
  pose proof (Qceiling_lt (x / inject_Z spacing)) as H2.
  fold (Math_ceil (x / inject_Z spacing)) in H1, H2.
  unfold Z.sub in H2. rewrite inject_Z_plus in H2. rewrite inject_Z_mult.
  set (f := inject_Z (Math_ceil (x / inject_Z spacing))) in *.
  assert (Ex : (x == x / inject_Z spacing * inject_Z spacing)%Q)
    by (field; lra).
  assert (Hm1 : (x / inject_Z spacing * inject_Z spacing <= f * inject_Z spacing)%Q)
    by (apply Qmult_le_compat_r; [exact H1|lra]).
  assert (Hm2 : ((f + inject_Z (- (1))) * inject_Z spacing
                 < x / inject_Z spacing * inject_Z spacing)%Q)
    by (apply Qmult_lt_compat_r; assumption).
  change (inject_Z (- (1))) with (- (1))%Q in Hm2.
  set (y := (x / inject_Z spacing * inject_Z spacing)%Q) in *.
  set (g := (f * inject_Z spacing)%Q) in *.
  assert (Eg : ((f + - (1)) * inject_Z spacing == g - inject_Z spacing)%Q)
    by (unfold g; ring).
  rewrite Eg in Hm2. split; lra.
Qed.

(** X19. With a custom [rangePercent] the calculator takes the ticks the
    SDK gives for the prices [marketPrice * (1 -/+ rangePercent / 100)]
    and widens them to the tick spacing of the pool's fee tier: both
    bounds are multiples of the spacing, the lower bound is at most the
    raw lower tick and less than one spacing below it, the upper bound
    at least the raw upper tick and less than one spacing above it.
    When the SDK gives no tick, the raw tick counts as zero, so that
    without any answer both bounds are zero. *)
Theorem custom_range_is_widened_to_the_spacing
    priceToTick est id percent p b1 b2 r :
  calculateOptimalRatioData priceToTick est id (RangeNumber percent) (Some p) b1 b2
  = Some r ->
  let cfg := feeConfigFor (feeRate p) in
  let decimalsRatio := pow10 (token1Decimals p - token2Decimals p) in
  let rawTickLower :=
    orZero (priceToTick (priceOfPool p * (1 - percent / 100))%Q (index cfg)
              decimalsRatio) in
  let rawTickUpper :=
    orZero (priceToTick (priceOfPool p * (1 + percent / 100))%Q (index cfg)
              decimalsRatio) in
  (spacing cfg | tickLower r) /\ (spacing cfg | tickUpper r)
  /\ (inject_Z (tickLower r) <= rawTickLower)%Q
  /\ (rawTickLower < inject_Z (tickLower r) + inject_Z (spacing cfg))%Q
  /\ (rawTickUpper <= inject_Z (tickUpper r))%Q
  /\ (inject_Z (tickUpper r) - inject_Z (spacing cfg) < rawTickUpper)%Q
  /\ ((rawTickLower <= rawTickUpper)%Q -> tickLower r <= tickUpper r)
  /\ ((forall price, priceToTick price (index cfg) decimalsRatio = None) ->
      tickLower r = 0 /\ tickUpper r = 0).
Proof.
  intros Hr. cbv zeta.
  assert (E : (tickLower r, tickUpper r)
              = customRange priceToTick percent (priceOfPool p)
                  (pow10 (token1Decimals p - token2Decimals p))
                  (index (feeConfigFor (feeRate p)))
                  (spacing (feeConfigFor (feeRate p)))).
  { revert Hr. unfold calculateOptimalRatioData, priceOfPool. cbn [tickRange].
    destruct (customRange _ _ _ _ _ _) as [lo hi].
    destruct (est _ _); [|discriminate].
    intros [= <-]. reflexivity. }
  unfold customRange in E. cbv zeta in E. injection E as -> ->.
  pose proof (feeConfigFor_spacing_pos (feeRate p)) as Hs.
  set (cfg := feeConfigFor (feeRate p)) in *.
  set (lo := orZero (priceToTick (priceOfPool p * (1 - percent / 100))%Q _ _)).
  set (hi := orZero (priceToTick (priceOfPool p * (1 + percent / 100))%Q _ _)).
  destruct (floor_multiple_brackets lo (spacing cfg) Hs) as [L1 L2].
  destruct (ceil_multiple_brackets hi (spacing cfg) Hs) as [U1 U2].
  split; [eexists; reflexivity|]. split; [eexists; reflexivity|].
  split; [exact L1|]. split; [exact L2|]. split; [exact U1|]. split; [exact U2|].
  split.
  - intros Hle. rewrite Zle_Qle.
    apply Qle_trans with (1 := L1). apply Qle_trans with (1 := Hle). exact U1.
  - intros Hnone. unfold lo, hi. rewrite !Hnone. cbn [orZero].
    split; reflexivity.
Qed.

Lemma custom_range_is_widened_to_the_spacing_witness :
  exists r,
    calculateOptimalRatioData RatioSamples.identityTicks RatioSamples.hundredPerToken
      "0xpool" (RangeNumber 5) (Some RatioSamples.aptUsdtPool) 5 0 = Some r
    /\ (5 | tickLower r) /\ (5 | tickUpper r).
Proof.
  destruct (calculateOptimalRatioData RatioSamples.identityTicks
              RatioSamples.hundredPerToken "0xpool" (RangeNumber 5)
              (Some RatioSamples.aptUsdtPool) 5 0) as [r|] eqn:Hr;
    [|vm_compute in Hr; discriminate].
  exists r. split; [reflexivity|].
  destruct (custom_range_is_widened_to_the_spacing _ _ _ _ _ _ _ _ Hr)
    as (H1 & H2 & _).
  split; [exact H1|exact H2].
Defined.

End RangeProperties.

(** ** The position a top-up goes to *)

Section NewestProperties.
Import RebalanceExecution.

(** X20. The position the orchestrator tops up is the most recently
    created one of the pool: [newest] returns nothing only for an empty
    list, and otherwise a position of the list that no other one is
    younger than, the first such in the order of the list. *)
Theorem newest_is_the_most_recent (l : list Read.HyperionPosition) p :
  newest l = Some p ->
  exists before after,
    l = before ++ p :: after
    /\ (forall q, In q before -> Read.createdAt q < Read.createdAt p)
    /\ (forall q, In q after -> Read.createdAt q <= Read.createdAt p).
Proof.
  revert p. induction l as [|a l IH]; intros p; cbn [newest]; [discriminate|].
  destruct (newest l) as [q|] eqn:Hq.
  - destruct (IH q eq_refl) as (before & after & -> & Hb & Ha).
    destruct (Read.createdAt a <? Read.createdAt q) eqn:E.
    + intros [= <-]. apply Z.ltb_lt in E.
      exists (a :: before), after. split; [reflexivity|]. split.
      * intros x [<-|Hx]; [exact E|now apply Hb].
      * exact Ha.
    + intros [= <-]. apply Z.ltb_ge in E.
      exists [], (before ++ q :: after). split; [reflexivity|]. split.
      * intros x [].
      * intros x Hx. apply in_app_iff in Hx. destruct Hx as [Hx|[<-|Hx]].
        -- specialize (Hb x Hx). lia.
        -- exact E.
        -- specialize (Ha x Hx). lia.
  - intros [= <-]. destruct l as [|b l]; [|cbn in Hq; destruct (newest l);
      [destruct (_ <? _)|]; discriminate].
    exists [], []. split; [reflexivity|]. split; intros x [].
Qed.

Lemma newest_is_the_most_recent_witness :
  exists before after,
    [Samples.positionIn Samples.usdtPoolId 100 200 150;
     Samples.brokenPosition 100 200 150]
    = before ++ Samples.positionIn Samples.usdtPoolId 100 200 150 :: after.
Proof.
  destruct (newest_is_the_most_recent
              [Samples.positionIn Samples.usdtPoolId 100 200 150;
               Samples.brokenPosition 100 200 150]
              (Samples.positionIn Samples.usdtPoolId 100 200 150) eq_refl)
    as (before & after & E & _).
  exists before, after. exact E.
Defined.

End NewestProperties.

(** ** Liquidity within given maximum amounts *)

Section CustomBalanceProperties.
Import Ratio.
Import CreatePool.
Import AddLiquidity.
Import MaxTokenLiquidity.

Variable estCurrencyBAmountFromA : EstArgs -> Result Z.
Variable estCurrencyAAmountFromB : EstBArgs -> Result Z.
Variable actualTickLower actualTickUpper : Z.
Variable actualFeeTierIndex : FeeTierIndex.

(** Whatever the oracles answer, the final amounts stay within the two
    maxima. *)
Lemma finalAmounts_within r custom1 custom2 priority pct amounts :
  (0 <= custom1)%Q -> (0 <= custom2)%Q ->
  (0 <= pct)%Q -> (pct <= 1)%Q -> (0 < liquidityRatio r)%Q ->
  finalAmounts estCurrencyBAmountFromA estCurrencyAAmountFromB actualTickLower
    actualTickUpper actualFeeTierIndex r custom1 custom2 priority pct = Ok amounts ->
  (fst amounts <= custom1)%Q /\ (snd amounts <= custom2)%Q
  /\ match priority with
     | PriorityA => (fst amounts == custom1 * pct)%Q
     | PriorityB => (snd amounts <= custom2 * pct)%Q
     end.
Proof.
  intros H1 H2 Hp0 Hp1 Hlr. unfold finalAmounts. cbv zeta.
  destruct priority.
  - destruct (estCurrencyBAmountFromA _) as [raw|e]; cbn [bindR]; [|discriminate].
    destruct (num_gt _ custom2) eqn:E; [discriminate|].
    intros [= <-]. cbn [fst snd].
    assert (Hle : (inject_Z raw / pow10 (r_token2Decimals r) <= custom2)%Q).
    { destruct (Qlt_le_dec custom2 (inject_Z raw / pow10 (r_token2Decimals r)))
        as [Hlt|Hle]; [|exact Hle].
      apply num_gt_iff in Hlt. congruence. }
    split; [nra|]. split; [exact Hle|reflexivity].
  - match goal with
    | |- match ?m with _ => _ end = _ -> _ => destruct m as [final1|e] eqn:Eest
    end.
    + intros [= <-]. cbn [fst snd].
      destruct (estCurrencyAAmountFromB _) as [raw|e]; cbn [bindR] in Eest;
        [|discriminate].
      destruct (num_gt _ custom1) eqn:E; [discriminate|].
      injection Eest as <-.
      assert (Hle : (inject_Z raw / pow10 (r_token1Decimals r) <= custom1)%Q).
      { destruct (Qlt_le_dec custom1 (inject_Z raw / pow10 (r_token1Decimals r)))
          as [Hlt|Hle]; [|exact Hle].
        apply num_gt_iff in Hlt. congruence. }
      split; [exact Hle|]. split; nra.
    + destruct (num_gt (custom2 * pct / liquidityRatio r) custom1) eqn:E.
      * intros [= <-]. cbn [fst snd]. apply num_gt_iff in E.
        assert (Hx : (custom1 * liquidityRatio r < custom2 * pct)%Q).
        { assert (Ediv : (custom2 * pct
                          == custom2 * pct / liquidityRatio r * liquidityRatio r)%Q)
            by (field; lra).
          rewrite Ediv. apply Qmult_lt_compat_r; assumption. }
        set (lr := liquidityRatio r) in *.
        assert (Hc : (0 <= custom1 * lr)%Q) by (apply Qmult_le_0_compat; lra).
        assert (Hy : (custom1 * pct * lr <= custom1 * lr)%Q) by nra.
        split; [nra|]. split; [nra|nra].
      * intros [= <-]. cbn [fst snd].
        assert (Hle : (custom2 * pct / liquidityRatio r <= custom1)%Q).
        { destruct (Qlt_le_dec custom1 (custom2 * pct / liquidityRatio r))
            as [Hlt|Hle]; [|exact Hle].
          apply num_gt_iff in Hlt. congruence. }
        split; [exact Hle|]. split; nra.
Qed.

Lemma floor_scaled_le (x bound : Q) (d : Z) :
  (x <= bound)%Q -> (inject_Z (Math_floor (x * pow10 d)) <= bound * pow10 d)%Q.
Proof.
  intros Hle. pose proof (pow10_pos d) as Hpow.
  pose proof (Qfloor_le (x * pow10 d)) as Hf. fold (Math_floor (x * pow10 d)) in Hf.
  apply Qle_trans with (1 := Hf). apply Qmult_le_compat_r; [exact Hle|lra].
Qed.

(** X21. [executeAddLiquidityWithCustomBalances] keeps within the maxima it
    is given: with maxima that are not negative, a liquidity percentage
    between 0 and 1 and a positive liquidity ratio, the raw amounts it
    hands to the payload builder are at most the two maxima (scaled by
    the decimals), each at least 100000 raw units, and the prioritised
    token at most its maximum times the liquidity percentage.  With
    priority on token B it never fails for want of token A: an estimate
    above the maximum (or a failing estimate) is replaced by the amounts
    the liquidity ratio gives. *)
Theorem custom_balances_are_respected
    r positionId custom1 custom2 priority pct params :
  (0 <= custom1)%Q -> (0 <= custom2)%Q ->
  (0 <= pct)%Q -> (pct <= 1)%Q -> (0 < liquidityRatio r)%Q ->
  customBalancesAllocation estCurrencyBAmountFromA estCurrencyAAmountFromB (Some r)
    actualTickLower actualTickUpper actualFeeTierIndex positionId custom1 custom2
    priority pct = Ok params ->
  (inject_Z (a_currencyAAmount params) <= custom1 * pow10 (r_token1Decimals r))%Q
  /\ (inject_Z (a_currencyBAmount params) <= custom2 * pow10 (r_token2Decimals r))%Q
  /\ 100000 <= a_currencyAAmount params
  /\ 100000 <= a_currencyBAmount params
  /\ match priority with
     | PriorityA =>
         (inject_Z (a_currencyAAmount params)
          <= custom1 * pct * pow10 (r_token1Decimals r))%Q
     | PriorityB =>
         (inject_Z (a_currencyBAmount params)
          <= custom2 * pct * pow10 (r_token2Decimals r))%Q
     end
  /\ (forall maximum1 maximum2 percentage,
        exists amounts,
          finalAmounts estCurrencyBAmountFromA estCurrencyAAmountFromB
            actualTickLower actualTickUpper actualFeeTierIndex r maximum1 maximum2
            PriorityB percentage = Ok amounts).
Proof.
  intros H1 H2 Hp0 Hp1 Hlr. unfold customBalancesAllocation. cbv zeta.
  destruct (finalAmounts _ _ _ _ _ r custom1 custom2 priority pct)
    as [amounts|e] eqn:Ea; cbn [bindR]; [|discriminate].
  destruct (finalAmounts_within r custom1 custom2 priority pct amounts
              H1 H2 Hp0 Hp1 Hlr Ea) as (B1 & B2 & B3).
  destruct ((_ <? 100000) || (_ <? 100000)) eqn:Emin; [discriminate|].
  apply orb_false_iff in Emin. destruct Emin as [M1 M2].
  apply Z.ltb_ge in M1, M2.
  intros [= <-]. cbn [a_currencyAAmount a_currencyBAmount].
  split; [now apply floor_scaled_le|]. split; [now apply floor_scaled_le|].
  split; [exact M1|]. split; [exact M2|].
  split.
  - destruct priority.
    + apply floor_scaled_le. rewrite B3. apply Qle_refl.
    + now apply floor_scaled_le.
  - intros m1 m2 q. unfold finalAmounts. cbv zeta.
    match goal with
    | |- exists _, match ?m with _ => _ end = _ => destruct m as [final1|e']
    end; [eexists; reflexivity|].
    destruct (num_gt _ m1); eexists; reflexivity.
Qed.

End CustomBalanceProperties.

Lemma custom_balances_are_respected_witness :
  exists params,
    MaxTokenLiquidity.customBalancesAllocation
      (fun args => Ok (Ratio.currencyAAmount args))
      (fun args => Ok (MaxTokenLiquidity.b_currencyBAmount args))
      (Some Samples.fundedRatio) 100 200 Ratio.PER_0_05_SPACING_5 "0xp1" 4 1000
      MaxTokenLiquidity.PriorityA (95 # 100) = Ok params
    /\ (inject_Z (AddLiquidity.a_currencyBAmount params)
        <= 1000 * pow10 (Ratio.r_token2Decimals Samples.fundedRatio))%Q.
Proof.
  destruct (MaxTokenLiquidity.customBalancesAllocation
              (fun args => Ok (Ratio.currencyAAmount args))
              (fun args => Ok (MaxTokenLiquidity.b_currencyBAmount args))
              (Some Samples.fundedRatio) 100 200 Ratio.PER_0_05_SPACING_5 "0xp1"
              4 1000 MaxTokenLiquidity.PriorityA (95 # 100)) as [params|] eqn:E;
    [|vm_compute in E; discriminate].
  exists params. split; [reflexivity|].
  refine (proj1 (proj2 (custom_balances_are_respected _ _ _ _ _
            Samples.fundedRatio "0xp1" 4 1000 MaxTokenLiquidity.PriorityA (95 # 100)
            params _ _ _ _ _ E))); vm_compute; try discriminate; reflexivity.
Defined.

(** ** The swap the orchestrator asks for *)

Section SwapRequestProperties.
Import Pools.
Import Ratio.
Import RatioFacts.
Import RebalanceExecution.

Lemma nine_tenths_floor (raw : Z) (bound : Q) :
  0 <= raw -> (inject_Z raw <= bound)%Q ->
  0 <= Math_floor (inject_Z raw * (9 # 10))
  /\ (inject_Z (Math_floor (inject_Z raw * (9 # 10))) <= (9 # 10) * bound)%Q.
Proof.
  intros Hraw Hb.
  assert (Hq : (0 <= inject_Z raw)%Q) by (rewrite <- (Zle_Qle 0); exact Hraw).
  pose proof (Qfloor_le (inject_Z raw * (9 # 10))) as Hf.
  fold (Math_floor (inject_Z raw * (9 # 10))) in Hf.
  split; [|lra].
  change 0 with (Math_floor 0). apply Qfloor_resp_le. lra.
Qed.

(** X22. The swap the orchestrator asks for after a removal is 90% of the
    recommended one, and so stays below nine tenths of what the wallet
    holds of the token to sell.  For ratio data computed by
    [calculateOptimalRatioData] with a recommended swap, the request of
    the swap step carries a raw amount that is not negative and at most
    0.9 times the donor balance scaled by its decimals; the swap step
    consults [getSwapPayload] with exactly this request (a failure there
    is the failure of the step), and [getSwapPayload] hands the amount
    on unchanged, with the APT address replaced by the coin type and the
    account as recipient. *)
Theorem orchestrator_swaps_at_most_nine_tenths
    priceToTick est id rangePercent p b1 b2 r plan address :
  calculateOptimalRatioData priceToTick est id rangePercent (Some p) b1 b2 = Some r ->
  swapRequested r = Some plan ->
  let request := Swap.orchestratorRequest plan address in
  0 <= sr_swapAmountRaw request
  /\ ((sr_swapFromToken request = token2 p
       /\ (inject_Z (sr_swapAmountRaw request)
           <= (9 # 10) * (token2Balance r * pow10 (token2Decimals p)))%Q)
      \/ (sr_swapFromToken request = token1 p
          /\ (inject_Z (sr_swapAmountRaw request)
              <= (9 # 10) * (availableToken1 r * pow10 (token1Decimals p)))%Q))
  /\ (forall c d e,
        generateRatioResponse c AfterRemoval = Some r ->
        getSwapPayload c request = Throw e ->
        swapStep c address d = (d, Throw e))
  /\ (forall c d payload hash,
        generateRatioResponse c AfterRemoval = Some r ->
        getSwapPayload c request = Ok payload ->
        RebalanceExecution.executeTransaction c payload "swap (90%)" = Ok hash ->
        exists d',
          swapStep c address d = (d', Ok tt)
          /\ swapExecuted d' = true
          /\ RebalanceExecution.transactionHashes d'
             = RebalanceExecution.transactionHashes d ++ [hash])
  /\ (forall apiKey estToAmount params,
        Swap.getSwapPayload apiKey estToAmount request = Ok params ->
        Swap.currencyAAmount params = sr_swapAmountRaw request
        /\ Swap.currencyA params
           = CreatePool.convertAPTAddressForTransaction (swapFromToken plan)
        /\ Swap.currencyB params
           = CreatePool.convertAPTAddressForTransaction (swapToToken plan)
        /\ Swap.recipient params = address
        /\ exists estimate,
             estToAmount (sr_swapAmountRaw request) (swapFromToken plan)
               (swapToToken plan) = Ok estimate
             /\ Swap.currencyBAmount params = Swap.amountOut estimate).
Proof.
  intros Hr Hreq. cbv zeta.
  assert (Hplan : swap r = Some plan).
  { unfold swapRequested in Hreq. destruct (swap r) as [pl|]; [|discriminate].
    destruct (_ && _); [|discriminate]. exact Hreq. }
  destruct (calculateOptimalRatioData_fields _ _ _ _ _ _ _ _ Hr)
    as (Eb2 & _ & _ & _ & Eswap).
  pose proof Hplan as Hcases. rewrite Eswap in Hcases.
  apply swapDecision_cases, swapFor_cases in Hcases.
  assert (Hbound : forall (amount balance : Q) (d : Z),
             (0 <= amount)%Q -> (amount < balance)%Q ->
             0 <= Math_floor (inject_Z (Math_floor (amount * pow10 d)) * (9 # 10))
             /\ (inject_Z (Math_floor (inject_Z (Math_floor (amount * pow10 d))
                                       * (9 # 10)))
                 <= (9 # 10) * (balance * pow10 d))%Q).
  { intros amount balance d H0 Hlt. pose proof (pow10_pos d) as Hpow.
    apply nine_tenths_floor.
    - change 0 with (Math_floor 0). apply Qfloor_resp_le.
      apply Qmult_le_0_compat; lra.
    - pose proof (Qfloor_le (amount * pow10 d)) as Hf.
      fold (Math_floor (amount * pow10 d)) in Hf.
      apply Qle_trans with (1 := Hf). apply Qmult_le_compat_r; lra. }
  split; [|split; [|split; [|split]]].
  - unfold Swap.orchestratorRequest. cbn [sr_swapAmountRaw].
    destruct Hcases as [(_ & Hlt & ->)|(_ & Hlt & ->)]; cbn [swapAmountRaw];
      apply (Hbound _ _ _ (Math_abs_nonneg _) Hlt).
  - unfold Swap.orchestratorRequest. cbn [sr_swapAmountRaw sr_swapFromToken].
    destruct Hcases as [(_ & Hlt & ->)|(_ & Hlt & ->)];
      cbn [swapAmountRaw swapFromToken]; [left|right];
      (split; [reflexivity|]).
    + rewrite Eb2. apply (Hbound _ _ _ (Math_abs_nonneg _) Hlt).
    + apply (Hbound _ _ _ (Math_abs_nonneg _) Hlt).
  - intros c d e Hgen Hthrow. unfold swapStep. rewrite Hgen, Hreq.
    unfold bindS, lift. fold (Swap.orchestratorRequest plan address).
    now rewrite Hthrow.
  - intros c d payload hash Hgen Hok Hexec. unfold swapStep. rewrite Hgen, Hreq.
    unfold bindS, lift, modify. fold (Swap.orchestratorRequest plan address).
    rewrite Hok, Hexec. eexists. split; [reflexivity|]. split; reflexivity.
  - intros apiKey estToAmount params. unfold Swap.getSwapPayload.
    destruct (negb (truthy_string apiKey)); [discriminate|].
    cbn [Swap.orchestratorRequest sr_swapAmountRaw sr_swapFromToken sr_swapToToken
         sr_recipient].
    destruct (estToAmount _ _ _) as [estimate|e] eqn:Ee; cbn [bindR]; [|discriminate].
    intros [= <-]. cbn. repeat split. exists estimate. split; reflexivity.
Qed.

End SwapRequestProperties.

Lemma orchestrator_swaps_at_most_nine_tenths_witness :
  exists r plan,
    Ratio.calculateOptimalRatioData RatioSamples.identityTicks
      RatioSamples.hundredPerToken "0xpool" Pools.RangeNull
      (Some RatioSamples.aptUsdtPool) 5 0 = Some r
    /\ RebalanceExecution.swapRequested r = Some plan
    /\ 0 <= RebalanceExecution.sr_swapAmountRaw (Swap.orchestratorRequest plan "0xme").
Proof.
  destruct (Ratio.calculateOptimalRatioData RatioSamples.identityTicks
              RatioSamples.hundredPerToken "0xpool" Pools.RangeNull
              (Some RatioSamples.aptUsdtPool) 5 0) as [r|] eqn:Hr;
    [|vm_compute in Hr; discriminate].
  destruct (RebalanceExecution.swapRequested r) as [plan|] eqn:Hplan;
    [|exfalso; vm_compute in Hr; injection Hr as <-; vm_compute in Hplan;
      discriminate].
  exists r, plan. split; [reflexivity|]. split; [exact Hplan|].
  exact (proj1 (orchestrator_swaps_at_most_nine_tenths _ _ _ _ _ _ _ _ _ "0xme"%string
                  Hr Hplan)).
Defined.

(** ** The retrying balance fetch *)

Section BalanceFetchProperties.
Import Ratio.
Import BalanceFetch.

Variable fetchBalances : nat -> Result (number * number).
Variable token1Symbol token2Symbol : string.

(** X23. The balance fetch of the ratio calculator makes at least one and
    at most three attempts.  Outside the APT/stkAPT pair it stops at
    the first answer.  On the APT/stkAPT pair, when the three attempts
    are answered, it takes the first answer in which both balances
    exceed 0.001 and otherwise the third answer, as it is.  When every
    attempt raises, the balances stay at zero; an attempt that raises
    after one that was answered leaves the earlier answer in place. *)
Theorem balance_fetch_takes_the_first_plausible_answer :
  let final := fetchWithRetry fetchBalances token1Symbol token2Symbol in
  (1 <= balanceFetchAttempts final <= 3)%nat
  /\ (isAPTstkAPTPool token1Symbol token2Symbol = false ->
      forall answer,
        fetchBalances 1%nat = Ok answer ->
        (token1Balance final, token2Balance final) = answer
        /\ balanceFetchAttempts final = 1%nat)
  /\ (isAPTstkAPTPool token1Symbol token2Symbol = true ->
      forall a1 a2 a3,
        fetchBalances 1%nat = Ok a1 -> fetchBalances 2%nat = Ok a2 ->
        fetchBalances 3%nat = Ok a3 ->
        (token1Balance final, token2Balance final)
        = (if plausible a1 then a1 else if plausible a2 then a2 else a3))
  /\ ((forall n, exists e, fetchBalances n = Throw e) ->
      token1Balance final = 0%Q /\ token2Balance final = 0%Q
      /\ balanceFetchAttempts final = 3%nat)
  /\ (forall a1 e2 e3,
        fetchBalances 1%nat = Ok a1 -> plausible a1 = false ->
        isAPTstkAPTPool token1Symbol token2Symbol = true ->
        fetchBalances 2%nat = Throw e2 -> fetchBalances 3%nat = Throw e3 ->
        (token1Balance final, token2Balance final) = a1).
Proof.
  cbv zeta. unfold fetchWithRetry, maxBalanceFetchAttempts, plausible.
  cbn [retry balanceFetchAttempts token1Balance token2Balance Nat.ltb Nat.leb].
  assert (Hde : forall a b, negb a || negb b = negb (a && b))
    by (intros [|] [|]; reflexivity).
  split; [|split; [|split; [|split]]].
  - destruct (fetchBalances 1%nat) as [[x1 y1]|e1];
      destruct (fetchBalances 2%nat) as [[x2 y2]|e2];
      destruct (fetchBalances 3%nat) as [[x3 y3]|e3];
      destruct (isAPTstkAPTPool token1Symbol token2Symbol);
      repeat match goal with
             | |- context [num_gt ?a ?b] => destruct (num_gt a b)
             end; cbn; lia.
  - intros Hpair [x1 y1] E1. rewrite E1, Hpair. cbn. split; reflexivity.
  - intros Hpair [x1 y1] [x2 y2] [x3 y3] E1 E2 E3.
    rewrite E1, E2, E3, Hpair. cbn [fst snd].
    rewrite !Hde.
    destruct (num_gt x1 (1 # 1000) && num_gt y1 (1 # 1000)); cbn; [reflexivity|].
    destruct (num_gt x2 (1 # 1000) && num_gt y2 (1 # 1000)); cbn; [reflexivity|].
    rewrite andb_false_r. reflexivity.
  - intros Hall.
    destruct (Hall 1%nat) as [e1 ->]. destruct (Hall 2%nat) as [e2 ->].
    destruct (Hall 3%nat) as [e3 ->]. cbn. repeat split; reflexivity.
  - intros [x1 y1] e2 e3 E1 Hp Hpair E2 E3. rewrite E1, E2, E3, Hpair.
    cbn [fst snd] in Hp. rewrite Hde, Hp. cbn. reflexivity.
Qed.

End BalanceFetchProperties.

(** ** The webhook handler's guard against duplicates *)

Section WorkerProperties.
Import WorkerFetch.

Variable Number_toString : Z -> string.

Lemma append_nil (b : string) : ("" ++ b)%string = b.
Proof. reflexivity. Qed.

Lemma append_cons (x : ascii) (a b : string) :
  (String x a ++ b)%string = String x (a ++ b).
Proof. reflexivity. Qed.

Lemma prefix_cons (x : ascii) (a s : string) :
  String.prefix (String x a) (String x s) = String.prefix a s.
Proof. simpl. destruct (ascii_dec x x) as [_|Hne]; [reflexivity|congruence]. Qed.

Lemma prefix_app (a b : string) : String.prefix a (a ++ b) = true.
Proof.
  induction a as [|c a IH]; [rewrite append_nil; destruct b; reflexivity|].
  now rewrite append_cons, prefix_cons.
Qed.

Lemma prefix_app_r (w t u : string) :
  String.prefix w t = true -> String.prefix w (t ++ u) = true.
Proof.
  revert t. induction w as [|c w IH]; intros t H.
  - destruct (t ++ u)%string; reflexivity.
  - destruct t as [|d t]; [discriminate|]. rewrite append_cons.
    simpl in H |- *. destruct (ascii_dec c d); [now apply IH|discriminate].
Qed.

Lemma prefix_app_app (a b c : string) :
  String.prefix (a ++ b) (a ++ b ++ c) = true.
Proof.
  induction a as [|x a IH]; [rewrite !append_nil; apply prefix_app|].
  now rewrite !append_cons, prefix_cons.
Qed.

Lemma includes_prefix (s sub : string) :
  String.prefix sub s = true -> includes s sub = true.
Proof. intros H. destruct s; cbn [includes]; rewrite H; reflexivity. Qed.

Lemma includes_app_l (a s sub : string) :
  includes s sub = true -> includes (a ++ s) sub = true.
Proof.
  intros H. induction a as [|c a IH]; [exact H|].
  rewrite append_cons. cbn [includes]. rewrite IH. apply orb_true_r.
Qed.

Lemma prefix_firstWord (text : string) : String.prefix (firstWord text) text = true.
Proof.
  induction text as [|c text IH]; [reflexivity|]. simpl firstWord.
  destruct (Ascii.eqb c " "); [reflexivity|]. now rewrite prefix_cons.
Qed.

Lemma append_assoc (a b c : string) : ((a ++ b) ++ c)%string = (a ++ b ++ c)%string.
Proof.
  induction a as [|x a IH]; [reflexivity|]. rewrite !append_cons. now rewrite IH.
Qed.

(** The entry of a started command matches every command of the same
    chat with the same command word. *)
Lemma commandId_matches (chat text text' stamp : string) :
  firstWord text' = firstWord text ->
  startsWith (chat ++ "_" ++ text ++ "_" ++ stamp) (chat ++ "_") = true
  /\ includes (chat ++ "_" ++ text ++ "_" ++ stamp) (firstWord text') = true.
Proof.
  intros Hw. split.
  - unfold startsWith. apply prefix_app_app.
  - rewrite Hw. apply includes_app_l. apply (includes_app_l "_").
    apply includes_prefix. apply prefix_app_r. apply prefix_firstWord.
Qed.

(** X24. The webhook handler does not start a long command twice.  Once a
    [/rebalance] or [/addliquidity] command of a chat has been started,
    and for as long as it is being processed, every command of that chat
    with the same command word that arrives less than 30 seconds later
    is acknowledged without being started, whatever its arguments, and
    leaves the table as the clean-up left it.  The guard is a time
    window, not a lock: a long command finds no obstacle in entries that
    are 30 seconds old or older, so that it is started again while the
    first one may still be running. *)
Theorem duplicate_long_command_is_not_started
    now0 chat text0 table0 table1 commandId :
  fetch Number_toString now0 (Some chat) text0 table0 = (table1, Started commandId) ->
  (forall table now1 text1,
      table !! commandId = Some now0 ->
      now0 <= now1 -> now1 - now0 < DEDUPLICATION_WINDOW ->
      isLongCommand text1 = true ->
      firstWord text1 = firstWord text0 ->
      fetch Number_toString now1 (Some chat) text1 table
      = (cleanupOldCommands now1 table, AlreadyProcessing))
  /\ table1 !! commandId = Some now0
  /\ finished commandId table1 !! commandId = None
  /\ (forall table now1 text1,
        (forall key stamp,
            table !! key = Some stamp -> DEDUPLICATION_WINDOW <= now1 - stamp) ->
        isLongCommand text1 = true ->
        exists table2 commandId2,
          fetch Number_toString now1 (Some chat) text1 table
          = (table2, Started commandId2)
          /\ table2 !! commandId2 = Some now1).
Proof.
  unfold fetch. cbv zeta.
  destruct (isLongCommand text0); [|discriminate].
  destruct (isAlreadyProcessing chat text0 now0 _); [discriminate|].
  intros [= <- <-]. split; [|split; [|split]].
  - intros table now1 text1 Hentry Hlater Hsoon Hlong Hword.
    rewrite Hlong.
    replace (isAlreadyProcessing chat text1 now1 (cleanupOldCommands now1 table))
      with true; [reflexivity|].
    symmetry. unfold isAlreadyProcessing. apply existsb_exists.
    exists ((chat ++ "_" ++ text0) ++ "_" ++ Number_toString now0, now0)%string.
    split.
    + apply list_elem_of_In, elem_of_map_to_list.
      unfold cleanupOldCommands. apply map_lookup_filter_Some.
      split; [exact Hentry|]. cbn. unfold DEDUPLICATION_WINDOW in *. lia.
    + cbn [fst snd].
      replace ((chat ++ "_" ++ text0) ++ "_" ++ Number_toString now0)%string
        with (chat ++ "_" ++ text0 ++ "_" ++ Number_toString now0)%string.
      * destruct (commandId_matches chat text0 text1 (Number_toString now0) Hword)
          as [-> ->].
        cbn [andb]. apply Z.ltb_lt. exact Hsoon.
      * now rewrite !append_assoc.
  - apply lookup_insert_eq.
  - unfold finished. apply lookup_delete_eq.
  - intros table now1 text1 Hold Hlong. rewrite Hlong.
    replace (isAlreadyProcessing chat text1 now1 (cleanupOldCommands now1 table))
      with false.
    + eexists. eexists. split; [reflexivity|]. apply lookup_insert_eq.
    + symmetry. unfold isAlreadyProcessing.
      destruct (existsb _ _) eqn:E; [|reflexivity]. exfalso.
      apply existsb_exists in E. destruct E as ([key stamp] & Hin & Hmatch).
      apply list_elem_of_In, elem_of_map_to_list in Hin.
      unfold cleanupOldCommands in Hin. apply map_lookup_filter_Some in Hin.
      destruct Hin as [Hin _]. specialize (Hold key stamp Hin).
      cbn [fst snd] in Hmatch. apply andb_true_iff in Hmatch.
      destruct Hmatch as [_ Hlt]. apply Z.ltb_lt in Hlt. lia.
Qed.

End WorkerProperties.

Lemma duplicate_long_command_is_not_started_witness :
  exists table1 commandId,
    WorkerFetch.fetch (fun _ => "1700000000000"%string) 1700000000000 (Some "42"%string)
      "/rebalance 0xpool 5" ∅ = (table1, WorkerFetch.Started commandId)
    /\ table1 !! commandId = Some 1700000000000.
Proof.
  destruct (WorkerFetch.fetch (fun _ => "1700000000000"%string) 1700000000000
              (Some "42"%string) "/rebalance 0xpool 5" ∅) as [table1 outcome] eqn:E.
  destruct outcome as [|commandId|]; [exfalso|..]; [vm_compute in E; discriminate| |
    exfalso; vm_compute in E; discriminate].
  exists table1, commandId. split; [reflexivity|].
  exact (proj1 (proj2 (duplicate_long_command_is_not_started _ _ _ _ _ _ _ E))).
Defined.

(** ** What every cycle of the batch controller reports *)

Section FlowInvariant.
Import Pools.
Import RebalancingFlow.

Variable c : Collaborators.
Variable defaultPoolsToManage : list PoolConfig.

(** No more successes than operations started, and no transaction hash
    without an operation. *)
Local Abbreviation Sound r :=
  (le (successfulRebalances (run_details r)) (length (started r))
   /\ (started r = [] -> transactionHashes (run_details r) = [])).

Lemma absorb_successful res prefix d :
  (successfulRebalances (absorb res prefix d) <= S (successfulRebalances d))%nat.
Proof.
  unfold absorb. cbv zeta.
  destruct (RebalanceExecution.success res);
    [destruct (RebalanceExecution.additionalLiquidityAdded _)|]; cbn; lia.
Qed.

Lemma processForced_sound targetPool positions r :
  Sound r -> Sound (processForced c targetPool positions r).
Proof.
  unfold processForced. revert r.
  induction positions as [|pos rest IH]; intros r Hr; cbn [fold_left]; [exact Hr|].
  apply IH. destruct Hr as [Hs _].
  destruct (executeRebalancing c pos targetPool true) as [res|e];
    cbn [update start run_details started]; rewrite length_app; cbn [length].
  - split; [|intros H; destruct (started r); discriminate].
    pose proof (absorb_successful res "" (incProcessed (run_details r))).
    cbn in H. lia.
  - split; [cbn; lia|intros H; destruct (started r); discriminate].
Qed.

Lemma processInactive_sound pools positions r :
  Sound r -> Sound (processInactive c pools positions r).
Proof.
  unfold processInactive. revert r.
  induction positions as [|pos rest IH]; intros r Hr; cbn [fold_left]; [exact Hr|].
  apply IH. destruct Hr as [Hs Hh].
  destruct (findPool pools _) as [cfg|].
  - destruct (executeRebalancing c pos cfg false) as [res|e];
      cbn [update start run_details started]; rewrite length_app; cbn [length].
    + split; [|intros H; destruct (started r); discriminate].
      pose proof (absorb_successful res
                    (RebalanceExecution.poolName pos ++ ": ") (run_details r)).
      lia.
    + split; [cbn; lia|intros H; destruct (started r); discriminate].
  - cbn. split; [exact Hs|exact Hh].
Qed.

Lemma createMissing_successful address missingPool d :
  (successfulRebalances (fst (createMissing c address missingPool d))
   <= S (successfulRebalances d))%nat.
Proof.
  unfold createMissing. cbv zeta.
  destruct (generateRatioResponse c _ _ false) as [ratioData|]; [|cbn; lia].
  destruct (negb _ && negb _); [cbn; lia|].
  destruct (getAccount c); [|cbn; lia].
  destruct (RebalanceExecution.swapRequested ratioData) as [plan|].
  - destruct (bindR (getSwapPayload c _) _) as [swapHash|e]; [|cbn; lia].
    destruct (bindR (getCreatePoolPayload c _) _) as [createHash|e]; cbn; lia.
  - destruct (bindR (getCreatePoolPayload c _) _) as [createHash|e]; cbn; lia.
Qed.

Lemma processMissing_sound address missing r :
  Sound r -> Sound (processMissing c address missing r).
Proof.
  unfold processMissing.
  generalize (slice0 maxPoolsPerExecution missing) as pools. intros pools. revert r.
  induction pools as [|pool rest IH]; intros r Hr; cbn [fold_left]; [exact Hr|].
  apply IH. destruct Hr as [Hs _].
  pose proof (createMissing_successful address pool (run_details r)) as Hc.
  cbn [start run_details] in *.
  destruct (createMissing c address pool (run_details r)) as [d [u|e]];
    cbn [update start run_details started fst] in *; rewrite length_app; cbn [length];
    (split; [cbn; lia|intros H; destruct (started r); discriminate]).
Qed.

(** X25. Whatever the collaborators answer, a cycle of
    [executeRebalancingFlow] reports no more successful operations than
    operations it started and, when it started none, no transaction
    hash and no success count.  It is reported successful only when at
    least one operation succeeded, or when it found nothing to do at
    all. *)
Theorem cycle_reports_only_what_it_started (options : RebalancingOptions) :
  let out := executeRebalancingFlow c defaultPoolsToManage options in
  let d := details (fst out) in
  (successfulRebalances d <= length (snd out))%nat
  /\ (snd out = [] -> transactionHashes d = [] /\ successfulRebalances d = 0%nat)
  /\ (success (fst out) = true ->
      (1 <= successfulRebalances d)%nat
      \/ (snd out = [] /\ processedPositions d = 0%nat)).
Proof.
  cbv zeta.
  assert (Hr0 : Sound {| run_details := initialDetails; started := [] |})
    by (split; [cbn; lia|reflexivity]).
  assert (Hconclude : forall r,
             Sound r ->
             let out := conclude r in
             (successfulRebalances (details (fst out)) <= length (snd out))%nat
             /\ (snd out = [] ->
                 transactionHashes (details (fst out)) = []
                 /\ successfulRebalances (details (fst out)) = 0%nat)
             /\ (success (fst out) = true ->
                 (1 <= successfulRebalances (details (fst out)))%nat
                 \/ (snd out = [] /\ processedPositions (details (fst out)) = 0%nat))).
  { intros r [Hs Hh]. unfold conclude. cbn [fst snd details success].
    split; [exact Hs|]. split.
    - intros Hnil. split; [exact (Hh Hnil)|]. rewrite Hnil in Hs. cbn in Hs. lia.
    - intros Hok. left. apply andb_true_iff in Hok. destruct Hok as [_ Hok].
      apply Nat.ltb_lt in Hok. exact Hok. }
  assert (Hstop : forall ok msg (f : FlowDetails -> FlowDetails),
             (forall d, successfulRebalances (f d) = successfulRebalances d
                        /\ transactionHashes (f d) = transactionHashes d
                        /\ processedPositions (f d) = processedPositions d) ->
             let out :=
               stop ok msg (update f {| run_details := initialDetails; started := [] |}) in
             (successfulRebalances (details (fst out)) <= length (snd out))%nat
             /\ (snd out = [] ->
                 transactionHashes (details (fst out)) = []
                 /\ successfulRebalances (details (fst out)) = 0%nat)
             /\ (success (fst out) = true ->
                 (1 <= successfulRebalances (details (fst out)))%nat
                 \/ (snd out = [] /\ processedPositions (details (fst out)) = 0%nat))).
  { intros ok msg f Hf. unfold stop, update. cbn [fst snd details success run_details
      started length].
    destruct (Hf initialDetails) as (E1 & E2 & E3). rewrite E1, E2, E3. cbn.
    split; [lia|]. split; [intros _; split; reflexivity|].
    intros _. right. split; reflexivity. }
  assert (Hid : forall ok msg,
             let out := stop ok msg {| run_details := initialDetails; started := [] |} in
             (successfulRebalances (details (fst out)) <= length (snd out))%nat
             /\ (snd out = [] ->
                 transactionHashes (details (fst out)) = []
                 /\ successfulRebalances (details (fst out)) = 0%nat)
             /\ (success (fst out) = true ->
                 (1 <= successfulRebalances (details (fst out)))%nat
                 \/ (snd out = [] /\ processedPositions (details (fst out)) = 0%nat))).
  { intros ok msg. cbn. split; [lia|]. split; [intros _; split; reflexivity|].
    intros _. right. split; reflexivity. }
  assert (Hescaped : forall e,
             let out :=
               ({| success := false;
                   message := ("❌ Rebalancing flow failed: " ++ String_of_error e)%string;
                   details := pushError (String_of_error e) initialDetails |},
                @nil Operation) in
             (successfulRebalances (details (fst out)) <= length (snd out))%nat
             /\ (snd out = [] ->
                 transactionHashes (details (fst out)) = []
                 /\ successfulRebalances (details (fst out)) = 0%nat)
             /\ (success (fst out) = true ->
                 (1 <= successfulRebalances (details (fst out)))%nat
                 \/ (snd out = [] /\ processedPositions (details (fst out)) = 0%nat))).
  { intros e. cbn. split; [lia|]. split; [intros _; split; reflexivity|discriminate]. }
  unfold executeRebalancingFlow. cbv zeta.
  destruct (getAccount c) as [address|e]; [|apply Hescaped].
  assert (Hauto : match automaticMode c defaultPoolsToManage address with
                  | Ok out => _
                  | Throw e => _
                  end = match automaticMode c defaultPoolsToManage address with
                        | Ok out => out
                        | Throw e =>
                            ({| success := false;
                                message := ("❌ Rebalancing flow failed: "
                                              ++ String_of_error e)%string;
                                details := pushError (String_of_error e) initialDetails |},
                             [])
                        end) by reflexivity.
  assert (Hautomatic :
            let out := match automaticMode c defaultPoolsToManage address with
                       | Ok out => out
                       | Throw e =>
                           ({| success := false;
                               message := ("❌ Rebalancing flow failed: "
                                             ++ String_of_error e)%string;
                               details := pushError (String_of_error e) initialDetails |},
                            [])
                       end in
            (successfulRebalances (details (fst out)) <= length (snd out))%nat
            /\ (snd out = [] ->
                transactionHashes (details (fst out)) = []
                /\ successfulRebalances (details (fst out)) = 0%nat)
            /\ (success (fst out) = true ->
                (1 <= successfulRebalances (details (fst out)))%nat
                \/ (snd out = [] /\ processedPositions (details (fst out)) = 0%nat))).
  { unfold automaticMode. cbv zeta.
    destruct (negb (c_success _)).
    - apply (Hstop false _ (pushError "Rebalancing check failed")).
      intros d. repeat split.
    - destruct (inactivePositions _) as [|pos rest] eqn:Hpos; cbn [bindR].
      + destruct (getAllPositions c) as [positions|e]; cbn [bindR]; [|apply Hescaped].
        destruct (missingPositionPools defaultPoolsToManage positions) as [|m ms] eqn:Hm.
        * apply Hid.
        * apply Hconclude. apply processInactive_sound.
          pose proof (processMissing_sound address (m :: ms) _ Hr0) as [S1 S2].
          split; [exact S1|exact S2].
      + apply Hconclude. apply processInactive_sound.
        destruct Hr0 as [S1 S2]. split; [exact S1|exact S2]. }
  clear Hauto.
  destruct (o_poolId options) as [id|]; [|exact Hautomatic].
  destruct (String.eqb id ""); [exact Hautomatic|].
  unfold specificMode. cbv zeta.
  destruct (negb (c_success _)); [apply Hid|].
  destruct (inactivePositions _) as [|pos rest].
  - destruct (getAllPositions c) as [positions|e]; cbn [bindR]; [|apply Hescaped].
    destruct (List.filter (inPool id) positions) as [|p ps].
    + destruct (inactivePositions _); [apply Hid|].
      apply Hconclude. apply processForced_sound. exact Hr0.
    + apply Hconclude. apply processForced_sound. exact Hr0.
  - apply Hconclude. apply processForced_sound. exact Hr0.
Qed.

End FlowInvariant.
